(** * SOSIX browser agent: a shallow embedding of the Python sources

    The development follows the layout of the repository:

    - [Py]: the fragment of Python values and string methods the code uses;
    - [NvidiaAPI]: [nvidia_api.py], the chat-completion client with its
      history, its blocking retry loop and its streaming call;
    - [DecisionValidator]: [decision_validator.py];
    - [ActionExecutor]: [action_executor.py] over a small model of the
      browser driver (locators are lists of elements);
    - [PageAnalyzer]: the modal detection of [page_analyzer.py];
    - [BrowserAgent]: the run state, [_execute_decision], the body of
      [_execute_iteratively] and the opening of the start page of
      [browser_agent.py];
    - [ConfigLoader]: [get_nvidia_api_config] of [config_loader.py];
    - [Main]: the command loop of [main.py].

    Everything the program obtains from outside (the HTTP transport, the
    language model, the browser page, the operator) is an explicit input of
    the function that consumes it; everything it does to the outside is
    logged in an event trace. *)

From Stdlib Require Import String Ascii List ZArith Lia Bool Arith.
Import ListNotations.
Open Scope string_scope.
Open Scope nat_scope.
Set Warnings "-register-all".

(* ================================================================== *)
(** * Python values and string methods *)
(* ================================================================== *)

Module Py.

(** Strings are byte strings holding UTF-8.  [str.lower] is modelled on the
    ASCII letters and on the Russian alphabet, which the program's own
    literals use; [str.strip] removes the ASCII white space characters.  On a
    text made of ASCII characters, Russian letters and the crosses of close
    buttons ([plain_text] below) this is what Python does; on other texts Python lowers further letters
    and strips further white space (U+00A0 among them), and the properties
    that depend on it say so. *)

Definition is_space (c : ascii) : bool :=
  let n := nat_of_ascii c in
  ((9 <=? n) && (n <=? 13)) || ((28 <=? n) && (n <=? 32)).

Definition lower_ascii (c : ascii) : ascii :=
  let n := nat_of_ascii c in
  if (65 <=? n) && (n <=? 90) then ascii_of_nat (n + 32) else c.

Fixpoint lower (s : string) : string :=
  match s with
  | EmptyString => EmptyString
  | String c rest =>
      match rest with
      | String d rest' =>
          let n := nat_of_ascii c in
          let m := nat_of_ascii d in
          if (n =? 208) && (144 <=? m) && (m <=? 159)
          then String c (String (ascii_of_nat (m + 32)) (lower rest'))
          else if (n =? 208) && (160 <=? m) && (m <=? 175)
          then String (ascii_of_nat 209) (String (ascii_of_nat (m - 32)) (lower rest'))
          else if (n =? 208) && (m =? 129)
          then String (ascii_of_nat 209) (String (ascii_of_nat 145) (lower rest'))
          else String (lower_ascii c) (lower rest)
      | EmptyString => String (lower_ascii c) EmptyString
      end
  end.

Fixpoint lstrip (s : string) : string :=
  match s with
  | String c rest => if is_space c then lstrip rest else s
  | EmptyString => EmptyString
  end.

Fixpoint rstrip (s : string) : string :=
  match s with
  | EmptyString => EmptyString
  | String c rest =>
      match rstrip rest with
      | EmptyString => if is_space c then EmptyString else String c EmptyString
      | r => String c r
      end
  end.

Definition strip (s : string) : string := rstrip (lstrip s).

Definition startswith (s p : string) : bool := String.prefix p s.

(** [p in s] for strings. *)
Fixpoint contains (s p : string) : bool :=
  if String.prefix p s then true
  else match s with
       | EmptyString => false
       | String _ rest => contains rest p
       end.

(** [s[n:]] where the first [n] characters are ASCII: [n] bytes are
    dropped. *)
Fixpoint drop (n : nat) (s : string) : string :=
  match n, s with
  | O, _ => s
  | S n', String _ rest => drop n' rest
  | S _, EmptyString => EmptyString
  end.

(** [s.replace(old, new)] for a non-empty [old]; [fuel] bounds the scan by
    the length of [s]. *)
Fixpoint replace_go (fuel : nat) (old new s : string) : string :=
  match fuel with
  | O => s
  | S fuel' =>
      match s with
      | EmptyString => EmptyString
      | String c rest =>
          if String.prefix old s
          then new ++ replace_go fuel' old new (drop (String.length old) s)
          else String c (replace_go fuel' old new rest)
      end
  end.

Definition replace (s old new : string) : string :=
  match old with
  | EmptyString => s
  | _ => replace_go (S (String.length s)) old new s
  end.

(** Truth value of a string: non-empty. *)
Definition nonempty (s : string) : bool :=
  match s with EmptyString => false | _ => true end.

Fixpoint mem (x : string) (l : list string) : bool :=
  match l with
  | [] => false
  | y :: l' => String.eqb x y || mem x l'
  end.

(** Parsed JSON, as [json.loads] returns it.  A float is carried by its
    printed form: the program only ever prints or tests it. *)
Inductive value : Type :=
| VNone
| VBool (b : bool)
| VInt (z : Z)
| VFloat (printed : string) (is_zero : bool)
| VStr (s : string)
| VList (l : list value)
| VDict (d : list (string * value)).

Definition dict := list (string * value).

(** [bool(v)]. *)
Definition truthy (v : value) : bool :=
  match v with
  | VNone => false
  | VBool b => b
  | VInt z => negb (Z.eqb z 0)
  | VFloat _ z => negb z
  | VStr s => nonempty s
  | VList l => match l with [] => false | _ => true end
  | VDict d => match d with [] => false | _ => true end
  end.

(** [d.get(k)]: the last binding written wins in a Python dict, which for a
    parsed object is the last occurrence of the key. *)
Fixpoint lookup (d : dict) (k : string) : option value :=
  match d with
  | [] => None
  | (k', v) :: d' =>
      match lookup d' k with
      | Some v' => Some v'
      | None => if String.eqb k k' then Some v else None
      end
  end.

Definition get (d : dict) (k : string) (default : value) : value :=
  match lookup d k with Some v => v | None => default end.

(** [k in d]. *)
Definition has_key (d : dict) (k : string) : bool :=
  match lookup d k with Some _ => true | None => false end.

(** [a or b]. *)
Definition or_else (a b : value) : value := if truthy a then a else b.

(** Exceptions the modelled code can meet.  All of them are subclasses of
    [Exception], which is what the handlers of the program catch; a
    KeyboardInterrupt is not one and is modelled only where the program
    handles it, in [Main]. *)
Inductive exn : Type :=
| AttributeError (msg : string)
| TypeError (msg : string)
| ValueError (msg : string)
| OtherException (msg : string).

(** [str(e)]. *)
Definition message (e : exn) : string :=
  match e with
  | AttributeError m | TypeError m | ValueError m | OtherException m => m
  end.

(** The name Python prints for the class of a value. *)
Definition type_name (v : value) : string :=
  match v with
  | VNone => "NoneType"
  | VBool _ => "bool"
  | VInt _ => "int"
  | VFloat _ _ => "float"
  | VStr _ => "str"
  | VList _ => "list"
  | VDict _ => "dict"
  end.

Definition no_attribute (v : value) (name : string) : exn :=
  AttributeError ("'" ++ type_name v ++ "' object has no attribute '" ++ name ++ "'").

(** A computation that returns or raises. *)
Inductive res (A : Type) : Type :=
| Ret (a : A)
| Raise (e : exn).
Arguments Ret {A} a.
Arguments Raise {A} e.

Definition bind {A B} (m : res A) (k : A -> res B) : res B :=
  match m with
  | Ret a => k a
  | Raise e => Raise e
  end.

Notation "x <- m ;; k" := (bind m (fun x => k))
  (at level 61, m at next level, right associativity).

(** [v.lower().strip()]: only a [str] has these methods. *)
Definition lower_strip (v : value) : res string :=
  match v with
  | VStr s => Ret (strip (lower s))
  | _ => Raise (no_attribute v "lower")
  end.

(** [v.get(k, default)] on a value that may not be a dict. *)
Definition get_of (v : value) (k : string) (default : value) : res value :=
  match v with
  | VDict d => Ret (get d k default)
  | _ => Raise (no_attribute v "get")
  end.

(** [v[:n]] is only evaluated by the program for logging: what matters is
    whether the value can be sliced at all. *)
Definition sliceable (v : value) : res unit :=
  match v with
  | VStr _ | VList _ => Ret tt
  | VDict _ => Raise (TypeError "unhashable type: 'slice'")
  | _ => Raise (TypeError ("'" ++ type_name v ++ "' object is not subscriptable"))
  end.

(** The characters of a text, as iteration and slicing see them: the lead
    byte of a UTF-8 sequence tells how many bytes the character takes. *)
Definition char_width (c : ascii) : nat :=
  let n := nat_of_ascii c in
  if n <? 192 then 1 else if n <? 224 then 2 else if n <? 240 then 3 else 4.

Fixpoint characters_go (fuel : nat) (s : string) : list string :=
  match fuel with
  | O => []
  | S fuel' =>
      match s with
      | EmptyString => []
      | String c _ =>
          String.substring 0 (char_width c) s
          :: characters_go fuel' (drop (char_width c) s)
      end
  end.

Definition characters (s : string) : list string := characters_go (String.length s) s.

(** [s[:n]]: the first [n] characters. *)
Definition take (n : nat) (s : string) : string :=
  String.concat "" (firstn n (characters s)).

Definition is_digit (c : ascii) : bool :=
  let n := nat_of_ascii c in (48 <=? n) && (n <=? 57).

(** Digits with single underscores between them, as [int] reads them. *)
Fixpoint digits_value (s : string) (acc : Z) (after_digit : bool) : option Z :=
  match s with
  | EmptyString => if after_digit then Some acc else None
  | String c rest =>
      if is_digit c
      then digits_value rest (acc * 10 + Z.of_nat (nat_of_ascii c - 48))%Z true
      else if Ascii.eqb c "_"%char && after_digit
      then digits_value rest acc false
      else None
  end.

Definition invalid_literal (s : string) : exn :=
  ValueError ("invalid literal for int() with base 10: " ++ "'" ++ s ++ "'").

(** The white space [int] skips around the digits: tab to carriage return,
    and the space.  (The separators 28 to 31, which [str.strip] removes, are
    not skipped.) *)
Definition is_blank (c : ascii) : bool :=
  let n := nat_of_ascii c in
  ((9 <=? n) && (n <=? 13)) || (n =? 32).

Fixpoint skip_blanks (s : string) : string :=
  match s with
  | String c rest => if is_blank c then skip_blanks rest else s
  | EmptyString => EmptyString
  end.

Fixpoint drop_trailing_blanks (s : string) : string :=
  match s with
  | EmptyString => EmptyString
  | String c rest =>
      match drop_trailing_blanks rest with
      | EmptyString => if is_blank c then EmptyString else String c EmptyString
      | r => String c r
      end
  end.

(** [int(s)] for a text of ASCII characters and Russian letters: white
    space around, an optional sign, ASCII digits.  (Python also reads the
    decimal digits of other scripts.) *)
Definition int_of_str (s : string) : res Z :=
  let t := drop_trailing_blanks (skip_blanks s) in
  let signed :=
    match t with
    | String c rest =>
        if Ascii.eqb c "-"%char then option_map Z.opp (digits_value rest 0%Z false)
        else if Ascii.eqb c "+"%char then digits_value rest 0%Z false
        else digits_value t 0%Z false
    | EmptyString => None
    end in
  match signed with
  | Some z => Ret z
  | None => Raise (invalid_literal s)
  end.

(** Decimal printing of integers, for [str(n)] and f-strings. *)
Fixpoint digits_go (fuel : nat) (n : nat) (acc : string) : string :=
  match fuel with
  | O => acc
  | S fuel' =>
      let acc' := String (ascii_of_nat (48 + Nat.modulo n 10)) acc in
      match Nat.div n 10 with
      | O => acc'
      | q => digits_go fuel' q acc'
      end
  end.

Definition str_of_nat (n : nat) : string := digits_go (S n) n "".

Definition str_of_Z (z : Z) : string :=
  match z with
  | Z0 => "0"
  | Zpos p => str_of_nat (Pos.to_nat p)
  | Zneg p => "-" ++ str_of_nat (Pos.to_nat p)
  end.

(** [repr] of a string: single quotes unless the text holds a single quote
    and no double quote; the backslash, the chosen quote, and the newline,
    carriage return and tab characters are escaped. *)
Definition squote : ascii := ascii_of_nat 39.
Definition dquote : ascii := ascii_of_nat 34.
Definition bslash : ascii := ascii_of_nat 92.

Fixpoint escape (q : ascii) (s : string) : string :=
  match s with
  | EmptyString => EmptyString
  | String c rest =>
      if Ascii.eqb c bslash || Ascii.eqb c q
      then String bslash (String c (escape q rest))
      else if Ascii.eqb c (ascii_of_nat 10)
      then String bslash (String "n"%char (escape q rest))
      else if Ascii.eqb c (ascii_of_nat 13)
      then String bslash (String "r"%char (escape q rest))
      else if Ascii.eqb c (ascii_of_nat 9)
      then String bslash (String "t"%char (escape q rest))
      else String c (escape q rest)
  end.

Definition repr_str (s : string) : string :=
  let q := if contains s (String squote "") && negb (contains s (String dquote ""))
           then dquote else squote in
  String q (escape q s ++ String q "").

Fixpoint join (sep : string) (l : list string) : string :=
  match l with
  | [] => ""
  | [x] => x
  | x :: l' => x ++ sep ++ join sep l'
  end.

(** [repr(v)]. *)
Fixpoint repr (v : value) : string :=
  match v with
  | VNone => "None"
  | VBool true => "True"
  | VBool false => "False"
  | VInt z => str_of_Z z
  | VFloat p _ => p
  | VStr s => repr_str s
  | VList l => "[" ++ join ", " (map repr l) ++ "]"
  | VDict d =>
      "{" ++ join ", " (map (fun kv => repr_str (fst kv) ++ ": " ++ repr (snd kv)) d) ++ "}"
  end.

(** [str(v)], also what an f-string field prints. *)
Definition str (v : value) : string :=
  match v with
  | VStr s => s
  | _ => repr v
  end.

(** A text without white space characters. *)
Definition spaceless (s : string) : Prop :=
  forall c, In c (list_ascii_of_string s) -> is_space c = false.

(** A text made of ASCII characters, of the letters of the Russian
    alphabet (А to я, Ё and ё, two bytes each in UTF-8) and of the two
    crosses × and ✕ that the program looks for on close buttons.  On such a
    text [lower], [strip] and [int_of_str] above are [str.lower],
    [str.strip] and [int]. *)
Fixpoint plain_text (s : string) : bool :=
  match s with
  | EmptyString => true
  | String c rest =>
      let n := nat_of_ascii c in
      if n <? 128 then plain_text rest
      else
        match rest with
        | String d rest' =>
            let m := nat_of_ascii d in
            if ((n =? 208) && ((m =? 129) || ((144 <=? m) && (m <=? 191))))
               || ((n =? 209) && (((128 <=? m) && (m <=? 143)) || (m =? 145)))
               || ((n =? 195) && (m =? 151))
            then plain_text rest'
            else
              match rest' with
              | String e rest'' =>
                  (n =? 226) && (m =? 156) && (nat_of_ascii e =? 149) && plain_text rest''
              | EmptyString => false
              end
        | EmptyString => false
        end
  end.

(** The same for a value: only a text is lowered or stripped. *)
Definition plain_value (v : value) : bool :=
  match v with
  | VStr s => plain_text s
  | _ => true
  end.

End Py.

(* ================================================================== *)
(** * nvidia_api.py *)
(* ================================================================== *)

Module NvidiaAPI.
Import Py.

(** [class Message]. *)
Record Message : Type := mkMessage { role : string; content : string }.

(** [class NvidiaAPIClient]: the attributes the blocking call reads. *)
Record NvidiaAPIClient : Type := mkClient {
  enable_reasoning : bool;
  max_retries : nat;
  retry_delay_base : Z;
  conversation_history : list Message
}.

(** [__init__]: three attempts, one second of base delay, empty history. *)
Definition init (reasoning : bool) : NvidiaAPIClient :=
  {| enable_reasoning := reasoning;
     max_retries := 3;
     retry_delay_base := 1;
     conversation_history := [] |}.

Definition with_history (c : NvidiaAPIClient) (h : list Message) : NvidiaAPIClient :=
  {| enable_reasoning := enable_reasoning c;
     max_retries := max_retries c;
     retry_delay_base := retry_delay_base c;
     conversation_history := h |}.

Definition set_system_message (c : NvidiaAPIClient) (system_message : string) :=
  with_history c [mkMessage "system" system_message].

Definition add_context_message (c : NvidiaAPIClient) (r text : string) :=
  with_history c (conversation_history c ++ [mkMessage r text])%list.

Definition clear_history (c : NvidiaAPIClient) := with_history c [].

(** The request body, without the model name and generation parameters. *)
Record payload : Type := mkPayload {
  messages : list Message;
  stream_flag : bool;
  reasoning_flag : bool
}.

(** [_build_payload]: the message list is a fresh list; the user message is
    appended to that list, not to the client's history. *)
Definition _build_payload (c : NvidiaAPIClient) (message : string)
    (use_history stream : bool) : payload :=
  let messages := if use_history then conversation_history c else [] in
  {| messages := (messages ++ [mkMessage "user" message])%list;
     stream_flag := stream;
     reasoning_flag := enable_reasoning c |}.

(** One entry of [result["choices"]]. *)
Inductive choice : Type :=
| ChoiceMessage (content : option string)
    (* a dict whose "message" is a dict; [content] is message.get("content") *)
| ChoiceFlat (text content : option string)
    (* a dict without a "message" dict; the two [get]s *)
| ChoiceOther.
    (* not a dict *)

(** What one [requests.post] (and the reading of its body) amounts to. *)
Inductive reply : Type :=
| ConnectionFailure
    (* a RequestException or ConnectionError is raised *)
| OtherFailure (msg : string)
    (* any other exception is raised *)
| Status (code : Z) (choices : option (list choice)).
    (* a response; [choices] is None when the body has no such key *)

Inductive event : Type :=
| EvPost (p : payload)
| EvSleep (seconds : Z).

Inductive outcome : Type :=
| Returned (text : string)
| RaisedConnection           (* the connection error re-raised, budget spent *)
| RaisedOther (msg : string) (* the unrecoverable branch *)
| LoopExit                   (* the while condition failed: returns None *)
| Pending.                   (* the transport script ran out *)

Record run : Type := mkRun {
  result : outcome;
  final : NvidiaAPIClient;
  attempt_at_end : nat;
  trace : list event
}.

Definition before (evs : list event) (r : run) : run :=
  {| result := result r;
     final := final r;
     attempt_at_end := attempt_at_end r;
     trace := (evs ++ trace r)%list |}.

Definition text_of (o : option string) : string :=
  match o with Some s => s | None => "" end.

Definition or_text (a b : option string) : option string :=
  match a with
  | Some s => if nonempty s then a else b
  | None => b
  end.

(** The text picked out of the first choice, after [response_text or ""]. *)
Definition response_text (ch : choice) : string :=
  match ch with
  | ChoiceMessage content => text_of content
  | ChoiceFlat text content => text_of (or_text text content)
  | ChoiceOther => ""
  end.

(** [_call_with_retry], from the state the while loop is in: [attempt] is the
    loop variable and [script] what the transport will answer from now on. *)
Fixpoint call_with_retry_from (c : NvidiaAPIClient) (message : string)
    (use_history : bool) (attempt : nat) (script : list reply) : run :=
  if max_retries c <=? attempt then mkRun LoopExit c attempt []
  else
    match script with
    | [] => mkRun Pending c attempt []
    | r :: script' =>
        let post := EvPost (_build_payload c message use_history false) in
        match r with
        | Status code choices =>
            if (code =? 429)%Z then
              before [post; EvSleep 10]
                (call_with_retry_from c message use_history attempt script')
            else if negb (code =? 200)%Z then
              mkRun (RaisedOther ("API Ошибка " ++ str_of_Z code)) c attempt [post]
            else
              match choices with
              | Some (ch :: _) =>
                  let text := response_text ch in
                  let c' := if use_history && nonempty text
                            then add_context_message c "assistant" text
                            else c in
                  mkRun (Returned text) c' attempt [post]
              | _ => mkRun (RaisedOther "Неверный формат ответа API") c attempt [post]
              end
        | ConnectionFailure =>
            let attempt' := S attempt in
            if attempt' <? max_retries c then
              let wait_time := (retry_delay_base c * 2 ^ Z.of_nat (attempt' - 1))%Z in
              before [post; EvSleep wait_time]
                (call_with_retry_from c message use_history attempt' script')
            else mkRun RaisedConnection c attempt' [post]
        | OtherFailure msg => mkRun (RaisedOther msg) c attempt [post]
        end
    end.

Definition _call_with_retry (c : NvidiaAPIClient) (message : string)
    (use_history : bool) (script : list reply) : run :=
  call_with_retry_from c message use_history 0 script.

(** Projections of a trace. *)
Definition sleeps (t : list event) : list Z :=
  flat_map (fun e => match e with EvSleep s => [s] | EvPost _ => [] end) t.

Definition posts (t : list event) : list payload :=
  flat_map (fun e => match e with EvPost p => [p] | EvSleep _ => [] end) t.

Definition is_connection_failure (r : reply) : bool :=
  match r with ConnectionFailure => true | _ => false end.

Definition ok (text : string) : reply :=
  Status 200 (Some [ChoiceMessage (Some text)]).

Definition too_many : reply := Status 429 None.

(** ** [stream_call] *)

(** What one streaming [requests.post] amounts to. *)
Inductive stream_reply : Type :=
| StreamConnectionFailure
    (* the post raises a RequestException or ConnectionError *)
| StreamOtherFailure (e : exn)
    (* the post raises any other exception *)
| StreamStatus (code : Z) (lines : list string) (broken : bool).
    (* a response; [lines] is what iter_lines yields, and [broken] says that
       it then raises a RequestException instead of ending *)

(** [choices[0].get("delta")] for a truthy [choices]. *)
Definition first_delta (choices : value) : res value :=
  match choices with
  | VList (x :: _) => get_of x "delta" VNone
  | VList [] => Raise (OtherException "list index out of range")
  | VStr _ => Raise (no_attribute choices "get")
  | VDict _ => Raise (OtherException "0")
  | _ => Raise (TypeError ("'" ++ type_name choices ++ "' object is not subscriptable"))
  end.

(** The body of the [for line in resp.iter_lines()] loop: the chunks one
    line makes the generator yield.  [json_loads] answers [None] where
    [json.loads] raises. *)
Definition line_chunks (json_loads : string -> option value) (line : string)
    : res (list value) :=
  if negb (nonempty line) then Ret []
  else
    let text := strip line in
    let text := if startswith text "data:" then strip (drop 5 text) else text in
    if negb (nonempty text) || String.eqb text "[DONE]" then Ret []
    else
      match json_loads text with
      | None => Ret [VStr text]
      | Some obj =>
          choices <- get_of obj "choices" VNone ;;
          let choices := or_else choices (VList []) in
          if negb (truthy choices) then Ret []
          else
            delta <- first_delta choices ;;
            let delta := or_else delta (VDict []) in
            r <- get_of delta "reasoning_content" VNone ;;
            reasoning <- (if truthy r then Ret r else get_of delta "reasoning" VNone) ;;
            c <- get_of delta "content" VNone ;;
            content <- (if truthy c then Ret c else get_of delta "text" VNone) ;;
            Ret ((if truthy reasoning then [reasoning] else [])
                 ++ (if truthy content then [content] else []))%list
      end.

(** The whole [for] loop: what was yielded, and the exception that ended
    the loop, if any. *)
Fixpoint lines_chunks (json_loads : string -> option value) (lines : list string)
    : list value * option exn :=
  match lines with
  | [] => ([], None)
  | line :: rest =>
      match line_chunks json_loads line with
      | Raise e => ([], Some e)
      | Ret chunks =>
          let '(more, failure) := lines_chunks json_loads rest in
          ((chunks ++ more)%list, failure)
      end
  end.

Inductive stream_outcome : Type :=
| Finished                    (* the generator returned *)
| StreamConnectionLost        (* the connection error re-raised, budget spent *)
| StreamRaised (e : exn)      (* the unrecoverable branch *)
| StreamLoopExit              (* the while condition failed *)
| StreamPending.              (* the transport script ran out *)

(** A run of the generator, consumed to its end: what it yielded, in order,
    how it ended, and what it did to the transport and the clock. *)
Record stream_run : Type := mkStream {
  stream_result : stream_outcome;
  yielded : list value;
  stream_trace : list event
}.

Definition stream_before (chunks : list value) (evs : list event) (r : stream_run)
    : stream_run :=
  {| stream_result := stream_result r;
     yielded := (chunks ++ yielded r)%list;
     stream_trace := (evs ++ stream_trace r)%list |}.

(** [stream_call], from the state the while loop is in. *)
Fixpoint stream_call_from (json_loads : string -> option value) (c : NvidiaAPIClient)
    (message : string) (use_history : bool) (attempt : nat) (script : list stream_reply)
    : stream_run :=
  if max_retries c <=? attempt then mkStream StreamLoopExit [] []
  else
    match script with
    | [] => mkStream StreamPending [] []
    | r :: script' =>
        let post := EvPost (_build_payload c message use_history true) in
        let attempt' := S attempt in
        let wait_time := (retry_delay_base c * 2 ^ Z.of_nat (attempt' - 1))%Z in
        match r with
        | StreamStatus code lines broken =>
            if (code =? 429)%Z then
              stream_before [] [post; EvSleep 5]
                (stream_call_from json_loads c message use_history attempt script')
            else if negb (code =? 200)%Z then
              mkStream (StreamRaised (OtherException ("API Ошибка " ++ str_of_Z code)))
                       [] [post]
            else
              match lines_chunks json_loads lines with
              | (chunks, Some e) => mkStream (StreamRaised e) chunks [post]
              | (chunks, None) =>
                  if broken then
                    if attempt' <? max_retries c then
                      stream_before chunks [post; EvSleep wait_time]
                        (stream_call_from json_loads c message use_history attempt' script')
                    else mkStream StreamConnectionLost chunks [post]
                  else mkStream Finished chunks [post]
              end
        | StreamConnectionFailure =>
            if attempt' <? max_retries c then
              stream_before [] [post; EvSleep wait_time]
                (stream_call_from json_loads c message use_history attempt' script')
            else mkStream StreamConnectionLost [] [post]
        | StreamOtherFailure e => mkStream (StreamRaised e) [] [post]
        end
    end.

Definition stream_call (json_loads : string -> option value) (c : NvidiaAPIClient)
    (message : string) (use_history : bool) (script : list stream_reply) : stream_run :=
  stream_call_from json_loads c message use_history 0 script.

Definition is_rate_limit (r : reply) : bool :=
  match r with Status code _ => (code =? 429)%Z | _ => false end.

End NvidiaAPI.

(* ================================================================== *)
(** * decision_validator.py *)
(* ================================================================== *)

Module DecisionValidator.
Import Py.

(** What [json.loads] makes of a text. *)
Inductive loaded : Type :=
| Loaded (v : value)
| JSONDecodeError (msg : string)
| LoadFailure (msg : string).

(** The library functions [parse_decision] calls: the JSON reader and the
    two regular-expression searches, each returning its group 1. *)
Record library : Type := mkLibrary {
  json_loads : string -> loaded;
  search_marker : string -> option string;
    (* re.search(r'решение:\s*({.+})', s, re.IGNORECASE | re.DOTALL) *)
  search_fence : string -> option string
    (* re.search(r'```(?:json)?\s*\n?([^`]+)```', s, re.DOTALL) *)
}.

Definition backticks : string := "```".

(** [parse_decision]: (is_valid, parsed_dict, error_msg). *)
Definition parse_decision (lib : library) (decision_str : string)
    : bool * option dict * string :=
  if negb (nonempty decision_str) then (false, None, "Пустой ответ от модели")
  else
    let clean_str := strip decision_str in
    let clean_str :=
      if contains (lower clean_str) "решение:" then
        match search_marker lib clean_str with
        | Some g => strip g
        | None => clean_str
        end
      else clean_str in
    let clean_str :=
      if contains clean_str backticks then
        match search_fence lib clean_str with
        | Some g => strip g
        | None => clean_str
        end
      else clean_str in
    match json_loads lib clean_str with
    | JSONDecodeError msg => (false, None, "Некорректный JSON: " ++ take 50 msg)
    | LoadFailure msg => (false, None, "Ошибка парсинга: " ++ take 50 msg)
    | Loaded (VDict parsed) =>
        if negb (has_key parsed "action")
        then (false, None, "Отсутствует обязательное поле 'action'")
        else (true, Some parsed, "")
    | Loaded _ => (false, None, "Решение должно быть объектом JSON")
    end.

Definition valid_actions : list string :=
  ["click"; "fill"; "type"; "submit"; "scroll"; "goto";
   "wait"; "ask_user"; "wait_for_user_action"; "confirm_complete"; "press_key"].

Definition locator_actions : list string := ["click"; "fill"; "type"; "submit"].

Definition valid_strategies : list string :=
  ["role"; "text"; "label"; "placeholder"; "css"; "aria-label"; "id"].

(** The normalisation of [value] at the head of [validate_full_decision]:
    numbers (and booleans, which are ints) are printed, strings stripped,
    anything else becomes the empty string. *)
Definition normal_value (value : Py.value) : string :=
  match value with
  | VInt _ | VFloat _ _ | VBool _ => str value
  | VStr s => strip s
  | _ => ""
  end.

Definition is_dict (v : value) : bool :=
  match v with VDict _ => true | _ => false end.

(** [validate_full_decision]: (is_valid, reason).  [page_analysis] is not
    read by the function and is left out. *)
Definition validate_full_decision (decision : dict) : res (bool * string) :=
  action <- lower_strip (or_else (get decision "action" VNone) (VStr "")) ;;
  strategy <- lower_strip (or_else (get decision "strategy" VNone) (VStr "")) ;;
  let args := or_else (get decision "args" (VDict [])) (VDict []) in
  let value := normal_value (get decision "value" (VStr "")) in
  if negb (mem action valid_actions)
  then Ret (false, "Неизвестное действие: '" ++ action ++ "'")
  else
    let locator_check : option string :=
      if mem action locator_actions then
        if negb (nonempty strategy)
        then Some ("Действие '" ++ action
                   ++ "' требует 'strategy' (role, text, label, placeholder, aria-label, id)")
        else if negb (mem strategy valid_strategies)
        then Some ("Неизвестная strategy '" ++ strategy ++ "'")
        else if negb (truthy args) || negb (is_dict args)
        then Some ("Действие '" ++ action ++ "' требует 'args' (dict с параметрами локатора)")
        else None
      else None in
    match locator_check with
    | Some reason => Ret (false, reason)
    | None =>
        if mem action ["fill"; "type"] && negb (nonempty value)
        then Ret (false, "Действие '" ++ action ++ "' требует 'value' с текстом")
        else
          goto_check <-
            (if String.eqb action "goto" then
               let target := get decision "target" (VStr "") in
               if negb (truthy target)
               then Ret (Some "Действие 'goto' требует 'target' с URL")
               else match target with
                    | VStr t =>
                        if negb (startswith t "http://" || startswith t "https://")
                        then Ret (Some "URL должен начинаться с http:// или https://")
                        else Ret None
                    | _ => Raise (no_attribute target "startswith")
                    end
             else Ret None) ;;
          match goto_check with
          | Some reason => Ret (false, reason)
          | None =>
              let wait_check : option string :=
                if String.eqb action "wait" then
                  match (if nonempty value then int_of_str value else Ret 1000%Z) with
                  | Ret wait_ms =>
                      if (wait_ms <? 0)%Z || (60000 <? wait_ms)%Z
                      then Some "Время ожидания должно быть 0-60000мс"
                      else None
                  | Raise _ => Some "Действие 'wait' требует числовое 'value'"
                  end
                else None in
              match wait_check with
              | Some reason => Ret (false, reason)
              | None =>
                  if String.eqb action "scroll" && nonempty value
                     && negb (mem (lower value) ["up"; "down"])
                  then Ret (false, "Направление должно быть 'up' или 'down'")
                  else Ret (true, "")
              end
          end
    end.

End DecisionValidator.

(* ================================================================== *)
(** * The browser driver, as far as the program looks at it *)
(* ================================================================== *)

Module Driver.
Import Py.

(** One element of the current document.  The document is a flat list in
    document order; [ancestors] holds the [uid]s of the elements an element
    lies in, so a locator scoped to an element is a filter. *)
Record element : Type := mkElement {
  uid : nat;
  ancestors : list nat;
  tag : string;
  role : string;                    (* computed ARIA role *)
  acc_name : string;                (* accessible name *)
  label : string;                   (* associated label or aria-label *)
  text : string;                    (* inner text *)
  attrs : list (string * string);   (* HTML attributes *)
  visible : bool;
  box_height : option Z;            (* bounding_box()['height'], if any *)
  invalid : bool;                   (* matches :invalid *)
  click_error : option string;      (* message of what a click on it raises *)
  opens_page : bool                 (* a click on it opens a new tab *)
}.

(** A locator is the list of elements it resolves to. *)
Definition locator := list element.

Fixpoint attr_lookup (l : list (string * string)) (k : string) : option string :=
  match l with
  | [] => None
  | (k', v) :: l' => if String.eqb k k' then Some v else attr_lookup l' k
  end.

(** [get_attribute]. *)
Definition get_attribute (e : element) (k : string) : option string :=
  attr_lookup (attrs e) k.

Definition attr_is (k v : string) (e : element) : bool :=
  match get_attribute e k with
  | Some v' => String.eqb v v'
  | None => false
  end.

(** Case-insensitive substring match, the driver's default text match. *)
Definition matches_text (needle hay : string) : bool :=
  contains (lower hay) (lower needle).

Definition attr_matches (k needle : string) (e : element) : bool :=
  match get_attribute e k with
  | Some v => matches_text needle v
  | None => false
  end.

Definition get_by_role (doc : locator) (r : string) (name : option string) : locator :=
  filter (fun e => String.eqb (role e) r
                   && match name with
                      | Some n => matches_text n (acc_name e)
                      | None => true
                      end) doc.

Definition get_by_label (doc : locator) (t : string) : locator :=
  filter (fun e => matches_text t (label e)) doc.

Definition get_by_placeholder (doc : locator) (t : string) : locator :=
  filter (attr_matches "placeholder" t) doc.

Definition get_by_text (doc : locator) (t : string) : locator :=
  filter (fun e => matches_text t (text e)) doc.

Definition get_by_alt_text (doc : locator) (t : string) : locator :=
  filter (attr_matches "alt" t) doc.

Definition get_by_title (doc : locator) (t : string) : locator :=
  filter (attr_matches "title" t) doc.

Definition get_by_test_id (doc : locator) (t : string) : locator :=
  filter (attr_is "data-testid" t) doc.

(** [locator.filter(has_text=t)]. *)
Definition filter_has_text (l : locator) (t : string) : locator :=
  filter (fun e => matches_text t (text e)) l.

(** [page.locator('[k="v"]')] and [page.locator(':invalid')]. *)
Definition by_attribute (doc : locator) (k v : string) : locator :=
  filter (attr_is k v) doc.

Definition by_invalid (doc : locator) : locator := filter invalid doc.

(** [.first], [.last], [.count()]. *)
Definition first (l : locator) : locator := firstn 1 l.

Definition last (l : locator) : locator :=
  match rev l with
  | [] => []
  | e :: _ => [e]
  end.

Definition count (l : locator) : nat := length l.

(** Elements that lie inside [container]. *)
Definition inside (doc : locator) (container : element) : locator :=
  filter (fun e => existsb (Nat.eqb (uid container)) (ancestors e)) doc.

(** [locator.is_visible()] on a locator that resolves to one element (the
    program only asks it of [.first] and [.last]). *)
Definition is_visible (l : locator) : bool :=
  match l with
  | e :: _ => visible e
  | [] => false
  end.

(** The page an executor is bound to: its document, the number of pages open
    in its context, and what the page-level operations will answer.  A [None]
    answer is success, [Some msg] the message of the exception raised. *)
Record page : Type := mkPage {
  doc : locator;
  pages_open : nat;
  keyboard_press : nat -> string -> option string;
    (* page.keyboard.press(key), the i-th press of the call *)
  press_body : string -> option string;      (* page.press("body", key) *)
  click_body : option string;                (* page.click("body", position) *)
  goto_page : string -> option string;       (* page.goto(url, ...) *)
  new_page_load : option string              (* new_page.wait_for_load_state *)
}.

(** What the program does to the browser. *)
Inductive op : Type :=
| OpClick (target : nat)          (* a click that went through, on [uid] *)
| OpClickRaised                   (* a click the driver refused *)
| OpKeyboardPress (key : string)
| OpPressBody (key : string)
| OpLocatorPress (target : nat) (key : string)
| OpClickBody
| OpGoto (url : string)
| OpWaitLoad
| OpSwitchPage
| OpClosePage (index : nat)
| OpSleep (ms : nat).

(** [locator.click()]: strict on the number of matches, then the element's
    own answer. *)
Definition locator_click (l : locator) : res element :=
  match l with
  | [] => Raise (OtherException "Timeout 5000ms exceeded: no element matches")
  | [e] =>
      match click_error e with
      | Some msg => Raise (OtherException msg)
      | None => Ret e
      end
  | _ :: _ :: _ =>
      Raise (OtherException ("strict mode violation: locator resolved to "
                             ++ str_of_nat (length l) ++ " elements"))
  end.

End Driver.

(* ================================================================== *)
(** * action_executor.py *)
(* ================================================================== *)

Module ActionExecutor.
Import Py Driver.

(** A driver call that wants a string and is handed something else. *)
Definition text_arg (v : value) : res string :=
  match v with
  | VStr s => Ret s
  | _ => Raise (OtherException ("expected string, got " ++ type_name v))
  end.

(** [_build_locator_from_strategy]. *)
Definition _build_locator_from_strategy (p : page) (strategy : string) (args : value)
    : res locator :=
  let d := doc p in
  let by_key (key : string) (found : string -> locator) : res locator :=
    v <- get_of args key (VStr "") ;;
    if truthy v then (s <- text_arg v ;; Ret (found s)) else Ret (by_invalid d) in
  if String.eqb strategy "role" then
    r <- get_of args "role" (VStr "button") ;;
    name <- get_of args "name" VNone ;;
    r <- text_arg r ;;
    if truthy name
    then (n <- text_arg name ;; Ret (get_by_role d r (Some n)))
    else Ret (get_by_role d r None)
  else if String.eqb strategy "label" then by_key "label" (get_by_label d)
  else if String.eqb strategy "placeholder" then
    v <- get_of args "placeholder" (VStr "") ;;
    if truthy v
    then (s <- text_arg v ;; Ret (get_by_placeholder d s))
    else Ret (first (get_by_role d "textbox" None))
  else if String.eqb strategy "text" then
    v <- get_of args "text" (VStr "") ;;
    if truthy v then
      is_link <- get_of args "is_link" (VBool false) ;;
      link_context <- get_of args "context" (VStr "") ;;
      if truthy is_link then
        t <- text_arg v ;;
        let base_locator := filter_has_text (get_by_role d "link" None) t in
        if truthy link_context then
          c <- text_arg link_context ;;
          Ret (first (filter_has_text (filter_has_text (get_by_role d "link" None) c) t))
        else Ret (first base_locator)
      else
        t <- text_arg v ;;
        Ret (first (get_by_text d t))
    else Ret (by_invalid d)
  else if String.eqb strategy "alt" then by_key "alt" (get_by_alt_text d)
  else if String.eqb strategy "title" then by_key "title" (get_by_title d)
  else if String.eqb strategy "testid" then by_key "testid" (get_by_test_id d)
  else if String.eqb strategy "id" then
    v <- get_of args "id" (VStr "") ;;
    if truthy v then Ret (by_attribute d "id" (str v)) else Ret (by_invalid d)
  else if String.eqb strategy "name" then
    v <- get_of args "name" (VStr "") ;;
    if truthy v then Ret (by_attribute d "name" (str v)) else Ret (by_invalid d)
  else if startswith strategy "data-" then
    v <- get_of args strategy (VStr "") ;;
    if truthy v then Ret (by_attribute d strategy (str v)) else Ret (by_invalid d)
  else if String.eqb strategy "aria-label" then by_key "aria-label" (get_by_label d)
  else Ret (by_invalid d).

(** One entry of the ["variants"] list of a multiple-match result. *)
Record variant : Type := mkVariant {
  v_index : nat;
  v_text : string;
  v_domain : option string;
  v_href : option string
}.

(** The dictionaries the executor returns, by the keys the agent reads. *)
Record result : Type := mkResult {
  success : bool;
  error : option string;
  reason : option string;
  match_count : option nat;
  variants : list variant
}.

Definition succeeded : result := mkResult true None None None [].

Definition failed (err : string) (why : option string) : result :=
  mkResult false (Some err) why None [].

(** The classification of a driver message in the [except] clause of
    [click]. *)
Definition click_reason (error_msg : string) : string :=
  if contains error_msg "not visible" || contains error_msg "not in viewport"
  then "Element not visible to user (off-screen or hidden)"
  else if contains error_msg "disabled" || contains error_msg "not enabled"
  then "Element is disabled"
  else if contains error_msg "not stable"
  then "Element not stable in DOM (moving or detached)"
  else if contains error_msg "no element matches" || contains error_msg "no such element"
  then "Element not found in DOM"
  else if contains error_msg "pointer-events"
  then "Element cannot receive events (pointer-events)"
  else if contains error_msg "hidden behind" || contains error_msg "covered"
  then "Element covered by another element"
  else take 100 error_msg.

(** [s.split('\n')[0]]. *)
Fixpoint first_line (s : string) : string :=
  match s with
  | EmptyString => EmptyString
  | String c rest =>
      if Ascii.eqb c (ascii_of_nat 10) then EmptyString else String c (first_line rest)
  end.

(** Text before the first occurrence of one of the characters [stops]. *)
Fixpoint until (stops : list ascii) (s : string) : string :=
  match s with
  | EmptyString => EmptyString
  | String c rest =>
      if existsb (Ascii.eqb c) stops then EmptyString else String c (until stops rest)
  end.

(** [parsed.netloc or parsed.scheme] of [urllib.parse.urlparse(href)], for
    references of the shapes scheme://host/..., //host/... and scheme:rest. *)
Definition netloc_or_scheme (href : string) : string :=
  let stops := ["/"%char; "?"%char; "#"%char] in
  let head := until (":"%char :: stops) href in
  let after := drop (String.length head) href in
  let '(scheme, rest) :=
    if startswith after ":" && nonempty head then (lower head, drop 1 after)
    else ("", href) in
  let netloc := if startswith rest "//" then until stops (drop 2 rest) else "" in
  if nonempty netloc then netloc else scheme.

Definition link_variant (i : nat) (link : element) : variant :=
  let link_text := text link in
  let link_href := get_attribute link "href" in
  let href_set := match link_href with Some h => nonempty h | None => false end in
  let domain := match link_href with
                | Some h => if nonempty h then netloc_or_scheme h else "unknown"
                | None => "unknown"
                end in
  {| v_index := i;
     v_text := if nonempty link_text then take 50 (strip (first_line link_text))
               else "untitled";
     v_domain := Some domain;
     v_href := Some (match link_href with
                     | Some h => if href_set then take 60 h else ""
                     | None => ""
                     end) |}.

Fixpoint enumerate_from {A} (i : nat) (l : list A) : list (nat * A) :=
  match l with
  | [] => []
  | x :: l' => (i, x) :: enumerate_from (S i) l'
  end.

Definition placeholder_variants (count : nat) : list variant :=
  map (fun i => mkVariant i "Multiple matches" None None) (seq 0 (Nat.min count 3)).

(** What a call of an executor method amounts to. *)
Record call (A : Type) : Type := mkCall {
  returned : A;
  ops : list op;        (* driver operations, in order *)
  switched : bool       (* the executor now points at a new page *)
}.
Arguments mkCall {A} _ _ _.
Arguments returned {A} _.
Arguments ops {A} _.
Arguments switched {A} _.

(** The pages closed after a click opened a tab: all but the first and the
    new, last, one. *)
Definition closed_pages (pages_after : nat) : list op :=
  map OpClosePage (seq 1 (pages_after - 2)).

(** [click].  [element_text], [button] and [click_count] only reach the log
    and the driver call and are left out. *)
Definition click (p : page) (locator_strategy : string) (locator_args : value)
    (allow_multiple : bool) : call result :=
  if negb (nonempty locator_strategy) || negb (truthy locator_args)
  then mkCall (failed "invalid_params" (Some "strategy or args empty")) [] false
  else
    match _build_locator_from_strategy p locator_strategy locator_args with
    | Raise e => mkCall (failed "actionability" (Some (click_reason (message e)))) [] false
    | Ret locator =>
        let n := count locator in
        if n =? 0 then mkCall (failed "element_not_found" None) [] false
        else if (1 <? n) && negb allow_multiple then
          let is_link :=
            String.eqb locator_strategy "text"
            && match locator_args with
               | VDict d => truthy (get d "is_link" (VBool false))
               | _ => false
               end in
          let found :=
            if is_link && (n <=? 5)
            then map (fun il => link_variant (fst il) (snd il))
                     (enumerate_from 0 (firstn 5 locator))
            else [] in
          mkCall {| success := false;
                    error := Some "multiple_matches";
                    reason := Some ("Модель предоставила неточный селектор - найдено "
                                    ++ str_of_nat n
                                    ++ " элементов вместо 1. Переформулируй условие для клика (добавь платформу, автора, источник и т.д.)");
                    match_count := Some n;
                    variants := match found with
                                | [] => placeholder_variants n
                                | _ => found
                                end |} [] false
        else
          match locator_click locator with
          | Raise e =>
              mkCall (failed "actionability" (Some (click_reason (message e))))
                     [OpClickRaised] false
          | Ret e =>
              let pages_before := pages_open p in
              let pages_after := if opens_page e then S pages_before else pages_before in
              if pages_before <? pages_after then
                match new_page_load p with
                | None =>
                    mkCall succeeded
                      ([OpClick (uid e); OpSleep 500; OpWaitLoad; OpSwitchPage]
                       ++ closed_pages pages_after)%list true
                | Some _ =>
                    mkCall succeeded [OpClick (uid e); OpSleep 500; OpWaitLoad] false
                end
              else mkCall succeeded [OpClick (uid e); OpSleep 500] false
          end
    end.

(** [goto]. *)
Definition goto (p : page) (url : string) : call bool :=
  match goto_page p url with
  | None => mkCall true [OpGoto url] false
  | Some _ => mkCall false [OpGoto url] false
  end.

(** The [for _ in range(amount)] loop of [scroll]: press, sleep 0.2 s; a press
    that raises ends the loop and the call. *)
Fixpoint press_times (p : page) (key : string) (i amount : nat) : bool * list op :=
  match amount with
  | O => (true, [])
  | S amount' =>
      match keyboard_press p i key with
      | Some _ => (false, [OpKeyboardPress key])
      | None =>
          let '(fine, rest) := press_times p key (S i) amount' in
          (fine, OpKeyboardPress key :: OpSleep 200 :: rest)
      end
  end.

(** [logger.action(message, category)].  [AgentLogger.action(self, message)]
    takes the message only, so a call with a second argument raises (the
    text is the one Python 3.10 and later give); nothing is printed. *)
Definition too_many_arguments : exn :=
  TypeError "AgentLogger.action() takes 2 positional arguments but 3 were given".

Definition logger_action_with_category (message category : string) : res unit :=
  Raise too_many_arguments.

(** The [try] block of [scroll]. *)
Definition scroll_try (p : page) (direction : string) (amount : nat) : call bool :=
  let '(fine, pressed) :=
    if String.eqb (lower direction) "down" then press_times p "PageDown" 0 amount
    else if String.eqb (lower direction) "up" then press_times p "PageUp" 0 amount
    else (true, []) in
  if fine then mkCall true (pressed ++ [OpSleep 500])%list false
  else mkCall false pressed false.

(** [scroll]: the log call is its first statement, ahead of the [try]. *)
Definition scroll (p : page) (direction : string) (amount : nat) : res (call bool) :=
  _ <- logger_action_with_category ("Прокручиваю " ++ direction) "ПРОКРУТКА" ;;
  Ret (scroll_try p direction amount).

(** [press_key].  The press on a located element is taken to go through;
    the press on the page body answers as the page says. *)
Definition press_key (p : page) (key : string) (locator_strategy : option string)
    (locator_args : option value) : call result :=
  let on_page :=
    match press_body p key with
    | None => mkCall succeeded [OpPressBody key] false
    | Some msg => mkCall (failed "key_press_failed" (Some (take 100 msg)))
                         [OpPressBody key] false
    end in
  match locator_strategy, locator_args with
  | Some strategy, Some args =>
      if nonempty strategy && truthy args then
        match _build_locator_from_strategy p strategy args with
        | Raise e => mkCall (failed "key_press_failed" (Some (take 100 (message e)))) [] false
        | Ret locator =>
            match first locator with
            | [] => mkCall (failed "element_not_found" None) [] false
            | target :: _ => mkCall succeeded [OpLocatorPress (uid target) key] false
            end
        end
      else on_page
  | _, _ => on_page
  end.

(** The [try] block of [wait_for_timeout]. *)
Definition wait_for_timeout_try (ms : Z) : call bool :=
  mkCall true [OpSleep (Z.to_nat ms)] false.

(** [wait_for_timeout]: the log call is its first statement, ahead of the
    [try]. *)
Definition wait_for_timeout (ms : Z) : res (call bool) :=
  _ <- logger_action_with_category ("Жду " ++ str_of_Z ms ++ "ms") "ОЖИДАНИЕ" ;;
  Ret (wait_for_timeout_try ms).

(** The attributes of an [ActionExecutor] object: the methods of the class
    and the two attributes [__init__] sets. *)
Definition attributes : list string :=
  ["__init__"; "_build_locator_from_strategy"; "click"; "fill"; "type_text";
   "goto"; "scroll"; "press_key"; "wait_for_user_action"; "close_modal";
   "wait_for_timeout"; "page"; "disambiguation"].

(** [self.<name>(key)]: attribute lookup, then the call.  Of the attributes
    above only [press_key] can be called with one key. *)
Definition call_with_key (p : page) (name key : string) : res (call result) :=
  if negb (mem name attributes)
  then Raise (AttributeError ("'ActionExecutor' object has no attribute '" ++ name ++ "'"))
  else if String.eqb name "press_key" then Ret (press_key p key None None)
  else Raise (TypeError (name ++ "() cannot be called with a key")).

(** The [close_strategy] argument of [close_modal]. *)
Definition close_strategy := option dict.

(** The outer [except] of [close_modal]. *)
Definition modal_close_failed (e : exn) : call result :=
  mkCall (failed "modal_close_failed" (Some (take 100 (message e)))) [] false.

Definition sleep_if_success (c : call result) : call result :=
  if success (returned c)
  then mkCall (returned c) (ops c ++ [OpSleep 500])%list (switched c)
  else c.

(** [close_modal]. *)
Definition close_modal (p : page) (strategy : close_strategy) : call result :=
  let escape :=
    match call_with_key p "key_press" "Escape" with
    | Ret c => c
    | Raise e => modal_close_failed e
    end in
  match strategy with
  | None | Some [] => escape
  | Some d =>
      let strategy_type := get d "type" (VStr "button") in
      match strategy_type with
      | VStr "button" =>
          let s := get d "strategy" VNone in
          let args := get d "args" (VDict []) in
          if truthy s && truthy args then
            match get_of args "text" (VStr "close button") with
            | Raise e => modal_close_failed e
            | Ret _ => sleep_if_success (click p (str s) args false)
            end
          else escape
      | VStr "esc" =>
          match call_with_key p "key_press" "Escape" with
          | Ret c => sleep_if_success c
          | Raise e => modal_close_failed e
          end
      | VStr "outside" =>
          match click_body p with
          | None => mkCall succeeded [OpClickBody; OpSleep 500] false
          | Some _ => mkCall (failed "outside_click_failed" None) [OpClickBody] false
          end
      | _ => mkCall (failed "unknown_close_strategy" None) [] false
      end
  end.

(** ** Filling and typing *)

(** What the driver answers to the operations on input fields.  A [None]
    answer is success, [Some msg] the message of the exception raised. *)
Record fields : Type := mkFields {
  fill_answer : element -> string -> option string;   (* locator.fill(text) *)
  type_answer : element -> nat -> string -> option string;
    (* locator.type(chars), the i-th call of the method *)
  label_for : string -> res string
    (* the page.evaluate that reads the label[for=id]: its trimmed inner
       text, empty when there is none *)
}.

Inductive field_op : Type :=
| OpFill (target : nat) (text : string)
| OpType (target : nat) (chars : string)
| OpSettle (ms : nat).

(** The dictionaries [fill] and [type_text] return. *)
Record field_result : Type := mkFieldResult {
  f_success : bool;
  f_error : option string;
  f_reason : option string;
  f_count : option nat;
  f_variants : option (list (nat * string));   (* index and label *)
  f_message : option string
}.

Definition field_ok : field_result := mkFieldResult true None None None None None.

Definition field_error (err : string) : field_result :=
  mkFieldResult false (Some err) None None None None.

Definition field_actionability (why : string) : field_result :=
  mkFieldResult false (Some "actionability") (Some why) None None None.

(** The classification in the [except] clause of [fill]. *)
Definition fill_reason (error_msg : string) : string :=
  if contains error_msg "not visible" || contains error_msg "not in viewport"
  then "Field not visible"
  else if contains error_msg "disabled" || contains error_msg "readonly"
  then "Field is disabled or readonly"
  else if contains error_msg "not supported" || contains error_msg "not editable"
  then "Field cannot be filled (not input/textarea)"
  else if contains error_msg "no element matches"
  then "Field not found"
  else take 100 error_msg.

(** The classification in the [except] clause of [type_text]. *)
Definition type_reason (error_msg : string) : string :=
  if contains error_msg "not visible" || contains error_msg "not in viewport"
  then "Element not visible"
  else if contains error_msg "disabled" || contains error_msg "not enabled"
  then "Element is disabled"
  else if contains error_msg "no element matches"
  then "Element not found"
  else if contains error_msg "not editable" || contains error_msg "not supported"
  then "Element cannot be filled (not input/textarea)"
  else take 100 error_msg.

(** The label shown for the [i]-th candidate of an ambiguous [fill]. *)
Definition field_label (f : fields) (i : nat) (loc : element) : string :=
  let placeholder := get_attribute loc "placeholder" in
  let fallback :=
    match placeholder with
    | Some ph => if nonempty ph then take 30 ph else "Field " ++ str_of_nat i
    | None => "Field " ++ str_of_nat i
    end in
  match get_attribute loc "id" with
  | Some loc_id =>
      if nonempty loc_id then
        match label_for f loc_id with
        | Ret label_el => if nonempty label_el then take 30 label_el else fallback
        | Raise _ => fallback
        end
      else fallback
  | None => fallback
  end.

(** [fill].  [element_text] only reaches the log. *)
Definition fill (p : page) (f : fields) (locator_strategy : string) (locator_args : value)
    (text : string) : field_result * list field_op :=
  if negb (nonempty locator_strategy) || negb (truthy locator_args)
  then (field_error "invalid_params", [])
  else
    match _build_locator_from_strategy p locator_strategy locator_args with
    | Raise e => (field_actionability (fill_reason (message e)), [])
    | Ret locator =>
        let n := count locator in
        if n =? 0 then (field_error "element_not_found", [])
        else if 1 <? n then
          if 50 <? n then
            (mkFieldResult false (Some "strategy_too_generic") None (Some n) None
               (Some ("Стратегия нашла " ++ str_of_nat n
                      ++ " элементов - нужна более специфичная стратегия (addFilter, использовать aria-label, ID, название, кнопка рядом и т.д.)")),
             [])
          else
            (mkFieldResult false (Some "strict_mode_violation") None (Some n)
               (Some (map (fun il => (fst il, field_label f (fst il) (snd il)))
                          (enumerate_from 0 (firstn 5 locator))))
               None,
             [])
        else
          match locator with
          | e :: _ =>
              match fill_answer f e text with
              | Some msg => (field_actionability (fill_reason msg), [OpFill (uid e) text])
              | None => (field_ok, [OpFill (uid e) text; OpSettle 300])
              end
          | [] => (field_error "element_not_found", [])
          end
    end.

(** The [for char in text] loop of [type_text]: one driver call per
    character, until one raises. *)
Fixpoint type_each (f : fields) (e : element) (i : nat) (chars : list string)
    : option string * list field_op :=
  match chars with
  | [] => (None, [])
  | char :: rest =>
      match type_answer f e i char with
      | Some msg => (Some msg, [OpType (uid e) char])
      | None =>
          let '(failure, done) := type_each f e (S i) rest in
          (failure, OpType (uid e) char :: done)
      end
  end.

(** [type_text].  [delay] is in milliseconds; [element_text] only reaches
    the log. *)
Definition type_text (p : page) (f : fields) (locator_strategy : string)
    (locator_args : value) (text : string) (delay : nat) : field_result * list field_op :=
  if negb (nonempty locator_strategy) || negb (truthy locator_args)
  then (field_error "invalid_params", [])
  else
    match _build_locator_from_strategy p locator_strategy locator_args with
    | Raise e => (field_actionability (type_reason (message e)), [])
    | Ret locator =>
        let n := count locator in
        if n =? 0 then (field_error "element_not_found", [])
        else if 1 <? n then
          (mkFieldResult false (Some "strict_mode_violation") None (Some n) None None, [])
        else
          match locator with
          | e :: _ =>
              let '(failure, done) :=
                if 0 <? delay then type_each f e 0 (characters text)
                else match type_answer f e 0 text with
                     | Some msg => (Some msg, [OpType (uid e) text])
                     | None => (None, [OpType (uid e) text])
                     end in
              match failure with
              | Some msg => (field_actionability (type_reason msg), done)
              | None => (field_ok, (done ++ [OpSettle 300])%list)
              end
          | [] => (field_error "element_not_found", [])
          end
    end.

(** ** Projections of the operation lists *)

(** The keys pressed on the page keyboard, in order. *)
Definition presses (t : list op) : list string :=
  flat_map (fun o => match o with OpKeyboardPress k => [k] | _ => [] end) t.

(** The elements whose click went through. *)
Definition clicked (t : list op) : list nat :=
  flat_map (fun o => match o with OpClick u => [u] | _ => [] end) t.

(** The pages closed. *)
Definition closed (t : list op) : list nat :=
  flat_map (fun o => match o with OpClosePage i => [i] | _ => [] end) t.

(** The strategies [_build_locator_from_strategy] has a branch for, besides
    the [data-] prefix. *)
Definition named_strategies : list string :=
  ["role"; "label"; "placeholder"; "text"; "alt"; "title"; "testid"; "id"; "name";
   "aria-label"].

End ActionExecutor.

(* ================================================================== *)
(** * page_analyzer.py: modal detection *)
(* ================================================================== *)

Module PageAnalyzer.
Import Py Driver.

(** [class InteractiveElement], by the fields the close strategy fills. *)
Record InteractiveElement : Type := mkInteractive {
  element_id : string;
  element_type : string;
  element_text : string;
  locator_strategy : option string;
  locator_args : list (string * string);
  can_click : bool
}.

(** [class PageAnalysis], by the fields the modal detection writes. *)
Record PageAnalysis : Type := mkAnalysis {
  modal_open : bool;
  modal_text : string;
  modal_close_element : option InteractiveElement
}.

(** [PageAnalysis()]. *)
Definition empty_analysis : PageAnalysis := mkAnalysis false "" None.

(** The words of a [class] attribute. *)
Fixpoint words_go (s : string) (cur : string) : list string :=
  match s with
  | EmptyString => match cur with EmptyString => [] | _ => [cur] end
  | String c rest =>
      if is_space c
      then match cur with
           | EmptyString => words_go rest ""
           | _ => cur :: words_go rest ""
           end
      else words_go rest (cur ++ String c "")
  end.

Definition class_of (e : element) : string :=
  match get_attribute e "class" with Some c => c | None => "" end.

Definition has_class (e : element) (c : string) : bool :=
  mem c (words_go (class_of e) "").

(** 'div[class*="modal"], div[class*="popup"], [role="dialog"], .fade.show' *)
Definition modal_selector (e : element) : bool :=
  (String.eqb (tag e) "div" && contains (class_of e) "modal")
  || (String.eqb (tag e) "div" && contains (class_of e) "popup")
  || attr_is "role" "dialog" e
  || (has_class e "fade" && has_class e "show").

(** '[role="dialog"], [role="alertdialog"]' *)
Definition dialog_selector (e : element) : bool :=
  attr_is "role" "dialog" e || attr_is "role" "alertdialog" e.

(** [_check_modal_visible]: visibility is all it asks of a candidate. *)
Definition _check_modal_visible (p : page) : bool :=
  let dialog_locator := get_by_role (doc p) "dialog" None in
  if (0 <? count dialog_locator) && is_visible (first dialog_locator) then true
  else
    let modal_locator := filter modal_selector (doc p) in
    if (0 <? count modal_locator) && is_visible (last modal_locator) then true
    else false.

(** [_get_modal_locator]. *)
Definition _get_modal_locator (p : page) : option locator :=
  let dialog_locator := get_by_role (doc p) "dialog" None in
  if (0 <? count dialog_locator) && is_visible (first dialog_locator)
  then Some (first dialog_locator)
  else
    let modal_locator := filter modal_selector (doc p) in
    if (0 <? count modal_locator) && is_visible (last modal_locator)
    then Some (last modal_locator)
    else None.

Definition text_close (t : string) : InteractiveElement :=
  mkInteractive "modal_close" "button" t (Some "text") [("text", t)] true.

Definition close_words : list string := ["close"; "x"; "✕"; "×"].

Definition action_button_texts : list string :=
  ["Cancel"; "cancel"; "CANCEL"; "No"; "no"; "NO";
   "Отмена"; "отмена"; "Закрыть"; "закрыть"; "Нет"; "нет"].

Definition is_close_button (btn : element) : bool :=
  mem (lower (strip (text btn))) close_words
  || match get_attribute btn "aria-label" with
     | Some a => nonempty a && (contains (lower a) "close" || contains (lower a) "закрыть")
     | None => false
     end.

(** A button whose text and aria-label are texts of ASCII characters and
    Russian letters: on these [lower] and [strip] are those of Python. *)
Definition plainly_labelled (btn : element) : bool :=
  plain_text (text btn)
  && match get_attribute btn "aria-label" with
     | Some a => plain_text a
     | None => true
     end.

(** [_find_modal_close_strategy], as the element it stores. *)
Definition _find_modal_close_strategy (p : page) (modal : element) : InteractiveElement :=
  let buttons := get_by_role (inside (doc p) modal) "button" None in
  match find is_close_button buttons with
  | Some btn =>
      let button_text := strip (text btn) in
      let aria := match get_attribute btn "aria-label" with Some a => a | None => "" end in
      mkInteractive "modal_close" "button"
        (if nonempty button_text then button_text
         else if nonempty aria then aria else "Close")
        (Some "text")
        [("text", if nonempty button_text then button_text else aria)] true
  | None =>
      match find (fun b => mem (strip (text b)) action_button_texts) buttons with
      | Some btn => text_close (strip (text btn))
      | None =>
          match buttons with
          | b :: _ =>
              if nonempty (strip (text b)) then text_close (strip (text b))
              else mkInteractive "modal_close_esc" "key_press" "ESC" None [] true
          | [] => mkInteractive "modal_close_esc" "key_press" "ESC" None [] true
          end
      end
  end.

(** The size test both methods of [_detect_modals] apply. *)
Definition tall_enough (e : element) : bool :=
  match box_height e with
  | Some h => negb (h <? 150)%Z
  | None => false
  end.

Definition found_modal (p : page) (e : element) : PageAnalysis :=
  mkAnalysis true (text e) (Some (_find_modal_close_strategy p e)).

(** [_detect_modals]: the analysis after the call. *)
Definition _detect_modals (p : page) (analysis : PageAnalysis) : PageAnalysis :=
  let dialogs := filter dialog_selector (doc p) in
  match find (fun d => visible d && tall_enough d) dialogs with
  | Some dialog => found_modal p dialog
  | None =>
      match last (filter modal_selector (doc p)) with
      | modal_elem :: _ =>
          if visible modal_elem && tall_enough modal_elem
          then found_modal p modal_elem
          else mkAnalysis false (modal_text analysis) (modal_close_element analysis)
      | [] => mkAnalysis false (modal_text analysis) (modal_close_element analysis)
      end
  end.

(** The conditions under which [_get_search_hints] emits the page-level
    button section and the page-level link section:
    [if buttons_count > 0 and not modal_window_open] and the same for links,
    with [modal_window_open = await self._check_modal_visible()]. *)
Definition buttons_section_shown (p : page) : bool :=
  (0 <? count (get_by_role (doc p) "button" None)) && negb (_check_modal_visible p).

Definition links_section_shown (p : page) : bool :=
  (0 <? count (get_by_role (doc p) "link" None)) && negb (_check_modal_visible p).

(** The part of [analyze] that concerns modals: the hints are built first,
    from [_check_modal_visible]; [_detect_modals] runs afterwards. *)
Definition analyze_modals (p : page) : PageAnalysis := _detect_modals p empty_analysis.

End PageAnalyzer.

(* ================================================================== *)
(** * browser_agent.py *)
(* ================================================================== *)

Module BrowserAgent.
Import Py.

(** ** The collaborators of the agent *)

(** The methods of the action executor the agent calls.  The strategy is a
    value: after a disambiguation it comes straight out of a JSON reply.
    [click], [fill], [type_text], [goto] and [wait_for_user_action] run
    entirely inside a [try] that returns a result for every Exception;
    [scroll] and [wait_for_timeout] have a statement ahead of their [try] and
    can raise. *)
Record Executor : Type := mkExecutor {
  ex_click : value -> value -> bool -> ActionExecutor.result;
  ex_fill : value -> value -> value -> ActionExecutor.result;
  ex_type_text : value -> value -> value -> ActionExecutor.result;
  ex_goto : value -> bool;
  ex_scroll : string -> res bool;
  ex_wait_for_timeout : Z -> res bool;
  ex_wait_for_user_action : value -> bool
}.

Inductive executor_call : Type :=
| Click (strategy args : value) (allow_multiple : bool)
| Fill (strategy args text : value)
| TypeText (strategy args text : value)
| Goto (url : value)
| Scroll (direction : string)
| WaitForTimeout (ms : Z)
| WaitForUserAction (reason : value).

(** What the agent does to the outside while it executes a decision. *)
Inductive event : Type :=
| EvExecutor (c : executor_call)    (* a call of an executor method *)
| EvKeyboard (key : value)          (* self.page.keyboard.press *)
| EvLlm                             (* self.api.call_async *)
| EvConfirm                         (* logger.confirm *)
| EvAskUser                         (* logger.ask_user *)
| EvSleep (ms : nat).

(** What the outside answers while one decision is executed. *)
Record world : Type := mkWorld {
  executor : Executor;
  lib : DecisionValidator.library;
  keyboard : value -> option string;   (* None, or the message raised *)
  confirm : res bool;
    (* logger.confirm: the answer is y or yes, or the Exception that the
       prompt's input() raises (EOFError on a closed input) *)
  ask_user : res string;
    (* logger.ask_user: the line typed, stripped, or the Exception its
       input() raises *)
  llm : res (option string);           (* the reply of the disambiguation call *)
  page_timeout : nat                   (* agent_config.get("page_timeout", 1000) *)
}.

(** ** Run state *)

(** [self.current_task], by the fields the loop reads. *)
Record Task : Type := mkTask { goal : string; is_risky : bool }.

(** One entry of [self.failed_actions]. *)
Record attempt : Type := mkAttempt {
  a_action : value;
  a_strategy : value;
  a_args : value;
  a_element : value;
  a_reason : value;
  a_success : option bool      (* None: the dict has no "success" key *)
}.

Record agent : Type := mkAgent {
  current_task : Task;
  iteration_count : nat;
  max_iterations : nat;         (* see [configured_max_iterations] *)
  previous_page_state : option string;
  page_state_unchanged_count : nat;
  error_history : list string;
  last_error : option string;
  failed_actions : list attempt
}.

(** Set once in [__init__] and never assigned again. *)
Definition max_unchanged_threshold : nat := 2.
Definition consecutive_error_threshold : nat := 3.
Definition max_error_history : nat := 5.

(** [self.agent_config.get("max_iterations", 50)].  [__init__] stores
    whatever the configuration holds and the loop compares the counter with
    it as it is.  The run state carries the limit as a natural number, which
    is the stored value when the configuration holds no entry or a JSON
    integer that is not negative; with any other entry (a negative integer,
    a fraction, a text) there is no such number and the loop is not the one
    modelled here. *)
Definition configured_max_iterations (agent_config : dict) : option nat :=
  match get agent_config "max_iterations" (VInt 50) with
  | VInt z => if (0 <=? z)%Z then Some (Z.to_nat z) else None
  | _ => None
  end.

(** [__init__], given the limit when the configuration names one. *)
Definition init (configured : option nat) : agent :=
  {| current_task := mkTask "" false;
     iteration_count := 0;
     max_iterations := match configured with Some n => n | None => 50 end;
     previous_page_state := None;
     page_state_unchanged_count := 0;
     error_history := [];
     last_error := None;
     failed_actions := [] |}.

Definition set_task (st : agent) (t : Task) : agent :=
  mkAgent t (iteration_count st) (max_iterations st) (previous_page_state st)
    (page_state_unchanged_count st) (error_history st) (last_error st) (failed_actions st).

Definition set_iteration_count (st : agent) (n : nat) : agent :=
  mkAgent (current_task st) n (max_iterations st) (previous_page_state st)
    (page_state_unchanged_count st) (error_history st) (last_error st) (failed_actions st).

Definition set_page_state (st : agent) (fp : option string) (unchanged : nat) : agent :=
  mkAgent (current_task st) (iteration_count st) (max_iterations st) fp unchanged
    (error_history st) (last_error st) (failed_actions st).

Definition set_errors (st : agent) (h : list string) (l : option string) : agent :=
  mkAgent (current_task st) (iteration_count st) (max_iterations st) (previous_page_state st)
    (page_state_unchanged_count st) h l (failed_actions st).

Definition set_error_history (st : agent) (h : list string) : agent :=
  set_errors st h (last_error st).

Definition add_attempt (st : agent) (a : attempt) : agent :=
  mkAgent (current_task st) (iteration_count st) (max_iterations st) (previous_page_state st)
    (page_state_unchanged_count st) (error_history st) (last_error st)
    (failed_actions st ++ [a])%list.

(** ** Effects: an event trace and an exception *)

Definition M (A : Type) : Type := list event * res A.

Definition ret {A} (a : A) : M A := ([], Ret a).
Definition raise {A} (e : exn) : M A := ([], Raise e).
Definition emit (e : event) : M unit := ([e], Ret tt).
Definition lift {A} (r : res A) : M A := ([], r).

Definition bindM {A B} (m : M A) (k : A -> M B) : M B :=
  match snd m with
  | Ret a => let '(t, r) := k a in ((fst m ++ t)%list, r)
  | Raise e => (fst m, Raise e)
  end.

Notation "x <~ m ;; k" := (bindM m (fun x => k))
  (at level 61, m at next level, right associativity).

(** [try: m except Exception as e: handler e]. *)
Definition catch {A} (m : M A) (handler : exn -> A) : M A :=
  match snd m with
  | Ret a => m
  | Raise e => (fst m, Ret (handler e))
  end.

(** A computation that emits nothing. *)
Definition silent {A} (m : M A) : Prop := fst m = [].

(** ** The dictionaries [_execute_decision] returns *)

Inductive action_result : Type :=
| ResError (error : string)
    (* {"error": error} *)
| ResBlocked (details action strategy : string) (args : value)
    (* {"error": "BLOCKED_REPEATED_ACTION", "details", "action", "strategy",
        "args", "element_text": str(args)} *)
| ResSuccess
    (* {"success": True} *)
| ResUserInput (answer : string)
    (* {"user_input": answer, "needs_retry": True} *)
| ResComplete (summary : value).
    (* {"task_complete": True, "summary": summary} *)

(** [action_result.get("error")]. *)
Definition get_error (r : action_result) : option string :=
  match r with
  | ResError e => Some e
  | ResBlocked _ _ _ _ => Some "BLOCKED_REPEATED_ACTION"
  | _ => None
  end.

(** Truth value of [action_result.get("error")]. *)
Definition has_error (r : action_result) : bool :=
  match get_error r with Some e => nonempty e | None => false end.

(** ** [_has_page_changed] *)

Definition _has_page_changed (st : agent) (current_fingerprint : string) : agent * bool :=
  match previous_page_state st with
  | None => (st, true)
  | Some previous =>
      let state_changed := negb (String.eqb current_fingerprint previous) in
      if state_changed
      then (set_page_state st (previous_page_state st) 0, true)
      else (set_page_state st (previous_page_state st)
              (S (page_state_unchanged_count st)), false)
  end.

(** ** [_execute_decision] *)

(** The signature strings of the repeated-action check. *)
Definition current_signature (action strategy : string) (args : value) : string :=
  action ++ ":" ++ strategy ++ ":" ++ str args.

Definition last_failed_signature (last_failed : attempt) : string :=
  str (a_action last_failed) ++ ":" ++ str (a_strategy last_failed)
  ++ ":" ++ str (a_args last_failed).

(** [self.page_state_unchanged_count > 0 and self.failed_actions], followed
    by the comparison with [self.failed_actions[-1]]. *)
Definition repeats_last (st : agent) (action strategy : string) (args : value) : bool :=
  if 0 <? page_state_unchanged_count st then
    match rev (failed_actions st) with
    | last_failed :: _ =>
        String.eqb (current_signature action strategy args)
                   (last_failed_signature last_failed)
    | [] => false
    end
  else false.

Definition blocked (st : agent) (action strategy : string) (args : value) : action_result :=
  ResBlocked
    ("Попытка повторить неудачное действие: "
     ++ match rev (failed_actions st) with
        | last_failed :: _ => str (a_action last_failed)
        | [] => ""
        end)
    action strategy args.

(** [args.get("text", "").startswith(marker)]. *)
Definition text_starts (args : value) (marker : string) : res bool :=
  t <- get_of args "text" (VStr "") ;;
  match t with
  | VStr s => Ret (startswith s marker)
  | _ => Raise (no_attribute t "startswith")
  end.

(** One of the two marker corrections: a [text] strategy whose text begins
    with [marker] becomes the strategy [target]. *)
Definition fix_marker (marker target : string) (sa : string * value)
    : res (string * value) :=
  let '(strategy, args) := sa in
  if String.eqb strategy "text" then
    starts <- text_starts args marker ;;
    if starts then
      match args with
      | VDict d =>
          match get d "text" (VStr "") with
          | VStr s => Ret (target, VDict [(target, VStr (strip (replace s marker "")))])
          | _ => Ret sa
          end
      | _ => Ret sa
      end
    else Ret sa
  else Ret sa.

Definition risk_keywords : list string :=
  ["оплат"; "платёж"; "pay"; "confirm"; "удали"; "delete"; "отправить"].

(** The [any(...)] of the security gate: for each keyword, first the
    strategy is searched, then [(reason or "").lower()] is evaluated. *)
Fixpoint any_risky (strategy : string) (reason : value) (keywords : list string)
    : res bool :=
  match keywords with
  | [] => Ret false
  | kw :: rest =>
      if contains (lower strategy) kw then Ret true
      else
        match or_else reason (VStr "") with
        | VStr r => if contains (lower r) kw then Ret true
                    else any_risky strategy reason rest
        | v => Raise (no_attribute v "lower")
        end
  end.

(** What the dispatch leaves in [result], or the dictionary it returns
    at once. *)
Inductive dispatched : Type :=
| Result (r : option ActionExecutor.result)
| Return (r : action_result).

Definition plain (ok : bool) : ActionExecutor.result :=
  ActionExecutor.mkResult ok None None None [].

Definition call_click (w : world) (strategy args : value) (allow_multiple : bool)
    : M ActionExecutor.result :=
  _ <~ emit (EvExecutor (Click strategy args allow_multiple)) ;;
  ret (ex_click (executor w) strategy args allow_multiple).

Definition call_fill (w : world) (strategy args text : value) : M ActionExecutor.result :=
  _ <~ emit (EvExecutor (Fill strategy args text)) ;;
  ret (ex_fill (executor w) strategy args text).

(** The reply of the disambiguation call, read as a JSON object: the text is
    stripped and loaded, a list gives its first entry. *)
Inductive disambiguation : Type :=
| NoReply
| Unusable
| Refined (d : dict).

Definition read_disambiguation (w : world) : M disambiguation :=
  _ <~ emit EvLlm ;;
  reply <~ lift (llm w) ;;
  match reply with
  | None | Some EmptyString => ret NoReply
  | Some text =>
      match DecisionValidator.json_loads (lib w) (strip text) with
      | DecisionValidator.Loaded v =>
          let v := match v with
                   | VList (x :: _) => x
                   | VList [] => VDict []
                   | _ => v
                   end in
          match v with
          | VDict (b :: d) => ret (Refined (b :: d))
          | _ => ret Unusable
          end
      | DecisionValidator.JSONDecodeError msg => raise (ValueError msg)
      | DecisionValidator.LoadFailure msg => raise (OtherException msg)
      end
  end.

Definition error_is (r : ActionExecutor.result) (names : list string) : bool :=
  match ActionExecutor.error r with
  | Some e => mem e names
  | None => false
  end.

(** The [if action == ... elif ...] chain inside the [try]. *)
Definition dispatch (w : world) (action strategy : string) (args value reason : Py.value)
    : M dispatched :=
  if String.eqb action "click" then
    _ <~ lift (get_of args "name" (VStr "")) ;;
    result <~ call_click w (VStr strategy) args false ;;
    if error_is result ["strict_mode_violation"; "multiple_matches"] then
      catch
        (d <~ read_disambiguation w ;;
         match d with
         | NoReply => ret (Return (ResError "empty_disambig_response"))
         | Unusable => ret (Return (ResError "disambig_response_invalid"))
         | Refined j =>
             result <~ call_click w (get j "strategy" (VStr strategy))
                                    (get j "args" args) true ;;
             ret (Result (Some result))
         end)
        (fun _ => Return (ResError "strict_mode_disambiguation_failed"))
    else ret (Result (Some result))
  else if String.eqb action "fill" then
    _ <~ lift (sliceable value) ;;
    _ <~ lift (get_of args "label" (VStr "")) ;;
    result <~ call_fill w (VStr strategy) args value ;;
    if error_is result ["strict_mode_violation"] then
      catch
        (d <~ read_disambiguation w ;;
         match d with
         | NoReply => ret (Return (ResError "empty_disambig_response"))
         | Unusable => ret (Return (ResError "fill_disambig_failed"))
         | Refined j =>
             result <~ call_fill w (get j "strategy" (VStr strategy))
                                   (get j "args" args) value ;;
             ret (Result (Some result))
         end)
        (fun _ => Return (ResError "field_disambiguation_failed"))
    else ret (Result (Some result))
  else if String.eqb action "type" then
    _ <~ emit (EvExecutor (TypeText (VStr strategy) args value)) ;;
    ret (Result (Some (ex_type_text (executor w) (VStr strategy) args value)))
  else if String.eqb action "submit" then
    result <~ call_click w (VStr strategy) args false ;;
    ret (Result (Some result))
  else if String.eqb action "goto" then
    _ <~ emit (EvExecutor (Goto value)) ;;
    ret (Result (Some (plain (ex_goto (executor w) value))))
  else if String.eqb action "scroll" then
    direction <~ lift (match or_else value (VStr "down") with
                       | VStr s => Ret (lower s)
                       | v => Raise (no_attribute v "lower")
                       end) ;;
    _ <~ emit (EvExecutor (Scroll direction)) ;;
    success <~ lift (ex_scroll (executor w) direction) ;;
    ret (Result (Some (plain success)))
  else if String.eqb action "wait" then
    (* a truthy number never reaches this point: slicing it for the log
       has raised before the dispatch *)
    wait_ms <~ lift (match or_else value (VInt 1000) with
                     | VInt z => Ret z
                     | VStr s => int_of_str s
                     | v => Raise (TypeError ("int() argument must be a string, "
                                              ++ "a bytes-like object or a real number, not '"
                                              ++ type_name v ++ "'"))
                     end) ;;
    _ <~ emit (EvExecutor (WaitForTimeout wait_ms)) ;;
    _ <~ lift (ex_wait_for_timeout (executor w) wait_ms) ;;
    ret (Result (Some (plain true)))
  else if String.eqb action "ask_user" then
    _ <~ emit EvAskUser ;;
    user_answer <~ lift (ask_user w) ;;
    ret (Return (ResUserInput user_answer))
  else if String.eqb action "wait_for_user_action" then
    let wait_reason := or_else reason (VStr "Требуется действие пользователя") in
    _ <~ emit (EvExecutor (WaitForUserAction wait_reason)) ;;
    let _ := ex_wait_for_user_action (executor w) wait_reason in
    ret (Return ResSuccess)
  else if String.eqb action "press_key" then
    let key_name := or_else value (VStr "Enter") in
    _ <~ emit (EvKeyboard key_name) ;;
    match keyboard w key_name with
    | None =>
        _ <~ emit (EvSleep 1000) ;;
        ret (Result (Some (plain true)))
    | Some msg =>
        ret (Result (Some (ActionExecutor.mkResult false (Some msg) None None [])))
    end
  else if String.eqb action "confirm_complete" then
    ret (Return (ResComplete (or_else value (VStr "Задача завершена успешно"))))
  else ret (Result None).

(** The check of [result] after the dispatch. *)
Definition conclude (w : world) (action : string) (d : dispatched) : M action_result :=
  match d with
  | Return r => ret r
  | Result (Some r) =>
      if ActionExecutor.success r then
        _ <~ emit (EvSleep (Nat.max 500 (page_timeout w))) ;;
        ret ResSuccess
      else
        match ActionExecutor.error r with
        | Some e =>
            if nonempty e
            then ret (ResError (match ActionExecutor.reason r with
                                | Some why => why
                                | None => e
                                end))
            else ret (ResError ("Действие " ++ action ++ " не выполнено"))
        | None => ret (ResError ("Действие " ++ action ++ " не выполнено"))
        end
  | Result None => ret (ResError ("Действие " ++ action ++ " не выполнено"))
  end.

(** The synthesis of [args] from the strategy and the value when the
    decision has none, and the two log lines that slice the value. *)
Definition prepare_args (strategy : string) (args value : Py.value) : M Py.value :=
  args <~ (if negb (truthy args) && nonempty strategy && truthy value
           then (_ <~ lift (sliceable value) ;; ret (VDict [(strategy, value)]))
           else ret args) ;;
  _ <~ (if truthy value then lift (sliceable value) else ret tt) ;;
  ret args.

(** The security gate: whether the operator declined the action.  The
    prompt is ahead of the [try] of the dispatch: what it raises leaves
    [_execute_decision]. *)
Definition security_gate (w : world) (st : agent) (action strategy : string)
    (reason : Py.value) : M bool :=
  if is_risky (current_task st) && mem action ["submit"; "click"; "confirm_complete"]
  then
    risky <~ lift (any_risky strategy reason risk_keywords) ;;
    if risky
    then (_ <~ emit EvConfirm ;; confirmed <~ lift (confirm w) ;; ret (negb confirmed))
    else ret false
  else ret false.

(** The [try] block: dispatch, check of the result, and the handler. *)
Definition run_action (w : world) (action strategy : string) (args value reason : Py.value)
    : M action_result :=
  catch (d <~ dispatch w action strategy args value reason ;;
         conclude w action d)
        (fun e => ResError ("Ошибка выполнения действия: " ++ take 50 (message e))).

(** [_execute_decision] from the parsed object on. *)
Definition execute_parsed (w : world) (st : agent) (parsed : dict) : M action_result :=
  action <~ lift (lower_strip (or_else (get parsed "action" VNone) (VStr ""))) ;;
  strategy <~ lift (lower_strip (or_else (get parsed "strategy" VNone) (VStr ""))) ;;
  let value := get parsed "value" (VStr "") in
  let reason := get parsed "reason" (VStr "") in
  args <~ prepare_args strategy (get parsed "args" (VDict [])) value ;;
  if repeats_last st action strategy args then ret (blocked st action strategy args)
  else
    sa <~ lift (fix_marker "[aria-label]" "aria-label" (strategy, args)) ;;
    sa <~ lift (fix_marker "[id]" "id" sa) ;;
    cancelled <~ security_gate w st action (fst sa) reason ;;
    if cancelled : bool then ret (ResError "Действие отменено пользователем (безопасность)")
    else run_action w action (fst sa) (snd sa) value reason.

(** [_execute_decision]. *)
Definition _execute_decision (w : world) (st : agent) (decision : string) : M action_result :=
  match DecisionValidator.parse_decision (lib w) decision with
  | (true, Some parsed, _) => execute_parsed w st parsed
  | (_, _, parse_error) => ret (ResError ("Некорректное решение от LLM: " ++ parse_error))
  end.

(** ** The body of [_execute_iteratively] *)

(** The dictionaries the loop returns. *)
Inductive final : Type :=
| Completed (iterations : nat) (result : option string)
    (* the completion check said yes *)
| CompletedByDecision (iterations : nat) (final_url : string) (summary : value)
    (* a confirm_complete decision *)
| Stuck (iterations : nat) (stuck_error : string) (stuck_message : string)
| MaxIterations (iterations : nat)
| Failed (status_text : string).
    (* the early returns of execute_task *)

(** The ["status"] entry. *)
Definition status (f : final) : string :=
  match f with
  | Completed _ _ | CompletedByDecision _ _ _ => "завершена"
  | Stuck _ _ _ => "застрял"
  | MaxIterations _ => "макс_итераций_достигнуто"
  | Failed s => s
  end.

(** What one pass of the loop finds outside. *)
Record observation : Type := mkObservation {
  analysis_url : option string;   (* None: analyzer.analyze() raised; else its url *)
  fingerprint : string;           (* _compute_page_fingerprint *)
  has_captcha : bool;             (* _check_if_captcha_page *)
  completion : option (option string);
    (* _check_if_task_complete: Some result when is_complete *)
  decision : res string;          (* _get_ai_decision *)
  obs_world : world
}.

(** [v[:n]] as a value. *)
Definition slice (n : nat) (v : value) : res value :=
  match v with
  | VStr s => Ret (VStr (take n s))
  | VList l => Ret (VList (firstn n l))
  | _ => _ <- sliceable v ;; Ret v
  end.

(** The record appended after every executed decision; the [try] around it
    drops the record when the slice of a non-text value raises, and nothing
    is recorded when the decision does not parse. *)
Definition record_attempt (l : DecisionValidator.library) (decision : string)
    (action_result : action_result) : option attempt :=
  match DecisionValidator.parse_decision l decision with
  | (true, Some decision_obj, _) =>
      let element :=
        if truthy (get decision_obj "value" VNone)
        then slice 40 (get decision_obj "value" (VStr ""))
        else Ret (VStr "") in
      match element with
      | Ret e =>
          Some {| a_action := get decision_obj "action" (VStr "unknown");
                  a_strategy := get decision_obj "strategy" (VStr "unknown");
                  a_args := get decision_obj "args" (VDict []);
                  a_element := e;
                  a_reason := get decision_obj "reason" (VStr "no reason");
                  a_success := Some (negb (has_error action_result)) |}
      | Raise _ => None
      end
  | _ => None
  end.

(** The second record, written for an error dictionary that has an
    ["action"] key. *)
Definition blocked_attempt (r : action_result) (error_msg : string) : option attempt :=
  match r with
  | ResBlocked _ action strategy args =>
      Some (mkAttempt (VStr action) (VStr strategy) args (VStr (str args))
                      (VStr error_msg) None)
  | _ => None
  end.

Definition add_attempt_opt (st : agent) (a : option attempt) : agent :=
  match a with Some a => add_attempt st a | None => st end.

(** [error_history.append(msg)], then [pop(0)] beyond five entries. *)
Definition push_error (h : list string) (error_msg : string) : list string :=
  let h' := (h ++ [error_msg])%list in
  if max_error_history <? length h' then tl h' else h'.

(** The backward scan: how many of the last entries equal [current]. *)
Fixpoint run_length (current : string) (reversed : list string) : nat :=
  match reversed with
  | e :: rest => if String.eqb e current then S (run_length current rest) else 0
  | [] => 0
  end.

Definition consecutive_same_errors (h : list string) (current : string) : nat :=
  run_length current (rev h).

(** The part of the loop body that follows [_execute_decision]. *)
Definition after_action (st : agent) (recorded : option attempt)
    (action_result : action_result) (page_url : string) : agent * option final :=
  let st := add_attempt_opt st recorded in
  match action_result with
  | ResComplete summary =>
      (st, Some (CompletedByDecision (iteration_count st) page_url summary))
  | ResUserInput (String c a) =>
      let user_input := String c a in
      (set_task st (mkTask (goal (current_task st) ++ " — конкретный ввод: " ++ user_input)
                           (is_risky (current_task st))), None)
  | _ =>
      if has_error action_result then
        let error_msg := match get_error action_result with Some e => e | None => "" end in
        let st := add_attempt_opt st (blocked_attempt action_result error_msg) in
        if max_unchanged_threshold <=? page_state_unchanged_count st then
          (st, Some (Stuck (iteration_count st)
                       "Страница не изменяется после действий"
                       "Агент застрял: страница не реагирует на действия"))
        else
          let st := set_error_history st (push_error (error_history st) error_msg) in
          if consecutive_error_threshold
               <=? consecutive_same_errors (error_history st) error_msg
          then (st, Some (Stuck (iteration_count st) error_msg
                            "Агент застрял: одна и та же ошибка повторяется"))
          else (st, None)
      else (set_error_history st [], None)
  end.

(** Whether [_build_decision_context] gets through the attempted-action
    list: it calls [upper] on every recorded action and slices every
    recorded element and reason. *)
Definition context_builds (st : agent) : bool :=
  forallb (fun a => match a_action a with VStr _ => true | _ => false end
                    && match sliceable (a_element a) with Ret _ => true | Raise _ => false end
                    && match sliceable (a_reason a) with Ret _ => true | Raise _ => false end)
          (failed_actions st).

(** The head of a pass whose page analysis went through: the counter is
    incremented, the fingerprint compared and stored. *)
Definition observe (st : agent) (o : observation) : agent :=
  let st := set_iteration_count st (S (iteration_count st)) in
  let st := fst (_has_page_changed st (fingerprint o)) in
  set_page_state st (Some (fingerprint o)) (page_state_unchanged_count st).

(** One pass of the while loop: the new state, the dictionary returned if
    the pass returns, and the events of the pass. *)
Definition iteration (st : agent) (o : observation) : agent * option final * list event :=
  match analysis_url o with
  | None => (set_iteration_count st (S (iteration_count st)), None, [EvSleep 1000])
  | Some url =>
      let st := observe st o in
      if has_captcha o then
        (set_page_state st None 0, None,
         [EvExecutor (WaitForUserAction
            (VStr "На странице обнаружена КАПЧА. Пожалуйста пройдите проверку вручную"));
          EvSleep 3000])
      else if negb (context_builds st) then (st, None, [EvSleep 1000])
      else
        match completion o with
        | Some result => (st, Some (Completed (iteration_count st) result), [])
        | None =>
            match decision o with
            | Raise _ => (st, None, [EvSleep 1000])
            | Ret decision =>
                let '(events, r) := _execute_decision (obs_world o) st decision in
                match r with
                | Raise _ => (st, None, (events ++ [EvSleep 1000])%list)
                | Ret action_result =>
                    let '(st', f) :=
                      after_action st
                        (record_attempt (lib (obs_world o)) decision action_result)
                        action_result url in
                    match f with
                    | Some _ => (st', f, events)
                    | None =>
                        match action_result with
                        | ResUserInput (String _ _) => (st', None, events)
                        | _ => (st', None, (events ++ [EvSleep 500])%list)
                        end
                    end
                end
            end
        end
  end.

(** A pass that gets as far as executing a decision, and one whose
    decision fails with the error message [msg]. *)
Definition reaches_decision (st : agent) (o : observation) (url d : string) : Prop :=
  analysis_url o = Some url /\ has_captcha o = false
  /\ context_builds (observe st o) = true
  /\ completion o = None /\ decision o = Ret d.

Definition fails_with (st : agent) (o : observation) (msg : string) : Prop :=
  exists url d events r,
    reaches_decision st o url d
    /\ _execute_decision (obs_world o) (observe st o) d = (events, Ret r)
    /\ get_error r = Some msg.

(** The while loop, over what the successive passes find. *)
Fixpoint loop (st : agent) (observations : list observation)
    : agent * option final * list event :=
  if iteration_count st <? max_iterations st then
    match observations with
    | [] => (st, None, [])
    | o :: rest =>
        match iteration st o with
        | (st', Some f, events) => (st', Some f, events)
        | (st', None, events) =>
            let '(st'', f, events') := loop st' rest in
            (st'', f, (events ++ events')%list)
        end
    end
  else (st, Some (MaxIterations (iteration_count st)), []).

(** [_execute_iteratively]: the error tracking is reset, then the loop. *)
Definition _execute_iteratively (st : agent) (observations : list observation) :=
  loop (set_errors st [] None) observations.

(** What [execute_task] does before the loop: the task analysis, then the
    resolution and opening of the start page, which may end the task. *)
Record prelude : Type := mkPrelude {
  analysed : option Task;          (* None: analyze_task raised *)
  navigation : option string       (* Some status: an early return *)
}.

(** The state with which [execute_task] enters [_execute_iteratively]:
    the current task is set and the iteration counter is zeroed. *)
Definition enter_task (st : agent) (task : Task) : agent :=
  set_iteration_count (set_task st task) 0.

(** The state at the first pass of the loop of a task. *)
Definition task_start (st : agent) (task : Task) : agent :=
  set_errors (enter_task st task) [] None.

(** [execute_task]. *)
Definition execute_task (st : agent) (pre : prelude) (observations : list observation)
    : agent * option final * list event :=
  match analysed pre with
  | None => (st, Some (Failed "ошибка"), [])
  | Some task =>
      match navigation pre with
      | Some s => (set_task st task, Some (Failed s), [])
      | None => _execute_iteratively (enter_task st task) observations
      end
  end.

(** ** The executor over a page *)

(** [click] when the strategy is whatever a JSON reply held: a truthy value
    that is no string fails in [_build_locator_from_strategy] at
    [strategy.startswith], which [click] reports as an actionability error. *)
Definition click_any (p : Driver.page) (strategy args : value) (allow_multiple : bool)
    : ActionExecutor.result :=
  match strategy with
  | VStr s => ActionExecutor.returned (ActionExecutor.click p s args allow_multiple)
  | v =>
      if negb (truthy v) || negb (truthy args)
      then ActionExecutor.failed "invalid_params" (Some "strategy or args empty")
      else ActionExecutor.failed "actionability"
             (Some (ActionExecutor.click_reason (message (no_attribute v "startswith"))))
  end.

(** The executor bound to page [p]; [fill], [type_text] and
    [wait_for_user_action] are taken from [others]. *)
Definition executor_on (p : Driver.page) (others : Executor) : Executor :=
  {| ex_click := click_any p;
     ex_fill := ex_fill others;
     ex_type_text := ex_type_text others;
     ex_goto := fun url => match url with
                           | VStr u => ActionExecutor.returned (ActionExecutor.goto p u)
                           | _ => false
                           end;
     ex_scroll := fun direction =>
                    c <- ActionExecutor.scroll p direction 3 ;;
                    Ret (ActionExecutor.returned c);
     ex_wait_for_timeout := fun ms =>
                    c <- ActionExecutor.wait_for_timeout ms ;;
                    Ret (ActionExecutor.returned c);
     ex_wait_for_user_action := ex_wait_for_user_action others |}.

(** ** The opening of the start page in [execute_task] *)

(** What the outside answers while the start page is opened. *)
Record navigator : Type := mkNavigator {
  nav_goto : nat -> string -> option string;
    (* the i-th self.page.goto: None, or str(e) of what it raises *)
  nav_llm : res (option string);            (* self.api.call_async *)
  nav_json : string -> DecisionValidator.loaded   (* json.loads *)
}.

Inductive nav_event : Type :=
| NavGoto (url : string)
| NavLlm.

(** The dictionaries the retry loop returns. *)
Record early_return : Type := mkEarly {
  early_status : string;
  early_message : string;
  early_error : string
}.

Inductive opened : Type :=
| PageLoaded (current_url : string)
| EarlyReturn (r : option early_return)   (* None: the bare [return None] *)
| LoopEnded (current_url : string).
    (* the while condition failed with page_load_success still False *)

Definition MAX_RETRIES : nat := 1.

Definition is_network_error (error_str : string) : bool :=
  contains (lower error_str) "err_name_not_resolved"
  || contains (lower error_str) "err_address_unreachable".

Definition google_search (search_query : string) : string :=
  "https://www.google.com/search?q=" ++ replace search_query " " "+".

(** [search_json.get("search_query", "").strip()]. *)
Definition search_query_of (search_json : value) : res string :=
  q <- get_of search_json "search_query" (VStr "") ;;
  match q with
  | VStr s => Ret (strip s)
  | _ => Raise (no_attribute q "strip")
  end.

(** The [while retry_count <= MAX_RETRIES and not page_load_success] loop;
    [fuel] bounds the number of passes. *)
Fixpoint open_page (nav : navigator) (fuel retry_count : nat) (current_url : string)
    : opened * list nav_event :=
  match fuel with
  | O => (LoopEnded current_url, [])
  | S fuel' =>
      if MAX_RETRIES <? retry_count then (LoopEnded current_url, [])
      else
        match nav_goto nav retry_count current_url with
        | None => (PageLoaded current_url, [NavGoto current_url])
        | Some e =>
            if is_network_error e then
              let retry_count := S retry_count in
              if retry_count <=? MAX_RETRIES then
                let network_error :=
                  EarlyReturn (Some (mkEarly "ошибка_сети"
                                       ("Страница недоступна: " ++ current_url) e)) in
                match nav_llm nav with
                | Raise _ => (network_error, [NavGoto current_url; NavLlm])
                | Ret None | Ret (Some EmptyString) =>
                    (EarlyReturn None, [NavGoto current_url; NavLlm])
                | Ret (Some search_response) =>
                    match nav_json nav (strip search_response) with
                    | DecisionValidator.JSONDecodeError _ =>
                        (EarlyReturn (Some (mkEarly "ошибка_навигации"
                                              "Ошибка при получении поискового запроса"
                                              (take 100 search_response))),
                         [NavGoto current_url; NavLlm])
                    | DecisionValidator.LoadFailure _ =>
                        (network_error, [NavGoto current_url; NavLlm])
                    | DecisionValidator.Loaded search_json =>
                        match search_query_of search_json with
                        | Raise _ => (network_error, [NavGoto current_url; NavLlm])
                        | Ret search_query =>
                            if nonempty search_query then
                              let '(r, events) :=
                                open_page nav fuel' retry_count (google_search search_query) in
                              (r, NavGoto current_url :: NavLlm :: events)
                            else
                              (EarlyReturn
                                 (Some (mkEarly "ошибка_навигации"
                                          ("Страница недоступна и не удалось найти альтернативу: "
                                           ++ current_url) e)),
                               [NavGoto current_url; NavLlm])
                        end
                    end
                end
              else
                (EarlyReturn (Some (mkEarly "ошибка_сети"
                                      ("Страница недоступна даже через Google: "
                                       ++ current_url) e)),
                 [NavGoto current_url])
            else
              (EarlyReturn (Some (mkEarly "ошибка_навигации"
                                    "Ошибка при открытии страницы" e)),
               [NavGoto current_url])
        end
  end.

(** The loop as [execute_task] enters it: [retry_count = 0]. *)
Definition open_start_page (nav : navigator) (start_url : string)
    : opened * list nav_event :=
  open_page nav (S (S MAX_RETRIES)) 0 start_url.

Definition gotos (t : list nav_event) : list string :=
  flat_map (fun e => match e with NavGoto u => [u] | NavLlm => [] end) t.

Definition llm_calls (t : list nav_event) : nat :=
  length (filter (fun e => match e with NavLlm => true | NavGoto _ => false end) t).

End BrowserAgent.

(* ================================================================== *)
(** * config_loader.py *)
(* ================================================================== *)

Module ConfigLoader.
Import Py.

(** [os.getenv]. *)
Definition environment := string -> option string.

Definition newline : string := String (ascii_of_nat 10) "".

Definition missing_env_key (env_var : string) : exn :=
  ValueError ("❌ API ключ не найден в переменной окружения " ++ env_var ++ ". "
              ++ "Установите переменную окружения:" ++ newline
              ++ "  export " ++ env_var ++ "='your_api_key_here'  (Linux/Mac)" ++ newline
              ++ "  set " ++ env_var ++ "=your_api_key_here      (Windows cmd)" ++ newline
              ++ "  $" ++ env_var ++ "='your_api_key_here'       (PowerShell)").

Definition missing_direct_key : exn :=
  ValueError ("❌ API ключ не найден в config.json или переменной окружения. "
              ++ "Установите переменную окружения NVIDIA_API_KEY или обновите config.json.").

Definition unknown_source (source : value) : exn :=
  ValueError ("❌ Неизвестный источник API ключа: " ++ str source
              ++ ". Используйте 'env' или 'direct'.").

Definition is_str (v : value) (s : string) : bool :=
  match v with VStr s' => String.eqb s' s | _ => false end.

(** The key, by the source the configuration names. *)
Definition api_key_of (getenv : environment) (api_key_config : value) : res value :=
  source <- get_of api_key_config "source" (VStr "env") ;;
  if is_str source "env" then
    env_var <- get_of api_key_config "env_var" (VStr "NVIDIA_API_KEY") ;;
    match env_var with
    | VStr name =>
        match getenv name with
        | Some api_key => if nonempty api_key then Ret (VStr api_key)
                          else Raise (missing_env_key name)
        | None => Raise (missing_env_key name)
        end
    | _ => Raise (TypeError ("str expected, not " ++ type_name env_var))
    end
  else if is_str source "direct" then
    api_key <- get_of api_key_config "value" VNone ;;
    if negb (truthy api_key) || startswith (str api_key) "YOUR_"
    then Raise missing_direct_key
    else Ret api_key
  else Raise (unknown_source source).

(** [get_nvidia_api_config], over the loaded [config.json]. *)
Definition get_nvidia_api_config (getenv : environment) (config : value) : res dict :=
  api_config <- get_of config "nvidia_api" (VDict []) ;;
  api_key_config <- get_of api_config "api_key" (VDict []) ;;
  api_key <- api_key_of getenv api_key_config ;;
  endpoint <- get_of api_config "endpoint" VNone ;;
  model <- get_of api_config "model" VNone ;;
  generation_params <- get_of api_config "generation_params" (VDict []) ;;
  stream <- get_of api_config "stream" (VBool false) ;;
  enable_reasoning <- get_of api_config "enable_reasoning" (VBool false) ;;
  Ret [("endpoint", endpoint); ("model", model); ("api_key", api_key);
       ("generation_params", generation_params); ("stream", stream);
       ("enable_reasoning", enable_reasoning)].

End ConfigLoader.

(* ================================================================== *)
(** * main.py *)
(* ================================================================== *)

Module Main.
Import Py.

(** What a call of [agent.execute_task] (or [agent.initialize]) amounts to
    for [main]. *)
Inductive outcome : Type :=
| Returned (result : value)
| Raised (e : exn)            (* an Exception *)
| Interrupted.                (* KeyboardInterrupt *)

Inductive level : Type := Info | Warning | Error | Result | Success.

(** What [main] does: the tasks it hands to the agent, the lines it logs
    about their outcome, and the shutdown of the agent.  The prompts of the
    loop are left out. *)
Inductive event : Type :=
| Executed (task_description : string)
| Said (l : level) (text : string)
| Shutdown.

Definition exit_words : list string := ["exit"; "quit"; "q"; "выход"; "вых"].

(** The display of a result: [result.get] on whatever came back. *)
Definition report (result : value) : list event * option exn :=
  match result with
  | VDict d =>
      let field (key : string) (l : level) (title : string) : list event :=
        if truthy (get d key VNone) then [Said l (title ++ str (get d key VNone))] else [] in
      ((Said Result ("Статус: " ++ str (get d "status" VNone))
        :: field "iterations" Result "Итераций: "
        ++ field "summary" Result "Итог: "
        ++ field "error" Error "Ошибка: "
        ++ field "final_url" Result "Итоговый URL: ")%list,
       None)
  | _ => ([], Some (no_attribute result "get"))
  end.

(** The [while True] loop, over the lines [input] returns; [run n task] is
    the outcome of the [n]-th call of [execute_task].  When the lines run
    out [input] raises EOFError. *)
Fixpoint main_loop (run : nat -> string -> outcome) (n : nat) (inputs : list string)
    : list event :=
  match inputs with
  | [] => [Said Error "Критическая ошибка: EOF when reading a line"]
  | line :: rest =>
      let task_description := strip line in
      if mem (lower task_description) exit_words then [Said Info "Выход..."]
      else if negb (nonempty task_description)
      then Said Warning "Задача не может быть пустой" :: main_loop run n rest
      else
        Executed task_description ::
        match run n task_description with
        | Interrupted => [Said Warning "Выполнение прервано пользователем (Ctrl+C)"]
        | Raised e =>
            Said Error ("Ошибка выполнения задачи: " ++ message e)
            :: main_loop run (S n) rest
        | Returned result =>
            match report result with
            | (said, None) => (said ++ main_loop run (S n) rest)%list
            | (said, Some e) =>
                (said ++ Said Error ("Ошибка выполнения задачи: " ++ message e)
                      :: main_loop run (S n) rest)%list
            end
        end
  end.

(** The [try] statement of [main]: the initialisation, the loop, and the
    [finally] clause. *)
Definition main_try (initialize : outcome) (run : nat -> string -> outcome)
    (inputs : list string) : list event :=
  (match initialize with
   | Returned _ => main_loop run 0 inputs
   | Raised e => [Said Error ("Критическая ошибка: " ++ message e)]
   | Interrupted => [Said Warning "Инициализация прервана пользователем (Ctrl+C)"]
   end ++ [Shutdown; Said Success "✅ Агент остановлен"])%list.

(** The statements of [main] ahead of its [try]: the log level is read
    from the configuration and set, then [BrowserAgent()] is constructed,
    whose [__init__] reads the three sections of the configuration, builds
    the client and the task analyzer and reads the iteration limit.
    [task_analyzer] is the outcome of [TaskAnalyzer(self.api)]. *)
Definition before_try (getenv : ConfigLoader.environment) (config : value)
    (task_analyzer : res unit) : res unit :=
  logging_config <- get_of config "logging" (VDict [("level", VStr "INFO")]) ;;
  log_level <- get_of logging_config "level" (VStr "INFO") ;;
  _ <- match log_level with
       | VStr _ => Ret tt
       | v => Raise (no_attribute v "upper")
       end ;;
  _ <- ConfigLoader.get_nvidia_api_config getenv config ;;
  _ <- get_of config "browser" (VDict []) ;;
  agent_config <- get_of config "agent" (VDict []) ;;
  _ <- task_analyzer ;;
  _ <- get_of agent_config "max_iterations" (VInt 50) ;;
  Ret tt.

(** [main]: what is raised ahead of the [try] leaves [main] as it is, and
    then no [finally] clause runs.  The result is the events and the
    exception that escapes. *)
Definition main (getenv : ConfigLoader.environment) (config : value)
    (task_analyzer : res unit) (initialize : outcome)
    (run : nat -> string -> outcome) (inputs : list string)
    : list event * option exn :=
  match before_try getenv config task_analyzer with
  | Raise e => ([], Some e)
  | Ret _ => (main_try initialize run inputs, None)
  end.

(** The tasks handed to the agent. *)
Definition tasks (t : list event) : list string :=
  flat_map (fun e => match e with Executed d => [d] | _ => [] end) t.

(** The lines typed before the first exit word. *)
Fixpoint before_exit (inputs : list string) : list string :=
  match inputs with
  | [] => []
  | line :: rest =>
      if mem (lower (strip line)) exit_words then [] else line :: before_exit rest
  end.

(** What [execute_task] hands back when the opening of the start page ends
    the task. *)
Definition start_page_result (o : BrowserAgent.opened) : option value :=
  match o with
  | BrowserAgent.EarlyReturn None => Some VNone
  | BrowserAgent.EarlyReturn (Some r) =>
      Some (VDict [("status", VStr (BrowserAgent.early_status r));
                   ("message", VStr (BrowserAgent.early_message r));
                   ("error", VStr (BrowserAgent.early_error r))])
  | _ => None
  end.

End Main.

(* ================================================================== *)
(** * Fixtures: concrete inputs used by the examples below *)
(* ================================================================== *)

Module Fixtures.
Import Py.

(** A client whose history holds the system prompt only. *)
Definition client : NvidiaAPI.NvidiaAPIClient :=
  NvidiaAPI.set_system_message (NvidiaAPI.init false) "system prompt".

(** A page whose operations all succeed. *)
Definition page_of (d : Driver.locator) : Driver.page :=
  {| Driver.doc := d;
     Driver.pages_open := 1;
     Driver.keyboard_press := fun _ _ => None;
     Driver.press_body := fun _ => None;
     Driver.click_body := None;
     Driver.goto_page := fun _ => None;
     Driver.new_page_load := None |}.

Definition plain_element (id : nat) (tag role text : string)
    (attrs : list (string * string)) (height : Z) : Driver.element :=
  {| Driver.uid := id;
     Driver.ancestors := [];
     Driver.tag := tag;
     Driver.role := role;
     Driver.acc_name := text;
     Driver.label := "";
     Driver.text := text;
     Driver.attrs := attrs;
     Driver.visible := true;
     Driver.box_height := Some height;
     Driver.invalid := false;
     Driver.click_error := None;
     Driver.opens_page := false |}.

(** Three buttons whose text contains "Buy". *)
Definition three_buy_buttons : Driver.page :=
  page_of [plain_element 1 "button" "button" "Buy now" [] 40;
           plain_element 2 "button" "button" "Buy later" [] 40;
           plain_element 3 "button" "button" "Buy as a gift" [] 40].

Definition buy_text : value := VDict [("text", VStr "Buy")].

(** A visible banner of class "modal", 100 pixels tall, on a page with a
    button and a link. *)
Definition short_modal_page : Driver.page :=
  page_of [plain_element 1 "div" "" "Cookies are used" [("class", "modal banner")] 100;
           plain_element 2 "button" "button" "Buy" [] 40;
           plain_element 3 "a" "link" "Catalogue" [("href", "https://shop.example/catalogue")] 20].

(** An executor whose [click], [fill], [type_text], [goto] and
    [wait_for_user_action] report success. *)
Definition obliging : BrowserAgent.Executor :=
  {| BrowserAgent.ex_click := fun _ _ _ => ActionExecutor.succeeded;
     BrowserAgent.ex_fill := fun _ _ _ => ActionExecutor.succeeded;
     BrowserAgent.ex_type_text := fun _ _ _ => ActionExecutor.succeeded;
     BrowserAgent.ex_goto := fun _ => true;
     BrowserAgent.ex_scroll := fun _ => Raise ActionExecutor.too_many_arguments;
     BrowserAgent.ex_wait_for_timeout := fun _ => Raise ActionExecutor.too_many_arguments;
     BrowserAgent.ex_wait_for_user_action := fun _ => true |}.

(** An executor that finds nothing to click. *)
Definition finds_nothing : BrowserAgent.Executor :=
  {| BrowserAgent.ex_click := fun _ _ _ => ActionExecutor.failed "element_not_found" None;
     BrowserAgent.ex_fill := fun _ _ _ => ActionExecutor.failed "element_not_found" None;
     BrowserAgent.ex_type_text := fun _ _ _ => ActionExecutor.failed "element_not_found" None;
     BrowserAgent.ex_goto := fun _ => true;
     BrowserAgent.ex_scroll := fun _ => Raise ActionExecutor.too_many_arguments;
     BrowserAgent.ex_wait_for_timeout := fun _ => Raise ActionExecutor.too_many_arguments;
     BrowserAgent.ex_wait_for_user_action := fun _ => true |}.

(** The executor of the program over a page without elements. *)
Definition on_empty_page : BrowserAgent.Executor :=
  BrowserAgent.executor_on (page_of []) obliging.

(** The decisions of the examples, parsed. *)
Definition hover_decision : dict := [("action", VStr "hover")].

Definition click_buy : dict :=
  [("action", VStr "click"); ("strategy", VStr "text"); ("args", buy_text)].

Definition scroll_sideways : dict :=
  [("action", VStr "scroll"); ("value", VStr "sideways")].

(** The texts of these decisions, as the model would send them. *)
Definition q (s : string) : string := String dquote (s ++ String dquote "").

Definition hover_text : string := "{" ++ q "action" ++ ": " ++ q "hover" ++ "}".

Definition click_buy_text : string :=
  "{" ++ q "action" ++ ": " ++ q "click" ++ ", " ++ q "strategy" ++ ": " ++ q "text"
  ++ ", " ++ q "args" ++ ": {" ++ q "text" ++ ": " ++ q "Buy" ++ "}}".

Definition scroll_sideways_text : string :=
  "{" ++ q "action" ++ ": " ++ q "scroll" ++ ", " ++ q "value" ++ ": " ++ q "sideways" ++ "}".

(** A JSON reader that knows the decisions of the examples. *)
Definition reader (s : string) : DecisionValidator.loaded :=
  if String.eqb s hover_text then DecisionValidator.Loaded (VDict hover_decision)
  else if String.eqb s click_buy_text then DecisionValidator.Loaded (VDict click_buy)
  else if String.eqb s scroll_sideways_text
  then DecisionValidator.Loaded (VDict scroll_sideways)
  else DecisionValidator.JSONDecodeError "Expecting value: line 1 column 1 (char 0)".

Definition library : DecisionValidator.library :=
  {| DecisionValidator.json_loads := reader;
     DecisionValidator.search_marker := fun _ => None;
     DecisionValidator.search_fence := fun _ => None |}.

Definition world_with (e : BrowserAgent.Executor) : BrowserAgent.world :=
  {| BrowserAgent.executor := e;
     BrowserAgent.lib := library;
     BrowserAgent.keyboard := fun _ => None;
     BrowserAgent.confirm := Ret true;
     BrowserAgent.ask_user := Ret "";
     BrowserAgent.llm := Ret None;
     BrowserAgent.page_timeout := 1000 |}.

(** A task, the state at the start of the first task of an agent, and the
    state an earlier task may leave behind. *)
Definition gift_task : BrowserAgent.Task := BrowserAgent.mkTask "buy a gift" false.

Definition first_task_start : BrowserAgent.agent :=
  BrowserAgent.task_start (BrowserAgent.init None) gift_task.

Definition failed_click_buy : BrowserAgent.attempt :=
  BrowserAgent.mkAttempt (VStr "click") (VStr "text") buy_text (VStr "")
    (VStr "no reason") (Some false).

Definition after_earlier_task : BrowserAgent.agent :=
  BrowserAgent.mkAgent gift_task 7 50 (Some "fp") 2 ["element_not_found"] None
    [failed_click_buy].

(** The same attempted-action list on a page that did or did not change. *)
Definition page_changed_state : BrowserAgent.agent :=
  BrowserAgent.mkAgent gift_task 1 50 (Some "fp") 0 ["element_not_found"] None
    [failed_click_buy].

Definition page_unchanged_state : BrowserAgent.agent :=
  BrowserAgent.mkAgent gift_task 1 50 (Some "fp") 1 ["element_not_found"] None
    [failed_click_buy].

(** A pass that sees the page with fingerprint [fp] and is told [decision]. *)
Definition seen (fp decision : string) (e : BrowserAgent.Executor)
    : BrowserAgent.observation :=
  {| BrowserAgent.analysis_url := Some "https://shop.example/";
     BrowserAgent.fingerprint := fp;
     BrowserAgent.has_captcha := false;
     BrowserAgent.completion := None;
     BrowserAgent.decision := Ret decision;
     BrowserAgent.obs_world := world_with e |}.

(** Three passes on three different pages, each told to click "Buy" while
    the executor finds nothing, and the states between them. *)
Definition pass (fp : string) : BrowserAgent.observation :=
  seen fp click_buy_text finds_nothing.

Definition after_pass1 : BrowserAgent.agent :=
  fst (fst (BrowserAgent.iteration first_task_start (pass "fp1"))).

Definition after_pass2 : BrowserAgent.agent :=
  fst (fst (BrowserAgent.iteration after_pass1 (pass "fp2"))).

Definition one_click : list BrowserAgent.event :=
  [BrowserAgent.EvExecutor (BrowserAgent.Click (VStr "text") buy_text false)].

(** A form: two text fields and a button; every field operation goes
    through and no field has a label element. *)
Definition form_page : Driver.page :=
  page_of [plain_element 1 "input" "textbox" "" [("id", "email"); ("placeholder", "Email")] 30;
           plain_element 2 "input" "textbox" "" [("placeholder", "Password")] 30;
           plain_element 3 "button" "button" "Send" [] 40].

Definition willing_fields : ActionExecutor.fields :=
  {| ActionExecutor.fill_answer := fun _ _ => None;
     ActionExecutor.type_answer := fun _ _ _ => None;
     ActionExecutor.label_for := fun _ => Ret "" |}.

Definition any_textbox : value := VDict [("role", VStr "textbox")].
Definition email_field : value := VDict [("placeholder", VStr "Email")].
Definition send_button : value := VDict [("role", VStr "button"); ("name", VStr "Send")].

(** Three tabs are open and the only link of the page opens a fourth. *)
Definition tabs_page : Driver.page :=
  {| Driver.doc :=
       [{| Driver.uid := 1;
           Driver.ancestors := [];
           Driver.tag := "a";
           Driver.role := "link";
           Driver.acc_name := "Video";
           Driver.label := "";
           Driver.text := "Video";
           Driver.attrs := [("href", "https://video.example/watch")];
           Driver.visible := true;
           Driver.box_height := Some 20%Z;
           Driver.invalid := false;
           Driver.click_error := None;
           Driver.opens_page := true |}];
     Driver.pages_open := 3;
     Driver.keyboard_press := fun _ _ => None;
     Driver.press_body := fun _ => None;
     Driver.click_body := None;
     Driver.goto_page := fun _ => None;
     Driver.new_page_load := None |}.

Definition video_link : value := VDict [("role", VStr "link")].

(** A click decision that names a CSS selector. *)
Definition css_args : dict := [("selector", VStr "#buy")].

Definition click_css : dict :=
  [("action", VStr "click"); ("strategy", VStr "css"); ("args", VDict css_args)].

(** A wait decision whose value is a JSON number, its text, and a reader,
    a world and a pass that know it. *)
Definition wait_two_seconds : dict := [("action", VStr "wait"); ("value", VInt 2000)].

Definition wait_text : string :=
  "{" ++ q "action" ++ ": " ++ q "wait" ++ ", " ++ q "value" ++ ": 2000}".

Definition number_reader (s : string) : DecisionValidator.loaded :=
  if String.eqb s wait_text then DecisionValidator.Loaded (VDict wait_two_seconds)
  else DecisionValidator.JSONDecodeError "Expecting value: line 1 column 1 (char 0)".

Definition number_world : BrowserAgent.world :=
  {| BrowserAgent.executor := obliging;
     BrowserAgent.lib :=
       {| DecisionValidator.json_loads := number_reader;
          DecisionValidator.search_marker := fun _ => None;
          DecisionValidator.search_fence := fun _ => None |};
     BrowserAgent.keyboard := fun _ => None;
     BrowserAgent.confirm := Ret true;
     BrowserAgent.ask_user := Ret "";
     BrowserAgent.llm := Ret None;
     BrowserAgent.page_timeout := 1000 |}.

Definition number_pass : BrowserAgent.observation :=
  {| BrowserAgent.analysis_url := Some "https://shop.example/";
     BrowserAgent.fingerprint := "fp1";
     BrowserAgent.has_captcha := false;
     BrowserAgent.completion := None;
     BrowserAgent.decision := Ret wait_text;
     BrowserAgent.obs_world := number_world |}.

(** A risky task, an operator who declines, and a click whose reason
    mentions paying. *)
Definition pay_task : BrowserAgent.Task := BrowserAgent.mkTask "pay the bill" true.

Definition paying : BrowserAgent.agent :=
  BrowserAgent.task_start (BrowserAgent.init None) pay_task.

Definition declining_world : BrowserAgent.world :=
  {| BrowserAgent.executor := obliging;
     BrowserAgent.lib := library;
     BrowserAgent.keyboard := fun _ => None;
     BrowserAgent.confirm := Ret false;
     BrowserAgent.ask_user := Ret "";
     BrowserAgent.llm := Ret None;
     BrowserAgent.page_timeout := 1000 |}.

Definition click_pay : dict :=
  [("action", VStr "click"); ("strategy", VStr "role");
   ("args", VDict [("role", VStr "button"); ("name", VStr "Pay")]);
   ("reason", VStr "pay the order")].

(** The same task when the input of the operator is closed: [input] raises
    EOFError.  The JSON reader of this world reads every text as the click
    on "Pay". *)
Definition end_of_input : exn := OtherException "EOF when reading a line".

Definition closed_input_world : BrowserAgent.world :=
  {| BrowserAgent.executor := obliging;
     BrowserAgent.lib :=
       {| DecisionValidator.json_loads := fun _ => DecisionValidator.Loaded (VDict click_pay);
          DecisionValidator.search_marker := fun _ => None;
          DecisionValidator.search_fence := fun _ => None |};
     BrowserAgent.keyboard := fun _ => None;
     BrowserAgent.confirm := Raise end_of_input;
     BrowserAgent.ask_user := Ret "";
     BrowserAgent.llm := Ret None;
     BrowserAgent.page_timeout := 1000 |}.

(** A dialog that holds one button, and the page that shows it. *)
Definition dialog : Driver.element :=
  plain_element 1 "div" "dialog" "Подписка оформлена" [("role", "dialog")] 300.

Definition dialog_page : Driver.page :=
  page_of [dialog;
           {| Driver.uid := 2;
              Driver.ancestors := [1];
              Driver.tag := "button";
              Driver.role := "button";
              Driver.acc_name := "Закрыть";
              Driver.label := "";
              Driver.text := " Закрыть ";
              Driver.attrs := [];
              Driver.visible := true;
              Driver.box_height := Some 40%Z;
              Driver.invalid := false;
              Driver.click_error := None;
              Driver.opens_page := false |}].

(** A stream whose lines are plain text. *)
Definition no_json : string -> option value := fun _ => None.

(** A start page whose host does not resolve, and a model that gives no
    search query. *)
Definition lost_host : BrowserAgent.navigator :=
  {| BrowserAgent.nav_goto := fun _ _ => Some "net::ERR_NAME_NOT_RESOLVED at https://shop.example/";
     BrowserAgent.nav_llm := Ret None;
     BrowserAgent.nav_json := fun _ => DecisionValidator.JSONDecodeError "Expecting value" |}.

(** A configuration that names no key source, and an environment that
    holds the default variable. *)
Definition bare_config : value :=
  VDict [("nvidia_api",
          VDict [("endpoint", VStr "https://api.example/v1/chat/completions");
                 ("model", VStr "assistant")])].

Definition key_in_environment : ConfigLoader.environment :=
  fun name => if String.eqb name "NVIDIA_API_KEY" then Some "nvapi-123" else None.

End Fixtures.

(* ================================================================== *)
(** * Properties of the LLM client *)
(* ================================================================== *)

Section NvidiaAPI_facts.
Import Py NvidiaAPI.

Lemma before_result evs r : result (before evs r) = result r.
Proof. reflexivity. Qed.

Lemma before_final evs r : final (before evs r) = final r.
Proof. reflexivity. Qed.

Lemma before_attempt evs r : attempt_at_end (before evs r) = attempt_at_end r.
Proof. reflexivity. Qed.

(** The loop never touches the history before it returns, and what it
    appends on return is the assistant message alone. *)
Lemma history_after c message use_history script :
  forall attempt,
    conversation_history (final (call_with_retry_from c message use_history attempt script))
    = match result (call_with_retry_from c message use_history attempt script) with
      | Returned text =>
          if use_history && nonempty text
          then (conversation_history c ++ [mkMessage "assistant" text])%list
          else conversation_history c
      | _ => conversation_history c
      end.
Proof.
  induction script as [|r script IH]; intro attempt; simpl.
  - destruct (max_retries c <=? attempt); reflexivity.
  - destruct (max_retries c <=? attempt); [reflexivity|].
    destruct r as [| msg | code choices].
    + destruct (S attempt <? max_retries c); [|reflexivity].
      rewrite before_final, before_result. apply IH.
    + reflexivity.
    + destruct (code =? 429)%Z.
      * rewrite before_final, before_result. apply IH.
      * destruct (negb (code =? 200)%Z); [reflexivity|].
        destruct choices as [[|ch chs]|]; try reflexivity.
        simpl. destruct (use_history && nonempty (response_text ch)); reflexivity.
Qed.

(** Every request carries the same message list: the history (when asked
    for) followed by the user message. *)
Lemma posts_payload c message use_history script :
  forall attempt,
    Forall (fun p => p = _build_payload c message use_history false)
           (posts (trace (call_with_retry_from c message use_history attempt script))).
Proof.
  induction script as [|r script IH]; intro attempt; simpl.
  - destruct (max_retries c <=? attempt); constructor.
  - destruct (max_retries c <=? attempt); [constructor|].
    destruct r as [| msg | code choices].
    + destruct (S attempt <? max_retries c).
      * simpl. constructor; [reflexivity | apply IH].
      * simpl. constructor; [reflexivity | constructor].
    + simpl. constructor; [reflexivity | constructor].
    + destruct (code =? 429)%Z.
      * simpl. constructor; [reflexivity | apply IH].
      * destruct (negb (code =? 200)%Z).
        { simpl. constructor; [reflexivity | constructor]. }
        destruct choices as [[|ch chs]|]; simpl;
          (constructor; [reflexivity | constructor]).
Qed.

(** Rate-limit replies are transparent for the loop variable. *)
Lemma rate_limited_prefix c message use_history attempt script :
  forall n choices,
    attempt < max_retries c ->
    call_with_retry_from c message use_history attempt
      (repeat (Status 429 choices) n ++ script)
    = before (concat (repeat [EvPost (_build_payload c message use_history false);
                              EvSleep 10] n))
        (call_with_retry_from c message use_history attempt script).
Proof.
  intros n choices Hlt. induction n as [|n IH].
  - simpl. unfold before. simpl.
    destruct (call_with_retry_from c message use_history attempt script); reflexivity.
  - cbn [repeat app]. cbn [call_with_retry_from].
    assert (Hle : (max_retries c <=? attempt) = false) by (apply Nat.leb_gt; exact Hlt).
    rewrite Hle. cbn [Z.eqb Pos.eqb]. rewrite IH. reflexivity.
Qed.

(** The waits of the loop: ten seconds after a 429, one second after the
    first connection error and two after the second. *)
Lemma sleeps_of_retry c message use_history script :
  max_retries c = 3 -> retry_delay_base c = 1%Z ->
  forall attempt,
    Forall (fun s => s = 10 \/ s = 1 \/ s = 2)%Z
      (sleeps (trace (call_with_retry_from c message use_history attempt script))).
Proof.
  intros Hm Hb.
  induction script as [|r script IH]; intro attempt; cbn [call_with_retry_from].
  - destruct (max_retries c <=? attempt); constructor.
  - destruct (max_retries c <=? attempt) eqn:Hle; [constructor|].
    destruct r as [| msg | code choices].
    + destruct (S attempt <? max_retries c) eqn:Hlt.
      * apply Nat.ltb_lt in Hlt. rewrite Hm in Hlt. rewrite Hb.
        cbn [before trace app sleeps flat_map]. constructor; [|apply IH].
        destruct attempt as [|[|attempt]]; [right; left | right; right | lia]; reflexivity.
      * constructor.
    + constructor.
    + destruct (code =? 429)%Z.
      * cbn [before trace app sleeps flat_map]. constructor; [left; reflexivity | apply IH].
      * destruct (negb (code =? 200)%Z); [constructor|].
        destruct choices as [[|ch chs]|]; constructor.
Qed.

(** The loop variable counts connection errors and stops at the budget. *)
Lemma attempts_bounded c message use_history script :
  forall attempt,
    attempt <= max_retries c ->
    attempt_at_end (call_with_retry_from c message use_history attempt script)
    <= max_retries c.
Proof.
  induction script as [|r script IH]; intros attempt Hle; cbn [call_with_retry_from].
  - destruct (max_retries c <=? attempt); simpl; lia.
  - destruct (max_retries c <=? attempt) eqn:H3; [simpl; lia|].
    apply Nat.leb_gt in H3.
    destruct r as [| msg | code choices].
    + destruct (S attempt <? max_retries c) eqn:Hlt.
      * rewrite before_attempt. apply IH. lia.
      * simpl. lia.
    + simpl. lia.
    + destruct (code =? 429)%Z.
      * rewrite before_attempt. apply IH. lia.
      * destruct (negb (code =? 200)%Z); [simpl; lia|].
        destruct choices as [[|ch chs]|]; simpl; lia.
Qed.

End NvidiaAPI_facts.

Section NvidiaAPI_claims.
Import Py NvidiaAPI.

(** C4, as the code has it.  Every request of a history-backed call carries
    the stored history followed by the user message, and a one-shot call the
    user message alone; the user message is never stored.  When the call
    returns a non-empty reply with [use_history] set, the history grows by
    exactly one message, the assistant reply; in every other case (one-shot
    call, empty reply, error) the history is left as it was. *)
Theorem C4_history_grows_by_assistant_reply :
  forall (reasoning : bool) (h : list Message) (message : string)
         (use_history : bool) (script : list reply),
    let c := with_history (init reasoning) h in
    let r := _call_with_retry c message use_history script in
    Forall (fun p => messages p
                     = ((if use_history then h else []) ++ [mkMessage "user" message])%list)
           (posts (trace r))
    /\ conversation_history (final r)
       = match result r with
         | Returned text =>
             if use_history && nonempty text
             then (h ++ [mkMessage "assistant" text])%list
             else h
         | _ => h
         end.
Proof.
  intros reasoning h message use_history script c r. split.
  - pose proof (posts_payload c message use_history script 0) as H.
    eapply Forall_impl; [|exact H].
    intros p Hp. cbv beta in Hp. rewrite Hp. reflexivity.
  - unfold r, _call_with_retry. rewrite history_after. reflexivity.
Qed.

(** C4 fails as stated: after one successful history-backed call the history
    holds the system prompt and the assistant reply; the user message that
    was sent is not in it, so the history grew by one message, not by a
    user+assistant pair. *)
Lemma C4_user_message_not_stored :
  let r := _call_with_retry Fixtures.client "hi" true [ok "hello"] in
  result r = Returned "hello"
  /\ conversation_history (final r)
     = [mkMessage "system" "system prompt"; mkMessage "assistant" "hello"]
  /\ conversation_history (final r)
     <> (conversation_history Fixtures.client
         ++ [mkMessage "user" "hi"; mkMessage "assistant" "hello"])%list
  /\ length (conversation_history (final r))
     <> length (conversation_history Fixtures.client) + 2.
Proof.
  cbv zeta. repeat split; try reflexivity; vm_compute; intro H; discriminate H.
Qed.

(** C7, as the code has it.  A 429 reply costs a ten-second sleep and leaves
    the attempt counter alone, any number of times: 429, 429, 200 returns the
    reply with the counter still at zero.  Connection errors are counted: the
    first is followed by a one-second sleep, the second by a two-second
    sleep, and the third is re-raised to the caller, so no sleep is ever
    longer than two seconds apart from the ten of a 429. *)
Theorem C7_rate_limit_and_connection_retries :
  forall (reasoning : bool) (h : list Message) (message : string) (use_history : bool),
    let c := with_history (init reasoning) h in
    let post := EvPost (_build_payload c message use_history false) in
    (forall n choices script,
        _call_with_retry c message use_history (repeat (Status 429 choices) n ++ script)
        = before (concat (repeat [post; EvSleep 10] n))
            (_call_with_retry c message use_history script))
    /\ (forall text,
           let r := _call_with_retry c message use_history [too_many; too_many; ok text] in
           result r = Returned text /\ attempt_at_end r = 0
           /\ sleeps (trace r) = [10; 10]%Z)
    /\ (forall script,
           _call_with_retry c message use_history
             (ConnectionFailure :: ConnectionFailure :: ConnectionFailure :: script)
           = mkRun RaisedConnection c 3 [post; EvSleep 1; post; EvSleep 2; post])
    /\ (forall script,
           let r := _call_with_retry c message use_history script in
           attempt_at_end r <= 3
           /\ Forall (fun s => s = 10 \/ s = 1 \/ s = 2)%Z (sleeps (trace r))).
Proof.
  intros reasoning h message use_history c post.
  split; [|split; [|split]].
  - intros n choices script. unfold _call_with_retry.
    apply rate_limited_prefix. simpl. lia.
  - intros text r. repeat split; reflexivity.
  - intros script. reflexivity.
  - intros script r. split.
    + pose proof (attempts_bounded c message use_history script 0) as H.
      simpl in H. apply H. lia.
    + unfold r. apply sleeps_of_retry; reflexivity.
Qed.

(** C7 fails as stated: three connection errors in a row are separated by a
    one-second and a two-second sleep and the third is re-raised; a
    four-second backoff is never slept. *)
Lemma C7_no_four_second_backoff :
  let r := _call_with_retry Fixtures.client "hi" false
             [ConnectionFailure; ConnectionFailure; ConnectionFailure] in
  result r = RaisedConnection
  /\ sleeps (trace r) = [1; 2]%Z
  /\ sleeps (trace r) <> [1; 2; 4]%Z
  /\ ~ In 4%Z (sleeps (trace r)).
Proof.
  cbv zeta. repeat split; try reflexivity.
  - vm_compute. intro H. discriminate H.
  - vm_compute. intros [H|[H|H]]; try discriminate H. exact H.
Qed.

End NvidiaAPI_claims.

(* ================================================================== *)
(** * Properties of the action executor *)
(* ================================================================== *)

Section ActionExecutor_facts.
Import Py Driver ActionExecutor.

Lemma first_at_most_one (l : locator) : length (first l) <= 1.
Proof. destruct l as [|e l]; simpl; lia. Qed.

Lemma first_of_cons (e : element) (l : locator) : first (e :: l) = [e].
Proof. reflexivity. Qed.

(** A [text] strategy with a text to look for resolves to at most one
    element: every branch ends in [.first]. *)
Lemma text_locator_at_most_one (p : page) (d : dict) (l : locator) :
  truthy (get d "text" (VStr "")) = true ->
  _build_locator_from_strategy p "text" (VDict d) = Ret l ->
  count l <= 1.
Proof.
  intros Ht. unfold _build_locator_from_strategy. cbn [String.eqb Ascii.eqb Bool.eqb].
  cbn [get_of bind]. rewrite Ht.
  destruct (truthy (get d "is_link" (VBool false))).
  - destruct (text_arg (get d "text" (VStr ""))) as [t|e]; cbn [bind]; [|discriminate].
    destruct (truthy (get d "context" (VStr ""))).
    + destruct (text_arg (get d "context" (VStr ""))) as [c|e]; cbn [bind]; [|discriminate].
      intro H. injection H as <-. apply first_at_most_one.
    + intro H. injection H as <-. apply first_at_most_one.
  - destruct (text_arg (get d "text" (VStr ""))) as [t|e]; cbn [bind]; [|discriminate].
    intro H. injection H as <-. apply first_at_most_one.
Qed.

Lemma placeholder_variants_length (n : nat) : length (placeholder_variants n) <= 3.
Proof.
  unfold placeholder_variants. rewrite length_map, length_seq. lia.
Qed.

Lemma enumerate_from_length {A} (l : list A) : forall i, length (enumerate_from i l) = length l.
Proof. induction l as [|x l IH]; intro i; simpl; [reflexivity | rewrite IH; reflexivity]. Qed.

(** Whatever the strategy, a multiple-match result carries the number of
    matches, which is more than one, and at most five variants. *)
Lemma multiple_matches_shape (p : page) (s : string) (a : value) (b : bool) :
  error (returned (click p s a b)) = Some "multiple_matches" ->
  exists l, _build_locator_from_strategy p s a = Ret l
            /\ match_count (returned (click p s a b)) = Some (count l)
            /\ 1 < count l /\ b = false
            /\ length (variants (returned (click p s a b))) <= 5.
Proof.
  unfold click.
  destruct (negb (nonempty s) || negb (truthy a)); [discriminate|].
  destruct (_build_locator_from_strategy p s a) as [l|e]; [|discriminate].
  destruct (count l =? 0); [discriminate|].
  destruct ((1 <? count l) && negb b) eqn:Hm.
  - intros _. apply andb_true_iff in Hm. destruct Hm as [Hn Hb].
    apply Nat.ltb_lt in Hn. apply negb_true_iff in Hb.
    exists l. cbn [returned match_count variants]. repeat split; auto.
    match goal with
    | |- context [match ?f with [] => _ | _ :: _ => _ end] => set (found := f)
    end.
    assert (Hf : length found <= 5).
    { unfold found.
      match goal with |- context [if ?c then _ else _] => destruct c end;
        [|simpl; lia].
      rewrite length_map, enumerate_from_length, length_firstn. lia. }
    destruct found as [|v vs].
    + pose proof (placeholder_variants_length (count l)). lia.
    + exact Hf.
  - destruct (locator_click l) as [e|e]; [|discriminate].
    destruct (pages_open p <? (if opens_page e then S (pages_open p) else pages_open p));
      [destruct (new_page_load p)|]; discriminate.
Qed.

(** The click of a [text] strategy on a text that occurs on the page. *)
Lemma click_text_first (p : page) (t : string) (e : element) (rest : locator) (b : bool) :
  nonempty t = true ->
  get_by_text (doc p) t = e :: rest ->
  click p "text" (VDict [("text", VStr t)]) b
  = match click_error e with
    | Some msg => mkCall (failed "actionability" (Some (click_reason msg))) [OpClickRaised] false
    | None =>
        if opens_page e then
          match new_page_load p with
          | None => mkCall succeeded
                      ([OpClick (uid e); OpSleep 500; OpWaitLoad; OpSwitchPage]
                       ++ closed_pages (S (pages_open p)))%list true
          | Some _ => mkCall succeeded [OpClick (uid e); OpSleep 500; OpWaitLoad] false
          end
        else mkCall succeeded [OpClick (uid e); OpSleep 500] false
    end.
Proof.
  intros Ht Hg. unfold click.
  change (nonempty "text") with true. cbn [negb orb truthy].
  unfold _build_locator_from_strategy. cbn [String.eqb Ascii.eqb Bool.eqb].
  cbn [get_of bind get lookup String.eqb Ascii.eqb Bool.eqb truthy text_arg].
  rewrite Ht. cbn [bind]. rewrite Hg, first_of_cons.
  cbn [count length Nat.eqb]. change (1 <? 1) with false.
  cbn [andb locator_click].
  destruct (click_error e); [reflexivity|].
  destruct (opens_page e); cbv iota.
  - assert (H : (pages_open p <? S (pages_open p)) = true) by (apply Nat.ltb_lt; lia).
    rewrite H. reflexivity.
  - rewrite Nat.ltb_irrefl. reflexivity.
Qed.

End ActionExecutor_facts.

Section ActionExecutor_claims.
Import Py Driver ActionExecutor.

(** C5.  [close_modal] asks the executor for an attribute [key_press]; the
    class defines [press_key].  The lookup raises, the outer handler turns it
    into a modal_close_failed error, and Escape is never pressed: with no
    strategy, with type 'esc', and with type 'button' without a sub-strategy.
    The method that was meant would have pressed it. *)
Theorem C5_close_modal_never_presses_escape :
  forall (p : page),
    let no_attribute :=
      mkCall (failed "modal_close_failed"
                (Some "'ActionExecutor' object has no attribute 'key_press'")) [] false in
    close_modal p None = no_attribute
    /\ close_modal p (Some [("type", VStr "esc")]) = no_attribute
    /\ close_modal p (Some [("type", VStr "button")]) = no_attribute
    /\ ops (press_key p "Escape" None None) = [OpPressBody "Escape"].
Proof.
  intro p. cbv zeta. repeat split.
  unfold press_key. destruct (press_body p "Escape"); reflexivity.
Qed.

(** C6, as the code has it.  The locator of a [text] strategy is narrowed to
    its first match before it is counted, so on a page where exactly three
    elements match the text, click succeeds against the first of them
    whether [allow_multiple] is false or true, and a [text] strategy with a
    text never yields a MultipleMatches result.  A MultipleMatches result,
    for the strategies that can yield one, carries the number of matches
    (more than one) and at most five variants. *)
Theorem C6_text_click_takes_first_match :
  forall (p : page) (t : string) (e1 e2 e3 : element) (allow_multiple : bool),
    nonempty t = true ->
    get_by_text (doc p) t = [e1; e2; e3] ->
    click_error e1 = None ->
    let c := click p "text" (VDict [("text", VStr t)]) allow_multiple in
    success (returned c) = true
    /\ error (returned c) = None
    /\ hd_error (ops c) = Some (OpClick (uid e1))
    /\ (forall d b, truthy (get d "text" (VStr "")) = true ->
                    error (returned (click p "text" (VDict d) b)) <> Some "multiple_matches")
    /\ (forall s a b,
           error (returned (click p s a b)) = Some "multiple_matches" ->
           exists l, _build_locator_from_strategy p s a = Ret l
                     /\ match_count (returned (click p s a b)) = Some (count l)
                     /\ 1 < count l /\ b = false
                     /\ length (variants (returned (click p s a b))) <= 5).
Proof.
  intros p t e1 e2 e3 allow_multiple Ht Hg He c.
  assert (Hc : c = if opens_page e1 then
                     match new_page_load p with
                     | None => mkCall succeeded
                                 ([OpClick (uid e1); OpSleep 500; OpWaitLoad; OpSwitchPage]
                                  ++ closed_pages (S (pages_open p)))%list true
                     | Some _ => mkCall succeeded
                                   [OpClick (uid e1); OpSleep 500; OpWaitLoad] false
                     end
                   else mkCall succeeded [OpClick (uid e1); OpSleep 500] false).
  { unfold c. rewrite (click_text_first p t e1 [e2; e3] allow_multiple Ht Hg).
    rewrite He. reflexivity. }
  split; [|split; [|split; [|split]]].
  - rewrite Hc. destruct (opens_page e1); [destruct (new_page_load p)|]; reflexivity.
  - rewrite Hc. destruct (opens_page e1); [destruct (new_page_load p)|]; reflexivity.
  - rewrite Hc. destruct (opens_page e1); [destruct (new_page_load p)|]; reflexivity.
  - intros d b Hd Hm.
    destruct (multiple_matches_shape p "text" (VDict d) b Hm) as (l & Hl & _ & Hn & _).
    pose proof (text_locator_at_most_one p d l Hd Hl). lia.
  - intros s a b. apply multiple_matches_shape.
Qed.

(** The three-button page: the hypotheses of C6 hold for it and the click
    goes to the first button. *)
Lemma C6_three_buttons_witness :
  nonempty "Buy" = true
  /\ get_by_text (doc Fixtures.three_buy_buttons) "Buy" = doc Fixtures.three_buy_buttons
  /\ success (returned (click Fixtures.three_buy_buttons "text" Fixtures.buy_text false)) = true.
Proof.
  split; [reflexivity | split; [reflexivity |]].
  exact (proj1 (C6_text_click_takes_first_match Fixtures.three_buy_buttons "Buy"
                  (Fixtures.plain_element 1 "button" "button" "Buy now" [] 40)
                  (Fixtures.plain_element 2 "button" "button" "Buy later" [] 40)
                  (Fixtures.plain_element 3 "button" "button" "Buy as a gift" [] 40)
                  false eq_refl eq_refl eq_refl)).
Defined.

(** C6 fails as stated: with three elements matching the text and
    [allow_multiple] false, click reports success on the first element and
    not a MultipleMatches result with count 3. *)
Lemma C6_no_multiple_matches_for_text :
  let c := click Fixtures.three_buy_buttons "text" Fixtures.buy_text false in
  count (get_by_text (doc Fixtures.three_buy_buttons) "Buy") = 3
  /\ returned c = succeeded
  /\ ops c = [OpClick 1; OpSleep 500]
  /\ error (returned c) <> Some "multiple_matches"
  /\ match_count (returned c) <> Some 3.
Proof.
  cbv zeta. repeat split; try reflexivity; vm_compute; intro H; discriminate H.
Qed.

End ActionExecutor_claims.

(* ================================================================== *)
(** * Properties of the modal detection *)
(* ================================================================== *)

Section PageAnalyzer_claims.
Import Py Driver PageAnalyzer.

Lemma last_In (l : locator) (e : element) (rest : locator) :
  last l = e :: rest -> In e l.
Proof.
  unfold last. destruct (rev l) as [|x r] eqn:E; [discriminate|].
  intro H. injection H as <- _. apply in_rev. rewrite E. left. reflexivity.
Qed.

(** [_detect_modals] only ever opens a modal for a visible candidate that
    is at least 150 pixels tall. *)
Lemma detect_modals_requires_height (p : page) (a : PageAnalysis) :
  modal_open (_detect_modals p a) = true ->
  exists e, In e (doc p) /\ visible e = true /\ tall_enough e = true
            /\ (dialog_selector e || modal_selector e) = true.
Proof.
  unfold _detect_modals.
  destruct (find _ (filter dialog_selector (doc p))) as [d|] eqn:Hf.
  - intros _. apply find_some in Hf. destruct Hf as [Hin Hp].
    apply filter_In in Hin. destruct Hin as [Hin Hs].
    apply andb_true_iff in Hp. destruct Hp as [Hv Ht].
    exists d. rewrite Hs. auto.
  - destruct (last (filter modal_selector (doc p))) as [|m rest] eqn:Hl; [discriminate|].
    destruct (visible m && tall_enough m) eqn:Hp; [|discriminate].
    intros _. apply last_In in Hl. apply filter_In in Hl. destruct Hl as [Hin Hs].
    apply andb_true_iff in Hp. destruct Hp as [Hv Ht].
    exists m. rewrite Hs, orb_true_r. auto.
Qed.

(** C9.  On a page whose only modal candidate is a visible banner of class
    "modal" that is 100 pixels tall, [_detect_modals] leaves [modal_open]
    false and computes no close strategy, as the claim says; but the hints
    are built from [_check_modal_visible], which has no height test and
    answers true, so the page-level button section and link section are
    suppressed although the page has a button and a link. *)
Theorem C9_short_banner_suppresses_page_hints :
  let p := Fixtures.short_modal_page in
  modal_open (analyze_modals p) = false
  /\ modal_close_element (analyze_modals p) = None
  /\ _check_modal_visible p = true
  /\ count (get_by_role (doc p) "button" None) = 1
  /\ buttons_section_shown p = false
  /\ count (get_by_role (doc p) "link" None) = 1
  /\ links_section_shown p = false.
Proof.
  cbv zeta. repeat split; reflexivity.
Qed.

End PageAnalyzer_claims.

(* ================================================================== *)
(** * Properties of the agent *)
(* ================================================================== *)

Section BrowserAgent_facts.
Import Py BrowserAgent.

Lemma mem_cons_false x y l : mem x (y :: l) = false -> String.eqb x y = false /\ mem x l = false.
Proof. simpl. intro H. apply orb_false_iff in H. exact H. Qed.

(** An action outside the list of valid actions matches no branch of the
    dispatch. *)
Lemma dispatch_unknown (w : world) (action strategy : string) (args value reason : Py.value) :
  mem action DecisionValidator.valid_actions = false ->
  dispatch w action strategy args value reason = ret (Result None).
Proof.
  intro H. unfold DecisionValidator.valid_actions in H.
  repeat match type of H with
         | mem _ (_ :: _) = false =>
             apply mem_cons_false in H;
             let E := fresh "E" in destruct H as [E H]
         end.
  unfold dispatch.
  rewrite E, E0, E1, E2, E3, E4, E5, E6, E7, E8, E9. reflexivity.
Qed.

Lemma unknown_not_gated (action : string) :
  mem action DecisionValidator.valid_actions = false ->
  mem action ["submit"; "click"; "confirm_complete"] = false.
Proof.
  intro H. unfold DecisionValidator.valid_actions in H.
  repeat match type of H with
         | mem _ (_ :: _) = false =>
             apply mem_cons_false in H;
             let E := fresh "E" in destruct H as [E H]
         end.
  simpl. rewrite E, E2, E8. reflexivity.
Qed.

(** The state updates ahead of the decision leave the error history
    alone. *)
Lemma observe_error_history (st : agent) (o : observation) :
  error_history (observe st o) = error_history st.
Proof.
  unfold observe, _has_page_changed. simpl.
  destruct (previous_page_state st); simpl; [|reflexivity].
  destruct (negb _); reflexivity.
Qed.

Lemma add_attempt_opt_error_history (st : agent) (a : option attempt) :
  error_history (add_attempt_opt st a) = error_history st.
Proof. destruct a; reflexivity. Qed.

Lemma add_attempt_opt_unchanged (st : agent) (a : option attempt) :
  page_state_unchanged_count (add_attempt_opt st a) = page_state_unchanged_count st.
Proof. destruct a; reflexivity. Qed.

(** The run of equal entries at the end of a history. *)
Lemma run_length_app_same (h : list string) (e : string) :
  consecutive_same_errors (h ++ [e]) e = S (consecutive_same_errors h e).
Proof.
  unfold consecutive_same_errors. rewrite rev_app_distr. simpl.
  rewrite String.eqb_refl. reflexivity.
Qed.

Lemma run_length_app_other (h : list string) (e e' : string) :
  e <> e' -> consecutive_same_errors (h ++ [e]) e' = 0.
Proof.
  intro H. unfold consecutive_same_errors. rewrite rev_app_distr. simpl.
  destruct (String.eqb_spec e e'); [contradiction | reflexivity].
Qed.

(** Dropping the oldest entry of a history of more than five entries does
    not shorten a run of at most five at its end. *)
Lemma run_length_removelast_small (e : string) (l : list string) (n : nat) :
  run_length e l = n -> n < length l -> run_length e (removelast l) = n.
Proof.
  revert n. induction l as [|x l IH]; intros n Hr Hl; simpl in *; [lia|].
  destruct l as [|y l'].
  - simpl in *. destruct (String.eqb x e); simpl in *; lia.
  - cbn [run_length] in Hr |- *. destruct (String.eqb x e).
    + destruct n as [|n]; [discriminate|]. injection Hr as Hr.
      f_equal. apply IH; [exact Hr | simpl in *; lia].
    + exact Hr.
Qed.

Lemma run_length_removelast_ge (e : string) (l : list string) :
  Nat.min (run_length e l) (length l - 1) <= run_length e (removelast l).
Proof.
  induction l as [|x l IH]; simpl; [lia|].
  destruct l as [|y l'].
  - simpl. destruct (String.eqb x e); simpl; lia.
  - cbn [run_length removelast length] in *. destruct (String.eqb x e); simpl in *; lia.
Qed.

Lemma rev_tl {A} (l : list A) : rev (tl l) = removelast (rev l).
Proof.
  destruct l as [|x l]; [reflexivity|]. simpl.
  rewrite removelast_app by discriminate. simpl. rewrite app_nil_r. reflexivity.
Qed.

(** After a push, the run of the pushed error is the old run plus one,
    capped by the five entries the history keeps. *)
Lemma push_error_run (h : list string) (e : string) :
  Nat.min (S (consecutive_same_errors h e)) 5
  <= consecutive_same_errors (push_error h e) e.
Proof.
  unfold push_error.
  destruct (max_error_history <? length (h ++ [e])) eqn:Hl.
  - apply Nat.ltb_lt in Hl. unfold max_error_history in Hl.
    unfold consecutive_same_errors at 2. rewrite rev_tl.
    pose proof (run_length_removelast_ge e (rev (h ++ [e]))) as H.
    rewrite length_rev in H.
    fold (consecutive_same_errors (h ++ [e]) e) in H.
    rewrite run_length_app_same in H. lia.
  - rewrite run_length_app_same. lia.
Qed.

Lemma push_error_other (h : list string) (e e' : string) :
  e <> e' -> consecutive_same_errors (push_error h e) e' = 0.
Proof.
  intro Hne. unfold push_error.
  destruct (max_error_history <? length (h ++ [e])) eqn:Hl.
  - apply Nat.ltb_lt in Hl. unfold max_error_history in Hl.
    unfold consecutive_same_errors. rewrite rev_tl.
    apply run_length_removelast_small.
    + fold (consecutive_same_errors (h ++ [e]) e'). apply run_length_app_other. exact Hne.
    + rewrite length_rev. lia.
  - apply run_length_app_other. exact Hne.
Qed.

Lemma bindM_ret {A B} (a : A) (k : A -> M B) : bindM (ret a) k = k a.
Proof. unfold bindM, ret. simpl. destruct (k a); reflexivity. Qed.

Lemma bindM_lift_ret {A B} (a : A) (k : A -> M B) : bindM (lift (Ret a)) k = k a.
Proof. apply bindM_ret. Qed.

Lemma silent_lift {A} (r : res A) : silent (lift r).
Proof. reflexivity. Qed.

Lemma silent_ret {A} (a : A) : silent (ret a).
Proof. reflexivity. Qed.

Lemma silent_bind {A B} (m : M A) (k : A -> M B) :
  silent m -> (forall a, snd m = Ret a -> silent (k a)) -> silent (bindM m k).
Proof.
  unfold silent, bindM. intros Hm Hk. destruct m as [t [a|e]]; simpl in *.
  - specialize (Hk a eq_refl). destruct (k a) as [t' r']. simpl in *. subst. reflexivity.
  - exact Hm.
Qed.

Lemma bind_silent_inv {A B} (m : M A) (k : A -> M B) :
  silent m ->
  bindM m k = match snd m with Ret a => k a | Raise e => ([], Raise e) end.
Proof.
  unfold silent, bindM. destruct m as [t [a|e]]; simpl; intros ->.
  - destruct (k a); reflexivity.
  - reflexivity.
Qed.

Lemma prepare_args_silent strategy args value : silent (prepare_args strategy args value).
Proof.
  unfold prepare_args.
  repeat (apply silent_bind; [|intros ? _]);
    repeat match goal with
           | |- silent (if ?c then _ else _) => destruct c
           | |- silent (bindM _ _) => apply silent_bind; [|intros ? _]
           | |- silent (lift _) => apply silent_lift
           | |- silent (ret _) => apply silent_ret
           end.
Qed.

(** The error branch of the pass, spelled out. *)
Lemma after_action_error (st : agent) (rec : option attempt) (r : action_result)
    (url msg : string) :
  get_error r = Some msg -> nonempty msg = true ->
  after_action st rec r url
  = let st1 := add_attempt_opt (add_attempt_opt st rec) (blocked_attempt r msg) in
    if max_unchanged_threshold <=? page_state_unchanged_count st1 then
      (st1, Some (Stuck (iteration_count st1)
                    "Страница не изменяется после действий"
                    "Агент застрял: страница не реагирует на действия"))
    else
      let st2 := set_error_history st1 (push_error (error_history st1) msg) in
      if consecutive_error_threshold <=? consecutive_same_errors (error_history st2) msg
      then (st2, Some (Stuck (iteration_count st2) msg
                         "Агент застрял: одна и та же ошибка повторяется"))
      else (st2, None).
Proof.
  intros He Hn. unfold after_action.
  destruct r as [e | d a s args | | a | summary]; simpl in He; try discriminate;
    injection He as He; subst msg.
  - unfold has_error. cbn [get_error]. rewrite Hn. reflexivity.
  - reflexivity.
Qed.

Lemma after_action_continues (st st' : agent) (rec : option attempt) (r : action_result)
    (url msg : string) :
  get_error r = Some msg -> nonempty msg = true ->
  after_action st rec r url = (st', None) ->
  error_history st' = push_error (error_history st) msg
  /\ page_state_unchanged_count st < max_unchanged_threshold.
Proof.
  intros He Hn. rewrite (after_action_error st rec r url msg He Hn). cbv zeta.
  rewrite !add_attempt_opt_unchanged.
  destruct (max_unchanged_threshold <=? page_state_unchanged_count st) eqn:Ha; [discriminate|].
  destruct (consecutive_error_threshold <=? _); [discriminate|].
  intro H. injection H as <-. simpl. rewrite !add_attempt_opt_error_history.
  apply Nat.leb_gt in Ha. auto.
Qed.

Lemma after_action_trips (st : agent) (rec : option attempt) (r : action_result)
    (url msg : string) :
  get_error r = Some msg -> nonempty msg = true ->
  2 <= consecutive_same_errors (error_history st) msg ->
  exists st' f, after_action st rec r url = (st', Some f)
                /\ status f = "застрял"
                /\ (page_state_unchanged_count st < max_unchanged_threshold ->
                    exists n m, f = Stuck n msg m).
Proof.
  intros He Hn Hrun. rewrite (after_action_error st rec r url msg He Hn). cbv zeta.
  rewrite !add_attempt_opt_unchanged.
  destruct (max_unchanged_threshold <=? page_state_unchanged_count st) eqn:Ha.
  - eexists _, _. split; [reflexivity|]. split; [reflexivity|].
    apply Nat.leb_le in Ha. intro. lia.
  - simpl error_history. rewrite !add_attempt_opt_error_history.
    pose proof (push_error_run (error_history st) msg) as Hp.
    assert (Hb : (consecutive_error_threshold
                  <=? consecutive_same_errors (push_error (error_history st) msg) msg) = true).
    { apply Nat.leb_le. unfold consecutive_error_threshold. lia. }
    rewrite Hb. eexists _, _. split; [reflexivity|]. split; [reflexivity|].
    intros _. eexists _, _. reflexivity.
Qed.

(** A failing pass is the head of the pass followed by [after_action]. *)
Lemma iteration_fails (st : agent) (o : observation) (msg : string) :
  fails_with st o msg ->
  exists rec r url,
    get_error r = Some msg
    /\ fst (iteration st o) = after_action (observe st o) rec r url.
Proof.
  intros (url & d & events & r & (Hu & Hc & Hb & Hcomp & Hd) & Hx & He).
  exists (record_attempt (lib (obs_world o)) d r), r, url. split; [exact He|].
  unfold iteration. rewrite Hu, Hc, Hb, Hcomp, Hd. cbn [negb]. rewrite Hx.
  destruct (after_action _ _ _ _) as [st' [f|]]; [reflexivity|].
  destruct r as [e | ? ? ? ? | | [|c a] | ?]; reflexivity.
Qed.

(** The marker corrections only concern the [text] strategy. *)
Lemma fix_marker_other (marker target strategy : string) (args : value) :
  strategy <> "text" -> fix_marker marker target (strategy, args) = Ret (strategy, args).
Proof.
  intro H. unfold fix_marker.
  destruct (String.eqb_spec strategy "text") as [E|_]; [contradiction | reflexivity].
Qed.

(** With a text value the argument synthesis and the log lines go
    through. *)
Lemma prepare_args_text (strategy : string) (args : value) (v : string) :
  prepare_args strategy args (VStr v)
  = ret (if negb (truthy args) && nonempty strategy && nonempty v
         then VDict [(strategy, VStr v)] else args).
Proof.
  unfold prepare_args. cbn [truthy sliceable].
  destruct (negb (truthy args) && nonempty strategy && nonempty v) eqn:E.
  - apply andb_true_iff in E. destruct E as [_ ->]. reflexivity.
  - destruct (nonempty v); reflexivity.
Qed.

Lemma observe_failed_actions (st : agent) (o : observation) :
  failed_actions (observe st o) = failed_actions st.
Proof.
  unfold observe, _has_page_changed. cbn [set_iteration_count previous_page_state].
  destruct (previous_page_state st); [destruct (negb _)|]; reflexivity.
Qed.

(** The element text of the attempt record, for a text value. *)
Lemma recorded_element (d : dict) (k v : string) :
  get d k (VStr "") = VStr v ->
  (if truthy (get d k VNone) then slice 40 (get d k (VStr "")) else Ret (VStr ""))
  = Ret (VStr (take 40 v)).
Proof.
  unfold get. destruct (lookup d k) as [x|].
  - intros ->. cbn [truthy slice]. destruct v; reflexivity.
  - intro H. injection H as <-. reflexivity.
Qed.

Lemma push_error_last (h : list string) (e : string) :
  exists earlier, push_error h e = (earlier ++ [e])%list.
Proof.
  destruct h as [|x h]; [exists []; reflexivity|].
  unfold push_error. destruct (max_error_history <? _).
  - exists h. reflexivity.
  - exists (x :: h). reflexivity.
Qed.

(** The scroll branch of the dispatch over the executor of the program:
    the method raises and the handler of [_execute_decision] answers. *)
Lemma scroll_dispatch (p : Driver.page) (others : Executor) (w : world)
    (strategy v : string) (args reason : value) :
  executor w = executor_on p others ->
  run_action w "scroll" strategy args (VStr v) reason
  = ([EvExecutor (Scroll (lower (if nonempty v then v else "down")))],
     Ret (ResError
            "Ошибка выполнения действия: AgentLogger.action() takes 2 positional arguments ")).
Proof.
  intro Hw. unfold run_action, dispatch. cbn [String.eqb Ascii.eqb Bool.eqb].
  unfold or_else. cbn [truthy]. rewrite Hw.
  destruct (nonempty v); reflexivity.
Qed.

(** A failure that trips neither breaker is pushed onto the history. *)
Lemma after_action_goes_on (st : agent) (rec : option attempt) (e url : string) :
  nonempty e = true ->
  page_state_unchanged_count st < max_unchanged_threshold ->
  consecutive_same_errors (push_error (error_history st) e) e < consecutive_error_threshold ->
  after_action st rec (ResError e) url
  = (set_error_history (add_attempt_opt st rec) (push_error (error_history st) e), None).
Proof.
  intros Hn Hc Hr.
  rewrite (after_action_error st rec (ResError e) url e eq_refl Hn).
  cbv zeta. cbn [blocked_attempt add_attempt_opt].
  rewrite add_attempt_opt_unchanged.
  apply Nat.leb_gt in Hc. rewrite Hc.
  cbn [set_error_history set_errors error_history].
  rewrite add_attempt_opt_error_history.
  apply Nat.leb_gt in Hr. rewrite Hr. reflexivity.
Qed.

End BrowserAgent_facts.

Section BrowserAgent_claims.
Import Py BrowserAgent.

(** C1, as the code has it.  [validate_full_decision] rejects a decision
    whose action is not one of the eleven valid actions with the
    unknown-action reason, but [_execute_decision] does not call it.  Such a
    decision matches no branch of the dispatch: no executor method, key
    press, model call or prompt takes place, and what is returned is the
    error "Действие <action> не выполнено", unless the decision is blocked as
    a repeat or a malformed value or args raises before the dispatch; with a
    changed page, a text value and a strategy other than text, it is that
    error.  The action and the strategy are texts of ASCII characters and
    Russian letters, on which [lower] and [strip] are those of Python. *)
Theorem C1_unknown_action_falls_through_dispatch :
  forall (w : world) (st : agent) (parsed : dict) (action strategy : string),
    plain_value (get parsed "action" VNone) = true ->
    plain_value (get parsed "strategy" VNone) = true ->
    lower_strip (or_else (get parsed "action" VNone) (VStr "")) = Ret action ->
    lower_strip (or_else (get parsed "strategy" VNone) (VStr "")) = Ret strategy ->
    mem action DecisionValidator.valid_actions = false ->
    DecisionValidator.validate_full_decision parsed
    = Ret (false, "Неизвестное действие: '" ++ action ++ "'")
    /\ fst (execute_parsed w st parsed) = []
    /\ match snd (execute_parsed w st parsed) with
       | Ret (ResError e) => e = "Действие " ++ action ++ " не выполнено"
       | Ret (ResBlocked _ a _ _) => a = action /\ 0 < page_state_unchanged_count st
       | Ret _ => False
       | Raise _ => True
       end
    /\ (forall v,
           page_state_unchanged_count st = 0 ->
           get parsed "value" (VStr "") = VStr v ->
           strategy <> "text" ->
           execute_parsed w st parsed
           = ([], Ret (ResError ("Действие " ++ action ++ " не выполнено")))).
Proof.
  intros w st parsed action strategy _ _ Ha Hs Hm.
  split; [|split; [|split]].
  - unfold DecisionValidator.validate_full_decision. rewrite Ha, Hs. cbn [bind].
    rewrite Hm. reflexivity.
  - unfold execute_parsed. rewrite Ha, Hs, !bindM_lift_ret.
    rewrite bind_silent_inv by apply prepare_args_silent.
    destruct (snd (prepare_args _ _ _)) as [args|e]; [|reflexivity].
    destruct (repeats_last st action strategy args); [reflexivity|].
    destruct (fix_marker "[aria-label]" "aria-label" (strategy, args)) as [sa|e];
      [rewrite bindM_lift_ret | reflexivity].
    destruct (fix_marker "[id]" "id" sa) as [sa'|e];
      [rewrite bindM_lift_ret | reflexivity].
    unfold security_gate. rewrite (unknown_not_gated action Hm), andb_false_r, bindM_ret.
    unfold run_action. rewrite (dispatch_unknown w action _ _ _ _ Hm), bindM_ret.
    reflexivity.
  - unfold execute_parsed. rewrite Ha, Hs, !bindM_lift_ret.
    rewrite bind_silent_inv by apply prepare_args_silent.
    destruct (snd (prepare_args _ _ _)) as [args|e]; [|exact I].
    destruct (repeats_last st action strategy args) eqn:Hr.
    + simpl. split; [reflexivity|].
      unfold repeats_last in Hr.
      destruct (0 <? page_state_unchanged_count st) eqn:Hc; [|discriminate].
      apply Nat.ltb_lt in Hc. exact Hc.
    + destruct (fix_marker "[aria-label]" "aria-label" (strategy, args)) as [sa|e];
        [rewrite bindM_lift_ret | exact I].
      destruct (fix_marker "[id]" "id" sa) as [sa'|e];
        [rewrite bindM_lift_ret | exact I].
      unfold security_gate. rewrite (unknown_not_gated action Hm), andb_false_r, bindM_ret.
      unfold run_action. rewrite (dispatch_unknown w action _ _ _ _ Hm), bindM_ret.
      reflexivity.
  - intros v Hc Hv Hst.
    unfold execute_parsed. rewrite Ha, Hs, !bindM_lift_ret.
    rewrite bind_silent_inv by apply prepare_args_silent.
    assert (Hp : exists args, snd (prepare_args strategy (get parsed "args" (VDict []))
                                     (get parsed "value" (VStr ""))) = Ret args).
    { rewrite Hv. unfold prepare_args.
      destruct (negb _ && nonempty strategy && truthy (VStr v));
        cbn [sliceable]; rewrite ?bindM_lift_ret, ?bindM_ret;
        destruct (truthy (VStr v)); cbn [sliceable];
        rewrite ?bindM_lift_ret, ?bindM_ret; eexists; reflexivity. }
    destruct Hp as [args Hp]. rewrite Hp.
    unfold repeats_last. rewrite Hc. cbn [Nat.ltb Nat.leb].
    rewrite (fix_marker_other _ _ strategy args Hst), bindM_lift_ret. cbv beta.
    rewrite (fix_marker_other _ _ strategy args Hst), bindM_lift_ret. cbv beta.
    unfold security_gate. rewrite (unknown_not_gated action Hm), andb_false_r, bindM_ret.
    unfold run_action. rewrite (dispatch_unknown w action _ _ _ _ Hm), bindM_ret.
    reflexivity.
Qed.

(** The hover decision meets the hypotheses of C1 and falls through. *)
Lemma C1_hover_witness :
  plain_value (get Fixtures.hover_decision "action" VNone) = true
  /\ plain_value (get Fixtures.hover_decision "strategy" VNone) = true
  /\ lower_strip (or_else (get Fixtures.hover_decision "action" VNone) (VStr "")) = Ret "hover"
  /\ lower_strip (or_else (get Fixtures.hover_decision "strategy" VNone) (VStr "")) = Ret ""
  /\ mem "hover" DecisionValidator.valid_actions = false
  /\ fst (execute_parsed (Fixtures.world_with Fixtures.obliging)
            Fixtures.first_task_start Fixtures.hover_decision) = [].
Proof.
  do 5 (split; [reflexivity|]).
  exact (proj1 (proj2 (C1_unknown_action_falls_through_dispatch
                         (Fixtures.world_with Fixtures.obliging)
                         Fixtures.first_task_start Fixtures.hover_decision
                         "hover" "" eq_refl eq_refl eq_refl eq_refl eq_refl))).
Defined.

(** C1 fails as stated: for the action "hover" (an ASCII text) the
    execution of the decision reports "Действие hover не выполнено", which is
    not the unknown-action reason the validator gives for the same
    decision. *)
Lemma C1_hover_is_not_validated :
  plain_value (get Fixtures.hover_decision "action" VNone) = true
  /\ DecisionValidator.validate_full_decision Fixtures.hover_decision
  = Ret (false, "Неизвестное действие: 'hover'")
  /\ _execute_decision (Fixtures.world_with Fixtures.obliging)
       Fixtures.first_task_start Fixtures.hover_text
     = ([], Ret (ResError "Действие hover не выполнено"))
  /\ "Действие hover не выполнено" <> "Неизвестное действие: 'hover'".
Proof.
  split; [reflexivity | split; [reflexivity | split; [vm_compute; reflexivity |]]].
  intro H. discriminate H.
Qed.

(** C2, as the code has it.  The repeated-action check is made only while
    the unchanged-page counter is positive and the attempted-action list is
    not empty, and it compares the signature string
    action:strategy:str(args) of the decision with that of the last recorded
    attempt.  When these hold, the decision is rejected before anything is
    executed: the result is BLOCKED_REPEATED_ACTION and no executor method is
    called. *)
Theorem C2_repeat_blocked_while_page_unchanged :
  forall (w : world) (st : agent) (parsed : dict) (action strategy : string)
         (args : value) (earlier : list attempt) (last_failed : attempt),
    lower_strip (or_else (get parsed "action" VNone) (VStr "")) = Ret action ->
    lower_strip (or_else (get parsed "strategy" VNone) (VStr "")) = Ret strategy ->
    snd (prepare_args strategy (get parsed "args" (VDict []))
           (get parsed "value" (VStr ""))) = Ret args ->
    0 < page_state_unchanged_count st ->
    failed_actions st = (earlier ++ [last_failed])%list ->
    current_signature action strategy args = last_failed_signature last_failed ->
    execute_parsed w st parsed
    = ([], Ret (ResBlocked ("Попытка повторить неудачное действие: "
                            ++ str (a_action last_failed))
                           action strategy args)).
Proof.
  intros w st parsed action strategy args earlier last_failed Ha Hs Hp Hc Hf Hsig.
  unfold execute_parsed. rewrite Ha, Hs, !bindM_lift_ret.
  rewrite bind_silent_inv by apply prepare_args_silent. rewrite Hp.
  unfold repeats_last, blocked.
  assert (Hlt : (0 <? page_state_unchanged_count st) = true) by (apply Nat.ltb_lt; exact Hc).
  rewrite Hlt, Hf, rev_app_distr. cbn [rev app].
  rewrite Hsig, String.eqb_refl. reflexivity.
Qed.

(** The repeated click on an unchanged page meets the hypotheses of C2. *)
Lemma C2_unchanged_page_witness :
  0 < page_state_unchanged_count Fixtures.page_unchanged_state
  /\ current_signature "click" "text" Fixtures.buy_text
     = last_failed_signature Fixtures.failed_click_buy
  /\ execute_parsed (Fixtures.world_with Fixtures.finds_nothing)
       Fixtures.page_unchanged_state Fixtures.click_buy
     = ([], Ret (ResBlocked "Попытка повторить неудачное действие: click"
                            "click" "text" Fixtures.buy_text)).
Proof.
  split; [vm_compute; lia | split; [reflexivity |]].
  exact (C2_repeat_blocked_while_page_unchanged
           (Fixtures.world_with Fixtures.finds_nothing)
           Fixtures.page_unchanged_state Fixtures.click_buy
           "click" "text" Fixtures.buy_text [] Fixtures.failed_click_buy
           eq_refl eq_refl eq_refl (le_n 1) eq_refl eq_refl).
Defined.

(** C2 fails as stated: when the page fingerprint changed after the failed
    click, the identical decision (same signature) is handed to the executor
    again; over two passes of the loop the executor is called twice and no
    BLOCKED_REPEATED_ACTION is reported. *)
Lemma C2_repeat_executed_after_page_change :
  current_signature "click" "text" Fixtures.buy_text
  = last_failed_signature Fixtures.failed_click_buy
  /\ _execute_decision (Fixtures.world_with Fixtures.finds_nothing)
       Fixtures.page_changed_state Fixtures.click_buy_text
     = ([EvExecutor (Click (VStr "text") Fixtures.buy_text false)],
        Ret (ResError "element_not_found"))
  /\ (let '(st, f, events) :=
        loop Fixtures.first_task_start
          [Fixtures.seen "fp1" Fixtures.click_buy_text Fixtures.finds_nothing;
           Fixtures.seen "fp2" Fixtures.click_buy_text Fixtures.finds_nothing] in
      events = [EvExecutor (Click (VStr "text") Fixtures.buy_text false); EvSleep 500;
                EvExecutor (Click (VStr "text") Fixtures.buy_text false); EvSleep 500]
      /\ error_history st = ["element_not_found"; "element_not_found"]).
Proof.
  split; [reflexivity | split; [vm_compute; reflexivity |]].
  vm_compute. split; reflexivity.
Qed.

(** C3, as the code has it.  When [execute_task] reaches the loop, the
    iteration counter is zero and the error history and the last-error slot
    are empty; the previous page fingerprint and the unchanged-page counter
    are what the earlier task left (they are cleared only after a CAPTCHA
    pause). *)
Theorem C3_task_start_resets_counter_and_errors :
  forall (st : agent) (task : Task) (observations : list observation),
    let st' := task_start st task in
    execute_task st (mkPrelude (Some task) None) observations = loop st' observations
    /\ iteration_count st' = 0
    /\ error_history st' = []
    /\ last_error st' = None
    /\ previous_page_state st' = previous_page_state st
    /\ page_state_unchanged_count st' = page_state_unchanged_count st.
Proof.
  intros st task observations st'. repeat split.
Qed.

(** C3 fails as stated: the fingerprint, the unchanged-page counter and the
    attempted-action list of an earlier task are still there when the next
    task starts, and the next task depends on them: its first failing
    decision, on a page with the old fingerprint, ends it as stuck in its
    first pass, where a fresh agent goes on. *)
Lemma C3_page_state_survives_into_next_task :
  let st' := task_start Fixtures.after_earlier_task Fixtures.gift_task in
  let first_pass := [Fixtures.seen "fp" Fixtures.hover_text Fixtures.finds_nothing] in
  previous_page_state st' = Some "fp"
  /\ page_state_unchanged_count st' = 2
  /\ failed_actions st' = [Fixtures.failed_click_buy]
  /\ snd (fst (execute_task Fixtures.after_earlier_task
                 (mkPrelude (Some Fixtures.gift_task) None) first_pass))
     = Some (Stuck 1 "Страница не изменяется после действий"
                     "Агент застрял: страница не реагирует на действия")
  /\ snd (fst (execute_task (init None)
                 (mkPrelude (Some Fixtures.gift_task) None) first_pass))
     = None.
Proof.
  cbv zeta. repeat split; vm_compute; reflexivity.
Qed.

(** C8.  Three passes in a row whose decisions fail with the same error
    message end the task as stuck at the third pass at the latest, by the
    repeated-error breaker unless the unchanged-page breaker fires first; the
    same error twice with another one in between trips nothing; a
    successful action empties the error history and leaves the unchanged-page
    counter alone. *)
Theorem C8_same_error_three_times_is_stuck :
  (forall (st s1 s2 : agent) (o1 o2 o3 : observation) (msg : string)
          (ev1 ev2 : list event),
      nonempty msg = true ->
      fails_with st o1 msg -> iteration st o1 = (s1, None, ev1) ->
      fails_with s1 o2 msg -> iteration s1 o2 = (s2, None, ev2) ->
      fails_with s2 o3 msg ->
      exists s3 f ev3,
        iteration s2 o3 = (s3, Some f, ev3)
        /\ status f = "застрял"
        /\ (page_state_unchanged_count (observe s2 o3) < max_unchanged_threshold ->
            exists n m, f = Stuck n msg m))
  /\ (forall (st1 st2 st3 : agent) (rec1 rec2 rec3 : option attempt)
             (u1 u2 u3 e1 e2 : string),
         e1 <> e2 -> nonempty e1 = true -> nonempty e2 = true ->
         error_history st1 = [] ->
         page_state_unchanged_count st1 < max_unchanged_threshold ->
         page_state_unchanged_count st2 < max_unchanged_threshold ->
         page_state_unchanged_count st3 < max_unchanged_threshold ->
         error_history st2
         = error_history (fst (after_action st1 rec1 (ResError e1) u1)) ->
         error_history st3
         = error_history (fst (after_action st2 rec2 (ResError e2) u2)) ->
         snd (after_action st1 rec1 (ResError e1) u1) = None
         /\ snd (after_action st2 rec2 (ResError e2) u2) = None
         /\ snd (after_action st3 rec3 (ResError e1) u3) = None)
  /\ (forall (st : agent) (rec : option attempt) (url : string),
         snd (after_action st rec ResSuccess url) = None
         /\ error_history (fst (after_action st rec ResSuccess url)) = []
         /\ page_state_unchanged_count (fst (after_action st rec ResSuccess url))
            = page_state_unchanged_count st).
Proof.
  split; [|split].
  - intros st s1 s2 o1 o2 o3 msg ev1 ev2 Hn F1 I1 F2 I2 F3.
    destruct (iteration_fails st o1 msg F1) as (rec1 & r1 & u1 & E1 & A1).
    destruct (iteration_fails s1 o2 msg F2) as (rec2 & r2 & u2 & E2 & A2).
    destruct (iteration_fails s2 o3 msg F3) as (rec3 & r3 & u3 & E3 & A3).
    rewrite I1 in A1. rewrite I2 in A2. simpl in A1, A2.
    symmetry in A1, A2.
    destruct (after_action_continues _ _ _ _ _ _ E1 Hn A1) as [H1 _].
    destruct (after_action_continues _ _ _ _ _ _ E2 Hn A2) as [H2 _].
    rewrite observe_error_history in H1, H2.
    assert (Hrun : 2 <= consecutive_same_errors (error_history (observe s2 o3)) msg).
    { rewrite observe_error_history, H2.
      pose proof (push_error_run (error_history s1) msg) as P2.
      rewrite H1 in P2 |- *.
      pose proof (push_error_run (error_history st) msg) as P1. lia. }
    destruct (after_action_trips (observe s2 o3) rec3 r3 u3 msg E3 Hn Hrun)
      as (s3 & f & Hs & Hst & HB).
    rewrite Hs in A3.
    destruct (iteration s2 o3) as [[s3' f'] ev3]. simpl in A3. injection A3 as -> ->.
    exists s3, f, ev3. auto.
  - intros st1 st2 st3 rec1 rec2 rec3 u1 u2 u3 e1 e2 Hne Hn1 Hn2 Hh C1 C2 C3.
    assert (N12 : String.eqb e1 e2 = false)
      by (destruct (String.eqb_spec e1 e2); [contradiction | reflexivity]).
    assert (N21 : String.eqb e2 e1 = false)
      by (rewrite String.eqb_sym; exact N12).
    rewrite (after_action_goes_on st1 rec1 e1 u1 Hn1 C1).
    2:{ rewrite Hh. unfold consecutive_same_errors. cbn.
        rewrite String.eqb_refl. unfold consecutive_error_threshold. lia. }
    cbn [fst snd set_error_history set_errors error_history]. rewrite Hh.
    change (push_error [] e1) with [e1].
    intros H2. rewrite (after_action_goes_on st2 rec2 e2 u2 Hn2 C2).
    2:{ rewrite H2. unfold consecutive_same_errors. cbn.
        rewrite String.eqb_refl, N12. unfold consecutive_error_threshold. lia. }
    cbn [fst snd set_error_history set_errors error_history]. rewrite H2.
    change (push_error [e1] e2) with [e1; e2].
    intros H3. rewrite (after_action_goes_on st3 rec3 e1 u3 Hn1 C3).
    2:{ rewrite H3. unfold consecutive_same_errors. cbn.
        rewrite String.eqb_refl, N21. unfold consecutive_error_threshold. lia. }
    repeat split.
  - intros st rec url. unfold after_action. cbn [has_error get_error].
    repeat split. cbn [fst set_error_history set_errors page_state_unchanged_count].
    apply add_attempt_opt_unchanged.
Qed.

(** Three failing clicks on three different pages meet the hypotheses of the
    first part of C8. *)
Lemma C8_three_failed_clicks_witness :
  nonempty "element_not_found" = true
  /\ iteration Fixtures.first_task_start (Fixtures.pass "fp1")
     = (Fixtures.after_pass1, None, (Fixtures.one_click ++ [EvSleep 500])%list)
  /\ iteration Fixtures.after_pass1 (Fixtures.pass "fp2")
     = (Fixtures.after_pass2, None, (Fixtures.one_click ++ [EvSleep 500])%list)
  /\ exists s3 f ev3,
       iteration Fixtures.after_pass2 (Fixtures.pass "fp3") = (s3, Some f, ev3)
       /\ status f = "застрял"
       /\ (page_state_unchanged_count (observe Fixtures.after_pass2 (Fixtures.pass "fp3"))
           < max_unchanged_threshold ->
           exists n m, f = Stuck n "element_not_found" m).
Proof.
  assert (F : forall st fp,
             context_builds (observe st (Fixtures.pass fp)) = true ->
             _execute_decision (Fixtures.world_with Fixtures.finds_nothing)
               (observe st (Fixtures.pass fp)) Fixtures.click_buy_text
             = (Fixtures.one_click, Ret (ResError "element_not_found")) ->
             fails_with st (Fixtures.pass fp) "element_not_found").
  { intros st fp Hc Hx.
    exists "https://shop.example/", Fixtures.click_buy_text, Fixtures.one_click,
           (ResError "element_not_found").
    split; [|split; [exact Hx | reflexivity]].
    repeat split; try reflexivity. exact Hc. }
  split; [reflexivity | split; [vm_compute; reflexivity | split; [vm_compute; reflexivity |]]].
  apply (proj1 C8_same_error_three_times_is_stuck
           Fixtures.first_task_start Fixtures.after_pass1 Fixtures.after_pass2
           (Fixtures.pass "fp1") (Fixtures.pass "fp2") (Fixtures.pass "fp3")
           "element_not_found"
           (Fixtures.one_click ++ [EvSleep 500])%list
           (Fixtures.one_click ++ [EvSleep 500])%list).
  - reflexivity.
  - apply F; vm_compute; reflexivity.
  - vm_compute; reflexivity.
  - apply F; vm_compute; reflexivity.
  - vm_compute; reflexivity.
  - apply F; vm_compute; reflexivity.
Defined.

(** C10.  [scroll] does not get as far as looking at its direction: its
    first statement, ahead of the [try], calls [logger.action] with two
    arguments, and the method takes one.  Every call raises the TypeError,
    for "sideways" as for "up" and "down": no key is pressed, nothing is
    waited for and True is never returned.  The handler of
    [_execute_decision] turns the exception into an error dictionary, so a
    scroll decision is concluded as an error, recorded as a failed attempt,
    and its error enters the error history.  (The decision is one with text
    fields of ASCII characters and Russian letters, a strategy other than
    text, on a page that changed.) *)
Theorem C10_scroll_raises_whatever_the_direction :
  forall (p : Driver.page) (others : Executor) (direction : string) (amount : nat),
    let scroll_error :=
      "Ошибка выполнения действия: AgentLogger.action() takes 2 positional arguments " in
    ActionExecutor.scroll p direction amount = Raise ActionExecutor.too_many_arguments
    /\ ex_scroll (executor_on p others) direction = Raise ActionExecutor.too_many_arguments
    /\ (forall (st : agent) (o : observation) (url d why strategy v : string) (parsed : dict),
           reaches_decision st o url d ->
           executor (obs_world o) = executor_on p others ->
           DecisionValidator.parse_decision (lib (obs_world o)) d = (true, Some parsed, why) ->
           plain_value (get parsed "action" VNone) = true ->
           plain_value (get parsed "strategy" VNone) = true ->
           lower_strip (or_else (get parsed "action" VNone) (VStr "")) = Ret "scroll" ->
           lower_strip (or_else (get parsed "strategy" VNone) (VStr "")) = Ret strategy ->
           strategy <> "text" ->
           get parsed "value" (VStr "") = VStr v ->
           plain_text v = true ->
           lower (if nonempty v then v else "down") = direction ->
           page_state_unchanged_count (observe st o) = 0 ->
           let failed :=
             {| a_action := get parsed "action" (VStr "unknown");
                a_strategy := get parsed "strategy" (VStr "unknown");
                a_args := get parsed "args" (VDict []);
                a_element := VStr (take 40 v);
                a_reason := get parsed "reason" (VStr "no reason");
                a_success := Some false |} in
           _execute_decision (obs_world o) (observe st o) d
           = ([EvExecutor (Scroll direction)], Ret (ResError scroll_error))
           /\ record_attempt (lib (obs_world o)) d (ResError scroll_error) = Some failed
           /\ failed_actions (fst (fst (iteration st o)))
              = (failed_actions st ++ [failed])%list
           /\ exists earlier,
                error_history (fst (fst (iteration st o)))
                = (earlier ++ [scroll_error])%list).
Proof.
  intros p others direction amount scroll_error.
  split; [reflexivity|]. split; [reflexivity|].
  intros st o url d why strategy v parsed (Hu & Hc & Hb & Hcomp & Hd) Hw Hp _ _ Ha Hs Hst
         Hv _ Hdir Hcount failed.
  assert (X : _execute_decision (obs_world o) (observe st o) d
              = ([EvExecutor (Scroll direction)], Ret (ResError scroll_error))).
  { unfold _execute_decision. rewrite Hp. unfold execute_parsed.
    rewrite Ha, Hs, !bindM_lift_ret, Hv, prepare_args_text, bindM_ret.
    unfold repeats_last. rewrite Hcount. cbn [Nat.ltb Nat.leb].
    rewrite (fix_marker_other _ _ strategy _ Hst), bindM_lift_ret. cbv beta.
    rewrite (fix_marker_other _ _ strategy _ Hst), bindM_lift_ret. cbv beta.
    unfold security_gate.
    change (mem "scroll" ["submit"; "click"; "confirm_complete"]) with false.
    rewrite andb_false_r, bindM_ret. cbn [fst snd].
    rewrite (scroll_dispatch p others _ _ _ _ _ Hw), Hdir. reflexivity. }
  assert (R : record_attempt (lib (obs_world o)) d (ResError scroll_error) = Some failed).
  { unfold record_attempt. rewrite Hp, (recorded_element parsed "value" v Hv). reflexivity. }
  split; [exact X|]. split; [exact R|].
  unfold iteration. rewrite Hu, Hc, Hb, Hcomp, Hd, X, R. cbn [negb].
  rewrite (after_action_error (observe st o) (Some failed) (ResError scroll_error) url
             scroll_error eq_refl eq_refl).
  cbv zeta. cbn [blocked_attempt add_attempt_opt].
  replace (max_unchanged_threshold
           <=? page_state_unchanged_count (add_attempt (observe st o) failed))
    with false by (cbn [add_attempt page_state_unchanged_count]; rewrite Hcount; reflexivity).
  destruct (push_error_last (error_history (add_attempt (observe st o) failed)) scroll_error)
    as [earlier He].
  destruct (consecutive_error_threshold <=? _);
    cbn [fst snd set_error_history set_errors failed_actions error_history add_attempt];
    (split; [rewrite observe_failed_actions; reflexivity|]);
    exists earlier; exact He.
Qed.

(** The first pass of a task is told to scroll sideways: the executor is
    called, raises, and the attempt is recorded as failed. *)
Lemma C10_sideways_witness :
  _execute_decision (Fixtures.world_with Fixtures.on_empty_page)
    (observe Fixtures.first_task_start
       (Fixtures.seen "fp1" Fixtures.scroll_sideways_text Fixtures.on_empty_page))
    Fixtures.scroll_sideways_text
  = ([EvExecutor (Scroll "sideways")],
     Ret (ResError
            "Ошибка выполнения действия: AgentLogger.action() takes 2 positional arguments "))
  /\ failed_actions
       (fst (fst (iteration Fixtures.first_task_start
                    (Fixtures.seen "fp1" Fixtures.scroll_sideways_text
                       Fixtures.on_empty_page))))
     = [mkAttempt (VStr "scroll") (VStr "unknown") (VDict []) (VStr "sideways")
          (VStr "no reason") (Some false)].
Proof.
  assert (Hst : "" <> "text") by (intro H; discriminate H).
  destruct (proj2 (proj2 (C10_scroll_raises_whatever_the_direction (Fixtures.page_of [])
                            Fixtures.obliging "sideways" 3))
              Fixtures.first_task_start
              (Fixtures.seen "fp1" Fixtures.scroll_sideways_text Fixtures.on_empty_page)
              "https://shop.example/" Fixtures.scroll_sideways_text "" "" "sideways"
              Fixtures.scroll_sideways
              (conj eq_refl (conj eq_refl (conj eq_refl (conj eq_refl eq_refl))))
              eq_refl eq_refl eq_refl eq_refl eq_refl eq_refl Hst eq_refl eq_refl eq_refl
              eq_refl)
    as (X & _ & F & _).
  split; [exact X | exact F].
Defined.

End BrowserAgent_claims.

(* ================================================================== *)
(** * Further properties of the action executor *)
(* ================================================================== *)

Section ActionExecutor_click.
Import Py Driver ActionExecutor.

Lemma clicked_closed_pages (n : nat) : clicked (closed_pages n) = [].
Proof.
  unfold closed_pages. induction (seq 1 (n - 2)) as [|i l IH]; simpl; auto.
Qed.

Lemma closed_closed_pages (n : nat) : closed (closed_pages n) = seq 1 (n - 2).
Proof.
  unfold closed_pages. induction (seq 1 (n - 2)) as [|i l IH]; simpl; [reflexivity|].
  f_equal. exact IH.
Qed.

(** X1.  [click] reports success only when the strategy resolves to exactly
    one element and the driver's click on it goes through; the result then
    has no error and that element is the only one clicked. *)
Theorem click_succeeds_only_on_single_match (p : page) (s : string) (a : value) (b : bool) :
  success (returned (click p s a b)) = true ->
  exists e, _build_locator_from_strategy p s a = Ret [e]
            /\ click_error e = None
            /\ error (returned (click p s a b)) = None
            /\ clicked (ops (click p s a b)) = [uid e].
Proof.
  unfold click.
  destruct (negb (nonempty s) || negb (truthy a)); [discriminate|].
  destruct (_build_locator_from_strategy p s a) as [l|e]; [|discriminate].
  destruct (count l =? 0); [discriminate|].
  destruct ((1 <? count l) && negb b); [discriminate|].
  destruct l as [|e [|e' l]]; cbn [locator_click]; try discriminate.
  destruct (click_error e) eqn:He; [discriminate|].
  intros _. exists e. split; [reflexivity|]. split; [exact He|].
  destruct (pages_open p <? (if opens_page e then S (pages_open p) else pages_open p));
    [destruct (new_page_load p)|]; cbn [returned ops error succeeded]; split; try reflexivity.
  cbn [clicked flat_map app].
  change (flat_map _ (closed_pages ?n)) with (clicked (closed_pages n)).
  rewrite clicked_closed_pages. reflexivity.
Qed.

(** The click on the button of the form succeeds, and the button is what
    was clicked. *)
Lemma click_single_match_witness :
  exists e, _build_locator_from_strategy Fixtures.form_page "role" Fixtures.send_button
            = Ret [e]
            /\ click_error e = None
            /\ error (returned (click Fixtures.form_page "role" Fixtures.send_button false))
               = None
            /\ clicked (ops (click Fixtures.form_page "role" Fixtures.send_button false))
               = [uid e].
Proof.
  apply (click_succeeds_only_on_single_match Fixtures.form_page "role"
           Fixtures.send_button false).
  reflexivity.
Defined.

(** X2.  A [click] that does not report success reports an error, and has
    neither clicked an element, nor closed a tab, nor moved the executor to
    another page. *)
Theorem click_failure_clicks_nothing (p : page) (s : string) (a : value) (b : bool) :
  success (returned (click p s a b)) = false ->
  error (returned (click p s a b)) <> None
  /\ clicked (ops (click p s a b)) = []
  /\ closed (ops (click p s a b)) = []
  /\ switched (click p s a b) = false.
Proof.
  unfold click.
  destruct (negb (nonempty s) || negb (truthy a)); [intros _; repeat split; discriminate|].
  destruct (_build_locator_from_strategy p s a) as [l|e];
    [|intros _; repeat split; discriminate].
  destruct (count l =? 0); [intros _; repeat split; discriminate|].
  destruct ((1 <? count l) && negb b); [intros _; repeat split; discriminate|].
  destruct (locator_click l) as [e|e]; [|intros _; repeat split; discriminate].
  destruct (pages_open p <? (if opens_page e then S (pages_open p) else pages_open p));
    [destruct (new_page_load p)|]; discriminate.
Qed.

(** Two text fields answer to the role "textbox": the click fails and
    touches nothing. *)
Lemma click_failure_witness :
  error (returned (click Fixtures.form_page "role" Fixtures.any_textbox false)) <> None
  /\ clicked (ops (click Fixtures.form_page "role" Fixtures.any_textbox false)) = []
  /\ closed (ops (click Fixtures.form_page "role" Fixtures.any_textbox false)) = []
  /\ switched (click Fixtures.form_page "role" Fixtures.any_textbox false) = false.
Proof.
  apply (click_failure_clicks_nothing Fixtures.form_page "role" Fixtures.any_textbox false).
  reflexivity.
Defined.

(** X3.  With [allow_multiple] set and several matches, [click] hands the
    whole locator to the driver, whose click is strict: it raises, nothing
    is clicked, and the call returns an actionability error.  The first
    match is not clicked. *)
Theorem allow_multiple_does_not_click_first (p : page) (s : string) (a : value)
    (l : locator) :
  nonempty s = true -> truthy a = true ->
  _build_locator_from_strategy p s a = Ret l ->
  1 < count l ->
  click p s a true
  = mkCall (failed "actionability"
              (Some (click_reason ("strict mode violation: locator resolved to "
                                   ++ str_of_nat (count l) ++ " elements"))))
           [OpClickRaised] false.
Proof.
  intros Hs Ha Hl Hn. unfold click. rewrite Hs, Ha, Hl. cbn [negb orb].
  destruct (Nat.eqb_spec (count l) 0) as [E|_]; [lia|].
  cbn [negb]. rewrite andb_false_r.
  destruct l as [|e [|e' l']]; cbn [count length] in Hn; try lia.
  reflexivity.
Qed.

(** The two text fields of the form, clicked with [allow_multiple]. *)
Lemma allow_multiple_witness :
  click Fixtures.form_page "role" Fixtures.any_textbox true
  = mkCall (failed "actionability"
              (Some (click_reason ("strict mode violation: locator resolved to "
                                   ++ str_of_nat 2 ++ " elements"))))
           [OpClickRaised] false.
Proof.
  apply (allow_multiple_does_not_click_first Fixtures.form_page "role" Fixtures.any_textbox
           (firstn 2 (doc Fixtures.form_page))).
  - reflexivity.
  - reflexivity.
  - reflexivity.
  - cbn [count length firstn doc Fixtures.form_page Fixtures.page_of]. lia.
Defined.

(** X4.  The tabs [click] closes after a click opened a new one are never
    the first tab nor the new tab, and it closes tabs only when it has moved
    the executor to the new tab. *)
Theorem new_tab_keeps_first_and_new_page (p : page) (s : string) (a : value) (b : bool)
    (i : nat) :
  In i (closed (ops (click p s a b))) ->
  1 <= i /\ i < pages_open p /\ switched (click p s a b) = true.
Proof.
  unfold click.
  destruct (negb (nonempty s) || negb (truthy a)); [intros []|].
  destruct (_build_locator_from_strategy p s a) as [l|e]; [|intros []].
  destruct (count l =? 0); [intros []|].
  destruct ((1 <? count l) && negb b); [intros []|].
  destruct (locator_click l) as [e|e]; [|intros []].
  destruct (opens_page e).
  - assert (H : (pages_open p <? S (pages_open p)) = true) by (apply Nat.ltb_lt; lia).
    rewrite H. destruct (new_page_load p); [intros []|].
    cbn [ops switched closed flat_map app].
    change (flat_map _ (closed_pages ?n)) with (closed (closed_pages n)).
    rewrite closed_closed_pages. intro Hi. apply in_seq in Hi. lia.
  - rewrite Nat.ltb_irrefl. intros [].
Qed.

(** With three tabs open, the click on a link that opens a fourth closes
    the second tab (and the third). *)
Lemma new_tab_witness :
  1 <= 1 /\ 1 < pages_open Fixtures.tabs_page
  /\ switched (click Fixtures.tabs_page "role" Fixtures.video_link false) = true.
Proof.
  apply (new_tab_keeps_first_and_new_page Fixtures.tabs_page "role" Fixtures.video_link
           false 1).
  vm_compute. left. reflexivity.
Defined.

End ActionExecutor_click.

Section ActionExecutor_fields.
Import Py Driver ActionExecutor.

Lemma single_match (l : locator) :
  (count l =? 0) = false -> (1 <? count l) = false -> exists e, l = [e].
Proof.
  intros H0 H1. apply Nat.eqb_neq in H0. apply Nat.ltb_ge in H1.
  destruct l as [|e [|e' l]]; cbn [count length] in *; try lia. exists e. reflexivity.
Qed.

(** X5.  [fill] reports success exactly when strategy and arguments are
    given, the strategy resolves to exactly one element, and the driver's
    fill of that element goes through. *)
Theorem fill_succeeds_iff_one_field_accepts (p : page) (f : fields) (s : string) (a : value)
    (t : string) :
  f_success (fst (fill p f s a t)) = true
  <-> exists e, nonempty s = true /\ truthy a = true
                /\ _build_locator_from_strategy p s a = Ret [e]
                /\ fill_answer f e t = None.
Proof.
  unfold fill. split.
  - destruct (nonempty s); [|discriminate]. destruct (truthy a); [|discriminate].
    cbn [negb orb].
    destruct (_build_locator_from_strategy p s a) as [l|e]; [|discriminate].
    destruct (count l =? 0) eqn:H0; [discriminate|].
    destruct (1 <? count l) eqn:H1; [destruct (50 <? count l); discriminate|].
    destruct (single_match l H0 H1) as [e ->].
    destruct (fill_answer f e t) eqn:Hf; [discriminate|].
    intros _. exists e. auto.
  - intros (e & Hs & Ha & Hl & Hf). rewrite Hs, Ha, Hl. cbn [negb orb count length Nat.eqb].
    change (1 <? 1) with false. cbv iota. rewrite Hf. reflexivity.
Qed.

(** X6.  Whatever [fill] does to the page, it does to the single element
    its strategy resolves to: one fill of the given text, followed by the
    0.3 s pause when the call succeeds. *)
Theorem fill_touches_only_the_single_match (p : page) (f : fields) (s : string) (a : value)
    (t : string) (o : field_op) :
  In o (snd (fill p f s a t)) ->
  exists e, _build_locator_from_strategy p s a = Ret [e]
            /\ (o = OpFill (uid e) t
                \/ (o = OpSettle 300 /\ f_success (fst (fill p f s a t)) = true)).
Proof.
  unfold fill.
  destruct (negb (nonempty s) || negb (truthy a)); [intros []|].
  destruct (_build_locator_from_strategy p s a) as [l|e]; [|intros []].
  destruct (count l =? 0) eqn:H0; [intros []|].
  destruct (1 <? count l) eqn:H1; [destruct (50 <? count l); intros []|].
  destruct (single_match l H0 H1) as [e ->].
  destruct (fill_answer f e t); cbn [snd fst In f_success field_ok].
  - intros [<-|[]]. exists e. auto.
  - intros [<-|[<-|[]]]; exists e; auto.
Qed.

(** The e-mail field of the form is the one filled. *)
Lemma fill_single_match_witness :
  exists e, _build_locator_from_strategy Fixtures.form_page "placeholder" Fixtures.email_field
            = Ret [e]
            /\ (OpFill 1 "me@example.org" = OpFill (uid e) "me@example.org"
                \/ (OpFill 1 "me@example.org" = OpSettle 300
                    /\ f_success (fst (fill Fixtures.form_page Fixtures.willing_fields
                                         "placeholder" Fixtures.email_field "me@example.org"))
                       = true)).
Proof.
  apply (fill_touches_only_the_single_match Fixtures.form_page Fixtures.willing_fields
           "placeholder" Fixtures.email_field "me@example.org" (OpFill 1 "me@example.org")).
  vm_compute. left. reflexivity.
Defined.

Lemma enumerate_from_fst {A} (l : list A) : forall i,
  map fst (enumerate_from i l) = seq i (length l).
Proof. induction l as [|x l IH]; intro i; simpl; [reflexivity|]. rewrite IH. reflexivity. Qed.

(** X7.  When the strategy of a [fill] resolves to several elements nothing
    is filled.  Up to fifty matches the result is a strict-mode violation
    with the number of matches and one variant for each of the first five,
    numbered from zero; beyond fifty it is "strategy_too_generic" with the
    count and no variants. *)
Theorem fill_ambiguity_report (p : page) (f : fields) (s : string) (a : value) (t : string)
    (l : locator) :
  nonempty s = true -> truthy a = true ->
  _build_locator_from_strategy p s a = Ret l ->
  1 < count l ->
  let r := fill p f s a t in
  snd r = []
  /\ f_success (fst r) = false
  /\ f_count (fst r) = Some (count l)
  /\ if 50 <? count l
     then f_error (fst r) = Some "strategy_too_generic" /\ f_variants (fst r) = None
     else f_error (fst r) = Some "strict_mode_violation"
          /\ exists vs, f_variants (fst r) = Some vs
                        /\ map fst vs = seq 0 (Nat.min (count l) 5).
Proof.
  intros Hs Ha Hl Hn r. subst r. unfold fill. rewrite Hs, Ha, Hl. cbn [negb orb].
  destruct (Nat.eqb_spec (count l) 0) as [E|_]; [lia|].
  apply Nat.ltb_lt in Hn. rewrite Hn.
  destruct (50 <? count l) eqn:H50; cbn [fst snd f_success f_count f_error f_variants].
  - repeat split.
  - repeat split. eexists. split; [reflexivity|].
    rewrite map_map. cbn [fst].
    rewrite <- (map_map fst (fun i => i)), map_id.
    rewrite enumerate_from_fst, length_firstn. unfold count. rewrite Nat.min_comm.
    reflexivity.
Qed.

(** Filling "the text box" of the form, which has two. *)
Lemma fill_ambiguity_witness :
  let r := fill Fixtures.form_page Fixtures.willing_fields "role" Fixtures.any_textbox
             "me@example.org" in
  snd r = []
  /\ f_success (fst r) = false
  /\ f_count (fst r) = Some 2
  /\ f_error (fst r) = Some "strict_mode_violation"
  /\ exists vs, f_variants (fst r) = Some vs /\ map fst vs = [0; 1].
Proof.
  apply (fill_ambiguity_report Fixtures.form_page Fixtures.willing_fields "role"
           Fixtures.any_textbox "me@example.org" (firstn 2 (doc Fixtures.form_page))).
  - reflexivity.
  - reflexivity.
  - reflexivity.
  - cbn [count length firstn doc Fixtures.form_page Fixtures.page_of]. lia.
Defined.

(** X8.  A [fill] by placeholder whose arguments hold no placeholder does
    not fail: it fills the first text box of the page. *)
Theorem fill_without_placeholder_takes_first_textbox (p : page) (f : fields) (d : dict)
    (t : string) (e : element) (rest : locator) :
  d <> [] ->
  truthy (get d "placeholder" (VStr "")) = false ->
  get_by_role (doc p) "textbox" None = e :: rest ->
  fill p f "placeholder" (VDict d) t
  = match fill_answer f e t with
    | Some msg => (field_actionability (fill_reason msg), [OpFill (uid e) t])
    | None => (field_ok, [OpFill (uid e) t; OpSettle 300])
    end.
Proof.
  intros Hd Hp Hg. unfold fill.
  change (nonempty "placeholder") with true.
  assert (Ht : truthy (VDict d) = true) by (destruct d; [contradiction | reflexivity]).
  rewrite Ht. cbn [negb orb].
  unfold _build_locator_from_strategy. cbn [String.eqb Ascii.eqb Bool.eqb].
  cbn [get_of bind]. rewrite Hp, Hg, first_of_cons.
  cbn [count length Nat.eqb]. change (1 <? 1) with false. cbv iota.
  reflexivity.
Qed.

(** A placeholder fill that names the field by "name" instead lands in the
    e-mail field, the first text box of the form. *)
Lemma fill_without_placeholder_witness :
  fill Fixtures.form_page Fixtures.willing_fields "placeholder"
       (VDict [("name", VStr "Password")]) "secret"
  = (field_ok, [OpFill 1 "secret"; OpSettle 300]).
Proof.
  apply (fill_without_placeholder_takes_first_textbox Fixtures.form_page
           Fixtures.willing_fields [("name", VStr "Password")] "secret"
           (Fixtures.plain_element 1 "input" "textbox" ""
              [("id", "email"); ("placeholder", "Email")] 30)
           [Fixtures.plain_element 2 "input" "textbox" "" [("placeholder", "Password")] 30]).
  - discriminate.
  - reflexivity.
  - reflexivity.
Defined.

Lemma substring_drop (n : nat) (s : string) :
  (String.substring 0 n s ++ drop n s)%string = s.
Proof.
  revert s. induction n as [|n IH]; intros [|c s]; simpl; try reflexivity.
  rewrite IH. reflexivity.
Qed.

Lemma drop_length (n : nat) (s : string) : String.length (drop n s) = String.length s - n.
Proof.
  revert s. induction n as [|n IH]; intros [|c s]; simpl; auto.
Qed.

Lemma char_width_pos (c : ascii) : 1 <= char_width c.
Proof.
  unfold char_width.
  destruct (nat_of_ascii c <? 192); [lia|].
  destruct (nat_of_ascii c <? 224); [lia|].
  destruct (nat_of_ascii c <? 240); lia.
Qed.

Lemma join_cons_empty (x : string) (l : list string) :
  join "" (x :: l) = (x ++ join "" l)%string.
Proof.
  destruct l as [|y l]; cbn [join].
  - induction x as [|c x IH]; simpl; [reflexivity | rewrite <- IH; reflexivity].
  - reflexivity.
Qed.

Lemma characters_go_spell (fuel : nat) : forall s,
  String.length s <= fuel -> join "" (characters_go fuel s) = s.
Proof.
  induction fuel as [|fuel IH]; intros [|c s] H; cbn [characters_go]; try reflexivity.
  - simpl in H. lia.
  - rewrite join_cons_empty, IH.
    + apply substring_drop.
    + rewrite drop_length. pose proof (char_width_pos c).
      cbn [String.length] in *. lia.
Qed.

Lemma characters_spell (s : string) : join "" (characters s) = s.
Proof. apply characters_go_spell. lia. Qed.

(** The loop types the characters the driver accepts, then the first one
    it refuses, and nothing after it. *)
Lemma type_each_stops (f : fields) (e : element) (chars : list string) : forall i,
  match fst (type_each f e i chars) with
  | None =>
      snd (type_each f e i chars) = map (OpType (uid e)) chars
      /\ forall k c, nth_error chars k = Some c -> type_answer f e (i + k) c = None
  | Some msg =>
      exists accepted c rest,
        chars = (accepted ++ c :: rest)%list
        /\ snd (type_each f e i chars) = map (OpType (uid e)) (accepted ++ [c])
        /\ type_answer f e (i + length accepted) c = Some msg
        /\ forall k c', nth_error accepted k = Some c' -> type_answer f e (i + k) c' = None
  end.
Proof.
  induction chars as [|c chars IH]; intro i; cbn [type_each].
  - cbn [fst snd map]. split; [reflexivity|]. intros [|k] c H; discriminate H.
  - destruct (type_answer f e i c) as [msg|] eqn:Ha.
    + cbn [fst snd]. exists [], c, chars. cbn [app length map].
      rewrite Nat.add_0_r. repeat split; auto. intros [|k] c' H; discriminate H.
    + specialize (IH (S i)).
      destruct (type_each f e (S i) chars) as [[msg|] done]; cbn [fst snd] in *.
      * destruct IH as (accepted & c1 & rest & Hc & Hd & Hr & Hacc).
        exists (c :: accepted), c1, rest. subst chars done. cbn [app length map].
        split; [reflexivity|]. split; [reflexivity|].
        split; [rewrite <- Hr; f_equal; lia|].
        intros [|k] c' H; cbn [nth_error] in H.
        -- injection H as <-. rewrite Nat.add_0_r. exact Ha.
        -- rewrite <- (Hacc k c' H). f_equal. lia.
      * destruct IH as [Hd Hacc]. subst done. split; [reflexivity|].
        intros [|k] c' H; cbn [nth_error] in H.
        -- injection H as <-. rewrite Nat.add_0_r. exact Ha.
        -- rewrite <- (Hacc k c' H). f_equal. lia.
Qed.

(** X9.  With a positive delay [type_text] sends the text to the single
    match one character at a time, in order (the characters spell the text),
    and stops at the first character the driver refuses.  When it succeeds,
    every character was typed and accepted, and the 0.3 s pause follows.
    When it fails, the characters before the refused one were accepted, the
    refused one is the last operation, nothing follows it, not even the
    pause, and the result is the actionability error with the reason read
    from the message of the driver. *)
Theorem type_text_types_character_by_character (p : page) (f : fields) (s : string)
    (a : value) (t : string) (delay : nat) (e : element) :
  nonempty s = true -> truthy a = true ->
  _build_locator_from_strategy p s a = Ret [e] ->
  0 < delay ->
  let r := type_text p f s a t delay in
  join "" (characters t) = t
  /\ if f_success (fst r) then
       fst r = field_ok
       /\ snd r = (map (OpType (uid e)) (characters t) ++ [OpSettle 300])%list
       /\ forall k c, nth_error (characters t) k = Some c -> type_answer f e k c = None
     else
       exists accepted c rest msg,
         characters t = (accepted ++ c :: rest)%list
         /\ snd r = map (OpType (uid e)) (accepted ++ [c])
         /\ (forall k c', nth_error accepted k = Some c' -> type_answer f e k c' = None)
         /\ type_answer f e (length accepted) c = Some msg
         /\ fst r = field_actionability (type_reason msg).
Proof.
  intros Hs Ha Hl Hd r. subst r. unfold type_text. rewrite Hs, Ha, Hl.
  cbn [negb orb count length Nat.eqb]. change (1 <? 1) with false. cbv iota.
  apply Nat.ltb_lt in Hd. rewrite Hd.
  split; [apply characters_spell|].
  pose proof (type_each_stops f e (characters t) 0) as H.
  destruct (type_each f e 0 (characters t)) as [[msg|] done]; cbn [fst snd] in *.
  - cbn [f_success field_actionability].
    destruct H as (accepted & c & rest & Hc & Hdone & Hr & Hacc).
    exists accepted, c, rest, msg. repeat split; auto.
  - cbn [f_success field_ok]. destruct H as [Hdone Hacc]. subst done. repeat split; auto.
Qed.

(** Typing "hi" into the e-mail field, 50 ms apart. *)
Lemma type_text_witness :
  let r := type_text Fixtures.form_page Fixtures.willing_fields "placeholder"
             Fixtures.email_field "hi" 50 in
  join "" (characters "hi") = "hi"
  /\ if f_success (fst r) then
       fst r = field_ok
       /\ snd r = (map (OpType 1) (characters "hi") ++ [OpSettle 300])%list
       /\ forall k c, nth_error (characters "hi") k = Some c ->
                      type_answer Fixtures.willing_fields
                        (Fixtures.plain_element 1 "input" "textbox" ""
                           [("id", "email"); ("placeholder", "Email")] 30) k c = None
     else
       exists accepted c rest msg,
         characters "hi" = (accepted ++ c :: rest)%list
         /\ snd r = map (OpType 1) (accepted ++ [c])
         /\ (forall k c', nth_error accepted k = Some c' ->
                          type_answer Fixtures.willing_fields
                            (Fixtures.plain_element 1 "input" "textbox" ""
                               [("id", "email"); ("placeholder", "Email")] 30) k c' = None)
         /\ type_answer Fixtures.willing_fields
              (Fixtures.plain_element 1 "input" "textbox" ""
                 [("id", "email"); ("placeholder", "Email")] 30) (length accepted) c = Some msg
         /\ fst r = field_actionability (type_reason msg).
Proof.
  apply (type_text_types_character_by_character Fixtures.form_page Fixtures.willing_fields
           "placeholder" Fixtures.email_field "hi" 50
           (Fixtures.plain_element 1 "input" "textbox" ""
              [("id", "email"); ("placeholder", "Email")] 30)).
  - reflexivity.
  - reflexivity.
  - reflexivity.
  - lia.
Defined.
End ActionExecutor_fields.

Section ActionExecutor_scroll.
Import Py Driver ActionExecutor.

(** X10.  [scroll] and [wait_for_timeout] raise before they act: each
    begins, ahead of its [try], with a call of [logger.action] that has one
    argument too many.  Whatever the page, the direction, the amount or the
    duration, no key is pressed and no pause is made, and the agent gets the
    TypeError.  Its wait action therefore never waits: over the executor of
    the program it ends, after the one call of the method, as the error of
    the handler of [_execute_decision].  (The duration is a text of ASCII
    characters and Russian letters that [int] reads, or an empty one.) *)
Theorem scroll_and_wait_raise_before_acting (p : page) (others : BrowserAgent.Executor) :
  (forall direction amount, scroll p direction amount = Raise too_many_arguments)
  /\ (forall ms, wait_for_timeout ms = Raise too_many_arguments)
  /\ (forall direction,
         BrowserAgent.ex_scroll (BrowserAgent.executor_on p others) direction
         = Raise too_many_arguments)
  /\ (forall ms,
         BrowserAgent.ex_wait_for_timeout (BrowserAgent.executor_on p others) ms
         = Raise too_many_arguments)
  /\ forall (w : BrowserAgent.world) (strategy v : string) (args reason : value) (ms : Z),
       BrowserAgent.executor w = BrowserAgent.executor_on p others ->
       plain_text v = true ->
       (if nonempty v then int_of_str v else Ret 1000%Z) = Ret ms ->
       BrowserAgent.run_action w "wait" strategy args (VStr v) reason
       = ([BrowserAgent.EvExecutor (BrowserAgent.WaitForTimeout ms)],
          Ret (BrowserAgent.ResError
                 "Ошибка выполнения действия: AgentLogger.action() takes 2 positional arguments ")).
Proof.
  do 4 (split; [reflexivity|]).
  intros w strategy v args reason ms Hw _ Hms.
  unfold BrowserAgent.run_action, BrowserAgent.dispatch.
  cbn [String.eqb Ascii.eqb Bool.eqb].
  unfold or_else. cbn [truthy].
  destruct (nonempty v); [rewrite Hms | injection Hms as <-];
    rewrite bindM_lift_ret, Hw; reflexivity.
Qed.

(** The agent is told to wait two seconds, in text. *)
Lemma wait_raises_witness :
  BrowserAgent.run_action (Fixtures.world_with Fixtures.on_empty_page) "wait" ""
    (VDict []) (VStr "2000") (VStr "")
  = ([BrowserAgent.EvExecutor (BrowserAgent.WaitForTimeout 2000)],
     Ret (BrowserAgent.ResError
            "Ошибка выполнения действия: AgentLogger.action() takes 2 positional arguments ")).
Proof.
  apply (proj2 (proj2 (proj2 (proj2 (scroll_and_wait_raise_before_acting
                                       (Fixtures.page_of []) Fixtures.obliging))))).
  - reflexivity.
  - reflexivity.
  - reflexivity.
Defined.
End ActionExecutor_scroll.

Section ActionExecutor_strategies.
Import Py Driver ActionExecutor.

Lemma unnamed_strategy_is_invalid_locator (p : page) (s : string) (a : value) :
  mem s named_strategies = false -> startswith s "data-" = false ->
  _build_locator_from_strategy p s a = Ret (by_invalid (doc p)).
Proof.
  intros Hm Hd. unfold named_strategies in Hm. cbn [mem] in Hm.
  repeat (apply orb_false_iff in Hm; destruct Hm as [? Hm]).
  unfold _build_locator_from_strategy.
  repeat match goal with H : String.eqb s _ = false |- _ => rewrite H; clear H end.
  rewrite Hd. reflexivity.
Qed.

(** X11.  The strategy "css" passes [validate_full_decision], but
    [_build_locator_from_strategy] has no branch for it: the click of such a
    decision looks for [:invalid] elements and, on a page that has none,
    returns "element_not_found" without touching the page. *)
Theorem css_strategy_is_validated_but_never_located (p : page) (d args : dict) (b : bool) :
  get d "action" VNone = VStr "click" ->
  get d "strategy" VNone = VStr "css" ->
  get d "args" (VDict []) = VDict args -> args <> [] ->
  by_invalid (doc p) = [] ->
  DecisionValidator.validate_full_decision d = Ret (true, "")
  /\ click p "css" (VDict args) b = mkCall (failed "element_not_found" None) [] false.
Proof.
  intros Hact Hs Hargs Hne Hinv.
  assert (Ht : truthy (VDict args) = true) by (destruct args; [contradiction | reflexivity]).
  split.
  - unfold DecisionValidator.validate_full_decision. rewrite Hact, Hs, Hargs.
    destruct args as [|kv args]; [contradiction|]. reflexivity.
  - unfold click. change (nonempty "css") with true. rewrite Ht. cbn [negb orb].
    rewrite unnamed_strategy_is_invalid_locator by reflexivity.
    rewrite Hinv. reflexivity.
Qed.

(** A click on the selector "#buy" of the three-button page. *)
Lemma css_strategy_witness :
  DecisionValidator.validate_full_decision Fixtures.click_css = Ret (true, "")
  /\ click Fixtures.three_buy_buttons "css" (VDict Fixtures.css_args) false
     = mkCall (failed "element_not_found" None) [] false.
Proof.
  apply (css_strategy_is_validated_but_never_located Fixtures.three_buy_buttons
           Fixtures.click_css Fixtures.css_args false).
  - reflexivity.
  - reflexivity.
  - reflexivity.
  - discriminate.
  - reflexivity.
Defined.

End ActionExecutor_strategies.

(* ================================================================== *)
(** * Further properties of the decision validator *)
(* ================================================================== *)

Section DecisionValidator_parsing.
Import Py DecisionValidator.

(** X12.  The three results of [parse_decision] agree: a valid verdict
    comes with the parsed object, which has an "action" key, and with an
    empty message; an invalid verdict comes with no object and a non-empty
    message.  This holds whatever the JSON reader and the two regular
    expressions answer. *)
Theorem parse_decision_verdict_matches_payload (lib : library) (s : string) :
  match parse_decision lib s with
  | (true, Some d, msg) => has_key d "action" = true /\ msg = ""
  | (false, None, msg) => nonempty msg = true
  | _ => False
  end.
Proof.
  unfold parse_decision.
  destruct (negb (nonempty s)); [reflexivity|].
  match goal with |- context [json_loads lib ?x] => destruct (json_loads lib x) as [v|m|m] end;
    try reflexivity.
  destruct v; try reflexivity.
  destruct (has_key d "action") eqn:H; cbn [negb]; [split; [exact H | reflexivity] | reflexivity].
Qed.

Lemma digit_char (m : nat) :
  m < 10 ->
  is_digit (ascii_of_nat (48 + m)) = true
  /\ nat_of_ascii (ascii_of_nat (48 + m)) - 48 = m
  /\ is_space (ascii_of_nat (48 + m)) = false
  /\ Ascii.eqb (ascii_of_nat (48 + m)) "-"%char = false
  /\ Ascii.eqb (ascii_of_nat (48 + m)) "+"%char = false.
Proof.
  intro H.
  do 10 (destruct m as [|m]; [repeat split; reflexivity|]). lia.
Qed.

Lemma digits_go_value (fuel : nat) : forall n acc b,
  n < fuel ->
  digits_value (digits_go fuel n acc) 0%Z b = digits_value acc (Z.of_nat n) true.
Proof.
  induction fuel as [|fuel IH]; intros n acc b H; [lia|].
  cbn [digits_go].
  pose proof (Nat.mod_upper_bound n 10 ltac:(lia)) as Hm.
  destruct (digit_char (n mod 10) Hm) as (Hd & Hv & _).
  pose proof (Nat.div_mod_eq n 10) as Hdm.
  destruct (n / 10) as [|q] eqn:Hq.
  - cbn [digits_value]. rewrite Hd, Hv. f_equal. lia.
  - rewrite IH by lia. cbn [digits_value]. rewrite Hd, Hv. f_equal. lia.
Qed.

Lemma digits_go_head (fuel : nat) : forall n acc,
  n < fuel ->
  exists c rest, digits_go fuel n acc = String c rest /\ is_digit c = true
                 /\ Ascii.eqb c "-"%char = false /\ Ascii.eqb c "+"%char = false
                 /\ is_space c = false.
Proof.
  induction fuel as [|fuel IH]; intros n acc H; [lia|].
  cbn [digits_go].
  pose proof (Nat.mod_upper_bound n 10 ltac:(lia)) as Hm.
  destruct (digit_char (n mod 10) Hm) as (Hd & _ & Hs & Hminus & Hplus).
  pose proof (Nat.div_mod_eq n 10) as Hdm.
  destruct (n / 10) as [|q] eqn:Hq.
  - eexists _, _. repeat split; eauto.
  - apply IH. lia.
Qed.

Lemma digits_go_spaceless (fuel : nat) : forall n acc,
  spaceless acc -> spaceless (digits_go fuel n acc).
Proof.
  induction fuel as [|fuel IH]; intros n acc H; [exact H|].
  cbn [digits_go].
  pose proof (Nat.mod_upper_bound n 10 ltac:(lia)) as Hm.
  destruct (digit_char (n mod 10) Hm) as (_ & _ & Hs & _).
  assert (H' : spaceless (String (ascii_of_nat (48 + n mod 10)) acc)).
  { intros c [<-|Hc]; [exact Hs | apply H, Hc]. }
  destruct (n / 10); [exact H' | apply IH, H'].
Qed.

Lemma str_of_nat_spaceless (n : nat) : spaceless (str_of_nat n).
Proof. apply digits_go_spaceless. intros c []. Qed.

Lemma is_blank_space (c : ascii) : is_space c = false -> is_blank c = false.
Proof.
  unfold is_space, is_blank. set (n := nat_of_ascii c).
  destruct (Nat.leb_spec 9 n), (Nat.leb_spec n 13), (Nat.leb_spec 28 n),
           (Nat.leb_spec n 32), (Nat.eqb_spec n 32);
    cbn [andb orb]; intro Hs; try reflexivity; try discriminate Hs; lia.
Qed.

Lemma blanks_spaceless (s : string) :
  spaceless s -> drop_trailing_blanks (skip_blanks s) = s.
Proof.
  intro H.
  assert (E : skip_blanks s = s).
  { destruct s as [|c s]; [reflexivity|]. cbn [skip_blanks].
    rewrite (is_blank_space c) by (apply H; left; reflexivity). reflexivity. }
  rewrite E. clear E.
  induction s as [|c s IH]; [reflexivity|].
  cbn [drop_trailing_blanks]. rewrite IH by (intros x Hx; apply H; right; exact Hx).
  destruct s; [|reflexivity].
  rewrite (is_blank_space c) by (apply H; left; reflexivity). reflexivity.
Qed.

Lemma int_of_str_of_nat (n : nat) : int_of_str (str_of_nat n) = Ret (Z.of_nat n).
Proof.
  unfold int_of_str. rewrite blanks_spaceless by apply str_of_nat_spaceless.
  unfold str_of_nat.
  destruct (digits_go_head (S n) n "" ltac:(lia)) as (c & rest & E & _ & Hm & Hp & _).
  pose proof (digits_go_value (S n) n "" false ltac:(lia)) as V.
  rewrite E in *. rewrite Hm, Hp, V. reflexivity.
Qed.

(** [int(str(z))] is [z]. *)
Lemma int_of_str_of_Z (z : Z) : int_of_str (str_of_Z z) = Ret z.
Proof.
  destruct z as [|q|q]; cbn [str_of_Z].
  - reflexivity.
  - rewrite int_of_str_of_nat. f_equal. apply positive_nat_Z.
  - unfold int_of_str.
    assert (Hs : spaceless ("-" ++ str_of_nat (Pos.to_nat q))).
    { intros c [<-|Hc]; [reflexivity | apply (str_of_nat_spaceless _ c Hc)]. }
    rewrite blanks_spaceless by exact Hs.
    cbn [append]. change (Ascii.eqb "-"%char "-"%char) with true. cbv iota.
    unfold str_of_nat. rewrite digits_go_value by lia. cbn [digits_value option_map].
    f_equal. rewrite positive_nat_Z. reflexivity.
Qed.

(** X14.  A wait decision whose value is a JSON integer is judged by that
    integer (printing it and reading it back gives the same number): it is
    accepted exactly when the integer lies between 0 and 60000. *)
Theorem wait_accepts_integers_up_to_a_minute (d : dict) (z : Z) (strategy : string) :
  get d "action" VNone = VStr "wait" ->
  lower_strip (or_else (get d "strategy" VNone) (VStr "")) = Ret strategy ->
  get d "value" (VStr "") = VInt z ->
  validate_full_decision d
  = Ret (if (0 <=? z)%Z && (z <=? 60000)%Z then (true, "")
         else (false, "Время ожидания должно быть 0-60000мс")).
Proof.
  intros Ha Hs Hv. unfold validate_full_decision. rewrite Ha, Hs, Hv.
  cbn [or_else truthy nonempty lower_strip bind].
  change (strip (lower "wait")) with "wait".
  cbn [normal_value str repr].
  change (mem "wait" valid_actions) with true.
  change (mem "wait" locator_actions) with false.
  change (mem "wait" ["fill"; "type"]) with false.
  change ("wait" =? "goto")%string with false.
  change ("wait" =? "wait")%string with true.
  change ("wait" =? "scroll")%string with false.
  cbn [negb andb bind].
  assert (Hn : nonempty (str_of_Z z) = true).
  { destruct z as [|q|q]; cbn [str_of_Z]; try reflexivity.
    unfold str_of_nat.
    destruct (digits_go_head (S (Pos.to_nat q)) (Pos.to_nat q) "" ltac:(lia))
      as (c & rest & E & _). rewrite E. reflexivity. }
  rewrite Hn, int_of_str_of_Z.
  destruct (Z.ltb_spec z 0), (Z.ltb_spec 60000 z), (Z.leb_spec 0 z), (Z.leb_spec z 60000);
    try lia; reflexivity.
Qed.

(** Two seconds are accepted. *)
Lemma wait_two_seconds_witness :
  validate_full_decision Fixtures.wait_two_seconds = Ret (true, "").
Proof.
  exact (wait_accepts_integers_up_to_a_minute Fixtures.wait_two_seconds 2000 ""
           eq_refl eq_refl eq_refl).
Defined.

End DecisionValidator_parsing.

Section DecisionValidator_sound.
Import Py DecisionValidator.

(** X13.  What [validate_full_decision] accepts is well formed: the reason
    is empty, the action is one of the eleven valid ones; a click, fill, type
    or submit has one of the seven valid strategies and a non-empty dict of
    arguments; a fill or type has a non-empty value; a goto has a text target
    that starts with http:// or https://; a wait has a duration between 0
    and 60000 ms (1000 when no value is given); and a scroll with a value
    goes up or down.  The action, the strategy and the value are texts of
    ASCII characters and Russian letters (or no texts at all): on these
    [lower], [strip] and [int_of_str] are those of Python, which beyond them
    also strips U+00A0 and reads the digits of other scripts. *)
Theorem accepted_decision_is_well_formed (d : dict) (why : string) :
  plain_value (get d "action" VNone) = true ->
  plain_value (get d "strategy" VNone) = true ->
  plain_value (get d "value" (VStr "")) = true ->
  validate_full_decision d = Ret (true, why) ->
  exists action strategy,
    lower_strip (or_else (get d "action" VNone) (VStr "")) = Ret action
    /\ lower_strip (or_else (get d "strategy" VNone) (VStr "")) = Ret strategy
    /\ why = ""
    /\ mem action valid_actions = true
    /\ (mem action locator_actions = true ->
        mem strategy valid_strategies = true
        /\ exists kv args, get d "args" (VDict []) = VDict (kv :: args))
    /\ (mem action ["fill"; "type"] = true ->
        nonempty (normal_value (get d "value" (VStr ""))) = true)
    /\ (action = "goto" ->
        exists t, get d "target" (VStr "") = VStr t
                  /\ (startswith t "http://" || startswith t "https://") = true)
    /\ (action = "wait" ->
        exists ms, (if nonempty (normal_value (get d "value" (VStr "")))
                    then int_of_str (normal_value (get d "value" (VStr "")))
                    else Ret 1000%Z) = Ret ms
                   /\ (0 <= ms <= 60000)%Z)
    /\ (action = "scroll" ->
        nonempty (normal_value (get d "value" (VStr ""))) = true ->
        mem (lower (normal_value (get d "value" (VStr "")))) ["up"; "down"] = true).
Proof.
  intros _ _ _. unfold validate_full_decision.
  destruct (lower_strip (or_else (get d "action" VNone) (VStr ""))) as [action|e];
    [|discriminate].
  destruct (lower_strip (or_else (get d "strategy" VNone) (VStr ""))) as [strategy|e];
    [|discriminate].
  cbn [bind].
  set (value := normal_value (get d "value" (VStr ""))).
  destruct (mem action valid_actions) eqn:Hact; cbn [negb]; [|discriminate].
  match goal with
  | |- match ?lc with Some _ => _ | None => _ end = _ -> _ => destruct lc as [r|] eqn:Hlc
  end; [discriminate|].
  destruct (mem action ["fill"; "type"] && negb (nonempty value)) eqn:Hfill; [discriminate|].
  match goal with
  | |- bind ?g _ = _ -> _ => destruct g as [[r|]|e] eqn:Hgoto
  end; cbn [bind]; try discriminate.
  match goal with
  | |- match ?wc with Some _ => _ | None => _ end = _ -> _ => destruct wc as [r|] eqn:Hwait
  end; [discriminate|].
  destruct (String.eqb action "scroll" && nonempty value
            && negb (mem (lower value) ["up"; "down"])) eqn:Hscroll; [discriminate|].
  intro H. injection H as <-.
  exists action, strategy.
  split; [reflexivity|]. split; [reflexivity|]. split; [reflexivity|].
  split; [exact Hact|]. split; [|split; [|split; [|split]]].
  - intro H. rewrite H in Hlc.
    destruct (nonempty strategy); cbn [negb] in Hlc; [|discriminate].
    destruct (mem strategy valid_strategies); cbn [negb] in Hlc; [|discriminate].
    split; [reflexivity|].
    unfold or_else in Hlc.
    destruct (get d "args" (VDict [])) as [|b|z|p fz|s0|l|dd].
    + cbn in Hlc. discriminate.
    + destruct b; cbn in Hlc; discriminate.
    + destruct z; cbn in Hlc; discriminate.
    + destruct fz; cbn in Hlc; discriminate.
    + destruct s0; cbn in Hlc; discriminate.
    + destruct l; cbn in Hlc; discriminate.
    + destruct dd as [|kv args]; [cbn in Hlc; discriminate|].
      exists kv, args. reflexivity.
  - intro Hm. rewrite Hm in Hfill. cbn [andb] in Hfill.
    apply negb_false_iff in Hfill. exact Hfill.
  - intros ->. cbn [String.eqb Ascii.eqb Bool.eqb] in Hgoto.
    destruct (truthy (get d "target" (VStr ""))); cbn [negb] in Hgoto; [|discriminate].
    destruct (get d "target" (VStr "")) as [| | | |t| |]; try discriminate.
    exists t. split; [reflexivity|].
    destruct (startswith t "http://" || startswith t "https://"); [reflexivity|discriminate].
  - intros ->. cbn [String.eqb Ascii.eqb Bool.eqb] in Hwait. fold value.
    destruct (if nonempty value then int_of_str value else Ret 1000%Z) as [ms|e];
      [|discriminate].
    exists ms. split; [reflexivity|].
    destruct (Z.ltb_spec ms 0), (Z.ltb_spec 60000 ms); cbn [orb] in Hwait;
      try discriminate. lia.
  - intros -> Hv. rewrite Hv in Hscroll. cbn [String.eqb Ascii.eqb Bool.eqb andb] in Hscroll.
    apply negb_false_iff in Hscroll. exact Hscroll.
Qed.

(** The click on "Buy" is accepted: it is a valid action with a valid
    strategy. *)
Lemma accepted_click_witness :
  plain_value (get Fixtures.click_buy "action" VNone) = true
  /\ plain_value (get Fixtures.click_buy "strategy" VNone) = true
  /\ plain_value (get Fixtures.click_buy "value" (VStr "")) = true
  /\ validate_full_decision Fixtures.click_buy = Ret (true, "")
  /\ exists action strategy,
       lower_strip (or_else (get Fixtures.click_buy "action" VNone) (VStr "")) = Ret action
       /\ lower_strip (or_else (get Fixtures.click_buy "strategy" VNone) (VStr ""))
          = Ret strategy
       /\ mem action valid_actions = true.
Proof.
  do 4 (split; [reflexivity|]).
  destruct (accepted_decision_is_well_formed Fixtures.click_buy "" eq_refl eq_refl eq_refl
              eq_refl)
    as (action & strategy & Ha & Hs & _ & Hm & _).
  exists action, strategy. auto.
Defined.

End DecisionValidator_sound.

(* ================================================================== *)
(** * Further properties of the LLM client *)
(* ================================================================== *)

Section NvidiaAPI_loops.
Import Py NvidiaAPI.

(** X15.  Neither retry loop ever ends by its [while] condition: entered
    with an attempt below the budget, [_call_with_retry] returns a text or
    raises (it never falls through to an implicit None), and [stream_call]
    finishes or raises. *)
Theorem retry_loops_never_fall_through (c : NvidiaAPIClient) (message : string)
    (use_history : bool) (attempt : nat) :
  attempt < max_retries c ->
  (forall script,
      result (call_with_retry_from c message use_history attempt script) <> LoopExit)
  /\ (forall json_loads script,
         stream_result (stream_call_from json_loads c message use_history attempt script)
         <> StreamLoopExit).
Proof.
  intro Hlt. split.
  - intro script. revert attempt Hlt.
    induction script as [|r script IH]; intros attempt Hlt; cbn [call_with_retry_from];
      (assert (Hle : (max_retries c <=? attempt) = false) by (apply Nat.leb_gt; exact Hlt));
      rewrite Hle; [discriminate|].
    destruct r as [| msg | code choices].
    + destruct (S attempt <? max_retries c) eqn:Hs; [|discriminate].
      rewrite before_result. apply IH. apply Nat.ltb_lt. exact Hs.
    + discriminate.
    + destruct (code =? 429)%Z; [rewrite before_result; apply IH; exact Hlt|].
      destruct (negb (code =? 200)%Z); [discriminate|].
      destruct choices as [[|ch chs]|]; discriminate.
  - intros json_loads script. revert attempt Hlt.
    induction script as [|r script IH]; intros attempt Hlt; cbn [stream_call_from];
      (assert (Hle : (max_retries c <=? attempt) = false) by (apply Nat.leb_gt; exact Hlt));
      rewrite Hle; [discriminate|].
    destruct r as [| e | code lines broken].
    + destruct (S attempt <? max_retries c) eqn:Hs; [|discriminate].
      cbn [stream_before stream_result]. apply IH. apply Nat.ltb_lt. exact Hs.
    + discriminate.
    + destruct (code =? 429)%Z; [cbn [stream_before stream_result]; apply IH; exact Hlt|].
      destruct (negb (code =? 200)%Z); [discriminate|].
      destruct (lines_chunks json_loads lines) as [chunks [e|]]; [discriminate|].
      destruct broken; [|discriminate].
      destruct (S attempt <? max_retries c) eqn:Hs; [|discriminate].
      cbn [stream_before stream_result]. apply IH. apply Nat.ltb_lt. exact Hs.
Qed.

(** The client of [__init__] enters both loops with attempt 0 of 3. *)
Lemma retry_loops_witness :
  (forall script,
      result (call_with_retry_from Fixtures.client "hi" true 0 script) <> LoopExit)
  /\ (forall json_loads script,
         stream_result (stream_call_from json_loads Fixtures.client "hi" true 0 script)
         <> StreamLoopExit).
Proof.
  apply (retry_loops_never_fall_through Fixtures.client "hi" true 0).
  cbn [max_retries Fixtures.client set_system_message with_history init]. lia.
Defined.

Lemma posts_before evs r :
  posts (trace (before evs r)) = (posts evs ++ posts (trace r))%list.
Proof. unfold before, posts. cbn [trace]. apply flat_map_app. Qed.

(** X16.  [_call_with_retry] sends at most as many requests as the attempts
    it has left plus the rate-limit replies (status 429) it is given: only a
    429 buys another request without spending an attempt. *)
Theorem requests_bounded_by_budget_and_rate_limits (c : NvidiaAPIClient) (message : string)
    (use_history : bool) (script : list reply) : forall attempt,
  length (posts (trace (call_with_retry_from c message use_history attempt script)))
  <= (max_retries c - attempt) + length (filter is_rate_limit script).
Proof.
  induction script as [|r script IH]; intro attempt; cbn [call_with_retry_from].
  - destruct (max_retries c <=? attempt); simpl; lia.
  - destruct (max_retries c <=? attempt) eqn:Hle; [simpl; lia|].
    apply Nat.leb_gt in Hle.
    destruct r as [| msg | code choices]; cbn [filter is_rate_limit].
    + destruct (S attempt <? max_retries c) eqn:Hs.
      * rewrite posts_before. cbn [posts flat_map app length].
        specialize (IH (S attempt)). lia.
      * cbn [trace posts flat_map app length]. lia.
    + cbn [trace posts flat_map app length]. lia.
    + destruct (code =? 429)%Z.
      * rewrite posts_before. cbn [posts flat_map app length].
        specialize (IH attempt). lia.
      * destruct (negb (code =? 200)%Z); [cbn [trace posts flat_map app length]; lia|].
        destruct choices as [[|ch chs]|]; cbn [trace posts flat_map app length]; lia.
Qed.

Lemma line_chunks_truthy (json_loads : string -> option value) (line : string)
    (chunks : list value) :
  line_chunks json_loads line = Ret chunks -> Forall (fun v => truthy v = true) chunks.
Proof.
  unfold line_chunks.
  destruct (negb (nonempty line)); [intro H; injection H as <-; constructor|].
  set (text := if startswith (strip line) "data:" then strip (drop 5 (strip line))
               else strip line).
  destruct (nonempty text) eqn:Hn; cbn [negb orb];
    [|intro H; injection H as <-; constructor].
  destruct (String.eqb text "[DONE]"); [intro H; injection H as <-; constructor|].
  destruct (json_loads text) as [obj|].
  2:{ intro H. injection H as <-. constructor; [exact Hn | constructor]. }
  destruct (get_of obj "choices" VNone) as [choices|e]; cbn [bind]; [|discriminate].
  destruct (negb (truthy (or_else choices (VList [])))); [intro H; injection H as <-; constructor|].
  destruct (first_delta (or_else choices (VList []))) as [delta|e]; cbn [bind]; [|discriminate].
  destruct (get_of (or_else delta (VDict [])) "reasoning_content" VNone) as [r|e];
    cbn [bind]; [|discriminate].
  destruct (truthy r) eqn:Hr.
  - cbn [bind]. rewrite Hr.
    destruct (get_of (or_else delta (VDict [])) "content" VNone) as [c0|e];
      cbn [bind]; [|discriminate].
    destruct (truthy c0) eqn:Hc.
    + cbn [bind]. rewrite Hc. intro H. injection H as <-. repeat constructor; assumption.
    + destruct (get_of (or_else delta (VDict [])) "text" VNone) as [c1|e];
        cbn [bind]; [|discriminate].
      destruct (truthy c1) eqn:Hc1; intro H; injection H as <-; repeat constructor; assumption.
  - destruct (get_of (or_else delta (VDict [])) "reasoning" VNone) as [r1|e];
      cbn [bind]; [|discriminate].
    destruct (get_of (or_else delta (VDict [])) "content" VNone) as [c0|e];
      cbn [bind]; [|discriminate].
    destruct (truthy r1) eqn:Hr1; destruct (truthy c0) eqn:Hc.
    + cbn [bind]. rewrite Hc. intro H. injection H as <-. repeat constructor; assumption.
    + destruct (get_of (or_else delta (VDict [])) "text" VNone) as [c1|e];
        cbn [bind]; [|discriminate].
      destruct (truthy c1) eqn:Hc1; intro H; injection H as <-; repeat constructor; assumption.
    + cbn [bind]. rewrite Hc. intro H. injection H as <-. repeat constructor; assumption.
    + destruct (get_of (or_else delta (VDict [])) "text" VNone) as [c1|e];
        cbn [bind]; [|discriminate].
      destruct (truthy c1) eqn:Hc1; intro H; injection H as <-; repeat constructor; assumption.
Qed.

Lemma lines_chunks_truthy (json_loads : string -> option value) (lines : list string) :
  Forall (fun v => truthy v = true) (fst (lines_chunks json_loads lines)).
Proof.
  induction lines as [|line rest IH]; cbn [lines_chunks]; [constructor|].
  destruct (line_chunks json_loads line) as [chunks|e] eqn:Hl; [|constructor].
  destruct (lines_chunks json_loads rest) as [more failure]. cbn [fst] in *.
  apply Forall_app. split; [exact (line_chunks_truthy _ _ _ Hl) | exact IH].
Qed.

(** X17.  Every chunk [stream_call] yields is truthy: blank lines, the
    [DONE] marker, chunks without choices and empty reasoning or content
    fields yield nothing, so a consumer never receives an empty string or
    None. *)
Theorem stream_never_yields_an_empty_chunk (json_loads : string -> option value)
    (c : NvidiaAPIClient) (message : string) (use_history : bool)
    (script : list stream_reply) : forall attempt,
  Forall (fun v => truthy v = true)
         (yielded (stream_call_from json_loads c message use_history attempt script)).
Proof.
  induction script as [|r script IH]; intro attempt; cbn [stream_call_from].
  - destruct (max_retries c <=? attempt); constructor.
  - destruct (max_retries c <=? attempt); [constructor|].
    destruct r as [| e | code lines broken].
    + destruct (S attempt <? max_retries c); [|constructor].
      cbn [stream_before yielded app]. apply IH.
    + constructor.
    + destruct (code =? 429)%Z; [cbn [stream_before yielded app]; apply IH|].
      destruct (negb (code =? 200)%Z); [constructor|].
      pose proof (lines_chunks_truthy json_loads lines) as Hl.
      destruct (lines_chunks json_loads lines) as [chunks [e|]]; cbn [fst] in Hl; [exact Hl|].
      destruct broken; [|exact Hl].
      destruct (S attempt <? max_retries c); [|exact Hl].
      cbn [stream_before yielded]. apply Forall_app. split; [exact Hl | apply IH].
Qed.

Lemma lines_chunks_app (json_loads : string -> option value) (lines1 lines2 : list string) :
  forall chunks1,
    lines_chunks json_loads lines1 = (chunks1, None) ->
    lines_chunks json_loads (lines1 ++ lines2)
    = ((chunks1 ++ fst (lines_chunks json_loads lines2))%list,
       snd (lines_chunks json_loads lines2)).
Proof.
  induction lines1 as [|line rest IH]; intros chunks1 H; cbn [lines_chunks app] in *.
  - injection H as <-. destruct (lines_chunks json_loads lines2); reflexivity.
  - destruct (line_chunks json_loads line) as [chunks|e]; [|discriminate].
    destruct (lines_chunks json_loads rest) as [more failure] eqn:Hr.
    injection H as <- ->. rewrite (IH more eq_refl), app_assoc. reflexivity.
Qed.

(** X18.  A stream that breaks is requested again from the start, after
    the back-off, and what was already yielded is yielded again: when the
    first response breaks after some lines and the second delivers those
    lines and the rest, the consumer receives the chunks of the first lines
    twice. *)
Theorem broken_stream_is_replayed_from_the_start (json_loads : string -> option value)
    (c : NvidiaAPIClient) (message : string) (use_history : bool)
    (lines1 lines2 : list string) (chunks1 chunks2 : list value) :
  max_retries c = 3 -> retry_delay_base c = 1%Z ->
  lines_chunks json_loads lines1 = (chunks1, None) ->
  lines_chunks json_loads lines2 = (chunks2, None) ->
  stream_call json_loads c message use_history
    [StreamStatus 200 lines1 true; StreamStatus 200 (lines1 ++ lines2) false]
  = mkStream Finished (chunks1 ++ chunks1 ++ chunks2)%list
      [EvPost (_build_payload c message use_history true); EvSleep 1;
       EvPost (_build_payload c message use_history true)].
Proof.
  intros Hm Hb H1 H2. unfold stream_call. cbn [stream_call_from].
  rewrite Hm, Hb, H1, (lines_chunks_app json_loads lines1 lines2 chunks1 H1), H2.
  reflexivity.
Qed.

(** "Hel" arrives, the connection breaks, and the retry delivers "Hel" and
    "lo": the consumer reads "Hel", "Hel", "lo". *)
Lemma broken_stream_witness :
  stream_call Fixtures.no_json Fixtures.client "hi" false
    [StreamStatus 200 ["data: Hel"] true;
     StreamStatus 200 (["data: Hel"] ++ ["data: lo"; "data: [DONE]"]) false]
  = mkStream Finished ([VStr "Hel"] ++ [VStr "Hel"] ++ [VStr "lo"])%list
      [EvPost (_build_payload Fixtures.client "hi" false true); EvSleep 1;
       EvPost (_build_payload Fixtures.client "hi" false true)].
Proof.
  apply (broken_stream_is_replayed_from_the_start Fixtures.no_json Fixtures.client "hi" false
           ["data: Hel"] ["data: lo"; "data: [DONE]"] [VStr "Hel"] [VStr "lo"]);
    reflexivity.
Defined.

End NvidiaAPI_loops.

(* ================================================================== *)
(** * Further properties of the modal detection *)
(* ================================================================== *)

Section PageAnalyzer_modals.
Import Py Driver PageAnalyzer.

Lemma first_visible (l : locator) :
  (0 <? count l) && is_visible (first l) = true ->
  exists e, first l = [e] /\ visible e = true /\ In e l.
Proof.
  destruct l as [|e l]; [discriminate|].
  cbn [count length first firstn is_visible]. intro H.
  apply andb_true_iff in H. destruct H as [_ H]. exists e. repeat split; auto.
  left. reflexivity.
Qed.

Lemma last_visible (l : locator) :
  (0 <? count l) && is_visible (last l) = true ->
  exists e, last l = [e] /\ visible e = true /\ In e l.
Proof.
  intro H. apply andb_true_iff in H. destruct H as [_ H].
  unfold last in *. destruct (rev l) as [|e r] eqn:Hr; [discriminate|].
  exists e. repeat split; auto.
  apply in_rev. rewrite Hr. left. reflexivity.
Qed.

(** X19.  [_check_modal_visible] and [_get_modal_locator] agree: the first
    says yes exactly when the second returns a locator, and that locator
    resolves to one visible element of the page. *)
Theorem modal_visible_iff_modal_locator (p : page) :
  _check_modal_visible p = true
  <-> exists e, _get_modal_locator p = Some [e] /\ visible e = true /\ In e (doc p).
Proof.
  unfold _check_modal_visible, _get_modal_locator.
  destruct ((0 <? count (get_by_role (doc p) "dialog" None))
            && is_visible (first (get_by_role (doc p) "dialog" None))) eqn:H1.
  - destruct (first_visible _ H1) as (e & He & Hv & Hin). rewrite He.
    split; [|reflexivity]. intros _. exists e. repeat split; auto.
    unfold get_by_role in Hin. apply filter_In in Hin. tauto.
  - destruct ((0 <? count (filter modal_selector (doc p)))
              && is_visible (last (filter modal_selector (doc p)))) eqn:H2.
    + destruct (last_visible _ H2) as (e & He & Hv & Hin). rewrite He.
      split; [|reflexivity]. intros _. exists e. repeat split; auto.
      apply filter_In in Hin. tauto.
    + split; [discriminate|]. intros (e & He & _). discriminate He.
Qed.

Lemma mem_lower_close_words (t : string) :
  mem (lower t) close_words = true -> nonempty t = true.
Proof. destruct t; [discriminate | reflexivity]. Qed.

Lemma mem_action_texts (t : string) :
  mem t action_button_texts = true -> nonempty t = true.
Proof. destruct t; [discriminate | reflexivity]. Qed.

(** X20.  The close element [_find_modal_close_strategy] stores is always
    marked clickable and is one of two things: the ESC key press, with no
    locator, or a [text] locator whose text is not empty and is the stripped
    text or the aria-label of a button inside the modal.  (The texts and
    aria-labels of the buttons of the modal are texts of ASCII characters and
    Russian letters; beyond them Python strips more than [strip], U+00A0
    among it.) *)
Theorem close_strategy_names_a_button_of_the_modal (p : page) (modal : element) :
  forallb plainly_labelled (get_by_role (inside (doc p) modal) "button" None) = true ->
  let c := _find_modal_close_strategy p modal in
  can_click c = true
  /\ ((element_id c = "modal_close_esc" /\ element_type c = "key_press"
       /\ locator_strategy c = None /\ locator_args c = [])
      \/ (element_id c = "modal_close" /\ element_type c = "button"
          /\ locator_strategy c = Some "text"
          /\ exists t btn,
               locator_args c = [("text", t)] /\ nonempty t = true
               /\ In btn (get_by_role (inside (doc p) modal) "button" None)
               /\ (t = strip (text btn) \/ get_attribute btn "aria-label" = Some t))).
Proof.
  intros _. cbv zeta. unfold _find_modal_close_strategy.
  set (buttons := get_by_role (inside (doc p) modal) "button" None).
  destruct (find is_close_button buttons) as [btn|] eqn:F1.
  - apply find_some in F1. destruct F1 as [Hin Hc].
    split; [reflexivity|]. right. cbn [element_id element_type locator_strategy locator_args].
    repeat split.
    unfold is_close_button in Hc.
    destruct (nonempty (strip (text btn))) eqn:Hn.
    + exists (strip (text btn)), btn. repeat split; auto.
    + assert (Hm : mem (lower (strip (text btn))) close_words = false).
      { destruct (mem (lower (strip (text btn))) close_words) eqn:E; [|reflexivity].
        apply mem_lower_close_words in E. congruence. }
      rewrite Hm in Hc. cbn [orb] in Hc.
      destruct (get_attribute btn "aria-label") as [a|] eqn:Hattr; [|discriminate].
      apply andb_true_iff in Hc. destruct Hc as [Ha _].
      exists a, btn. repeat split; auto.
  - destruct (find (fun b => mem (strip (text b)) action_button_texts) buttons)
      as [btn|] eqn:F2.
    + apply find_some in F2. destruct F2 as [Hin Hc].
      split; [reflexivity|]. right. unfold text_close.
      cbn [element_id element_type locator_strategy locator_args].
      repeat split. exists (strip (text btn)), btn. repeat split; auto.
      apply mem_action_texts. exact Hc.
    + destruct buttons as [|b rest] eqn:Hb.
      * split; [reflexivity|]. left. repeat split.
      * destruct (nonempty (strip (text b))) eqn:Hn.
        -- split; [reflexivity|]. right. unfold text_close.
           cbn [element_id element_type locator_strategy locator_args].
           repeat split. exists (strip (text b)), b. repeat split; auto.
           left. reflexivity.
        -- split; [reflexivity|]. left. repeat split.
Qed.

(** A dialog with the one button "Закрыть": that button is the close
    element. *)
Lemma close_strategy_witness :
  forallb plainly_labelled
    (get_by_role (inside (doc Fixtures.dialog_page) Fixtures.dialog) "button" None) = true
  /\ locator_args (_find_modal_close_strategy Fixtures.dialog_page Fixtures.dialog)
     = [("text", "Закрыть")]
  /\ can_click (_find_modal_close_strategy Fixtures.dialog_page Fixtures.dialog) = true.
Proof.
  split; [reflexivity|]. split; [reflexivity|].
  exact (proj1 (close_strategy_names_a_button_of_the_modal Fixtures.dialog_page
                  Fixtures.dialog eq_refl)).
Defined.

End PageAnalyzer_modals.

(* ================================================================== *)
(** * Further properties of the agent *)
(* ================================================================== *)

Section BrowserAgent_decision.
Import Py BrowserAgent.

Lemma catch_returns {A} (m : M A) (h : exn -> A) : exists a, snd (catch m h) = Ret a.
Proof.
  unfold catch. destruct m as [t [a|e]]; cbn [snd fst]; eexists; reflexivity.
Qed.

Lemma bindM_raise {A B} (m : M A) (k : A -> M B) (t : list event) (e : exn) :
  bindM m k = (t, Raise e) ->
  (m = (t, Raise e)) \/ exists a t1 t2, m = (t1, Ret a) /\ k a = (t2, Raise e)
                                        /\ t = (t1 ++ t2)%list.
Proof.
  unfold bindM. destruct m as [t1 [a|e1]]; cbn [fst snd].
  - destruct (k a) as [t2 r] eqn:Hk. intro H. injection H as <- ->.
    right. exists a, t1, t2. auto.
  - intro H. injection H as <- <-. left. reflexivity.
Qed.

(** The gate raises either in its keyword scan or in the prompt. *)
Lemma security_gate_raise (w : world) (st : agent) (action strategy : string)
    (reason : value) (t : list event) (e : exn) :
  security_gate w st action strategy reason = (t, Raise e) ->
  t = [] \/ (t = [EvConfirm] /\ confirm w = Raise e).
Proof.
  unfold security_gate.
  destruct (is_risky (current_task st) && mem action ["submit"; "click"; "confirm_complete"]);
    [|discriminate].
  destruct (any_risky strategy reason risk_keywords) as [[|]|e'].
  - rewrite bindM_lift_ret.
    destruct (confirm w) as [answer|e'] eqn:Hc.
    + discriminate.
    + intro H. injection H as <- <-. right. split; reflexivity.
  - rewrite bindM_lift_ret. discriminate.
  - intro H. injection H as <- _. left. reflexivity.
Qed.

Lemma run_action_returns (w : world) (action strategy : string) (args value reason : Py.value)
    (t : list event) (e : exn) :
  run_action w action strategy args value reason <> (t, Raise e).
Proof.
  unfold run_action. intro H.
  destruct (catch_returns (d <~ dispatch w action strategy args value reason ;;
                           conclude w action d)
              (fun e => ResError ("Ошибка выполнения действия: " ++ take 50 (message e))))
    as [a Ha].
  rewrite H in Ha. discriminate Ha.
Qed.

Lemma execute_parsed_raise (w : world) (st : agent) (parsed : dict) (t : list event)
    (e : exn) :
  execute_parsed w st parsed = (t, Raise e) ->
  t = [] \/ (t = [EvConfirm] /\ confirm w = Raise e).
Proof.
  unfold execute_parsed.
  destruct (lower_strip (or_else (get parsed "action" VNone) (VStr ""))) as [action|e1];
    [rewrite bindM_lift_ret | intro H; injection H as <- _; left; reflexivity].
  destruct (lower_strip (or_else (get parsed "strategy" VNone) (VStr ""))) as [strategy|e1];
    [rewrite bindM_lift_ret | intro H; injection H as <- _; left; reflexivity].
  rewrite bind_silent_inv by apply prepare_args_silent.
  destruct (snd (prepare_args _ _ _)) as [args|e1];
    [|intro H; injection H as <- _; left; reflexivity].
  destruct (repeats_last st action strategy args); [discriminate|].
  destruct (fix_marker "[aria-label]" "aria-label" (strategy, args)) as [sa|e1];
    [rewrite bindM_lift_ret | intro H; injection H as <- _; left; reflexivity].
  destruct (fix_marker "[id]" "id" sa) as [sa'|e1];
    [rewrite bindM_lift_ret | intro H; injection H as <- _; left; reflexivity].
  intro H. apply bindM_raise in H. destruct H as [H|(c & t1 & t2 & _ & H & _)].
  - exact (security_gate_raise _ _ _ _ _ _ _ H).
  - destruct c; [discriminate H|]. exfalso. exact (run_action_returns _ _ _ _ _ _ _ _ H).
Qed.

(** X21.  An Exception that escapes [_execute_decision] was raised before
    the decision touched the page or the model: no executor method, key
    press or model call took place.  Either nothing happened at all, or the
    operator was asked to confirm and it is the prompt that raised (its
    [input] does on a closed input).  Whatever Exception the action itself
    raises is caught and returned as an error.  A KeyboardInterrupt is not an
    Exception: no handler of [_execute_decision] catches it, and this says
    nothing about it. *)
Theorem escaping_exception_precedes_every_effect (w : world) (st : agent) (decision : string)
    (t : list event) (e : exn) :
  _execute_decision w st decision = (t, Raise e) ->
  t = [] \/ (t = [EvConfirm] /\ confirm w = Raise e).
Proof.
  unfold _execute_decision.
  destruct (DecisionValidator.parse_decision (lib w) decision) as [[[|] [parsed|]] msg];
    try discriminate.
  apply execute_parsed_raise.
Qed.

(** A risky task whose operator has closed the input: the click that
    mentions paying gets as far as the prompt, which raises. *)
Lemma escaping_exception_witness :
  _execute_decision Fixtures.closed_input_world Fixtures.paying "click pay"
  = ([EvConfirm], Raise Fixtures.end_of_input)
  /\ ([EvConfirm] = []
      \/ ([EvConfirm] = [EvConfirm]
          /\ confirm Fixtures.closed_input_world = Raise Fixtures.end_of_input)).
Proof.
  split; [reflexivity|].
  apply (escaping_exception_precedes_every_effect Fixtures.closed_input_world
           Fixtures.paying "click pay" [EvConfirm] Fixtures.end_of_input).
  reflexivity.
Defined.

Lemma prepare_args_unsliceable (strategy : string) (args value : Py.value) (e : exn) :
  truthy value = true -> sliceable value = Raise e ->
  prepare_args strategy args value = ([], Raise e).
Proof.
  intros Ht Hs. unfold prepare_args. rewrite Ht, Hs.
  destruct (negb (truthy args) && nonempty strategy && true); reflexivity.
Qed.

(** X22.  A decision whose value is truthy and cannot be sliced (a JSON
    number, true, an object) is never executed: the log line that slices the
    value raises before the action is looked at, and the pass ends with the
    one-second pause, leaving no trace of the decision in the attempted
    actions or the error history. *)
Theorem unsliceable_value_is_never_executed (st : agent) (o : observation)
    (url d msg action strategy : string) (parsed : dict) (e : exn) :
  reaches_decision st o url d ->
  DecisionValidator.parse_decision (lib (obs_world o)) d = (true, Some parsed, msg) ->
  lower_strip (or_else (get parsed "action" VNone) (VStr "")) = Ret action ->
  lower_strip (or_else (get parsed "strategy" VNone) (VStr "")) = Ret strategy ->
  truthy (get parsed "value" (VStr "")) = true ->
  sliceable (get parsed "value" (VStr "")) = Raise e ->
  _execute_decision (obs_world o) (observe st o) d = ([], Raise e)
  /\ iteration st o = (observe st o, None, [EvSleep 1000]).
Proof.
  intros (Hu & Hc & Hb & Hcomp & Hd) Hp Ha Hs Ht Hsl.
  assert (E : _execute_decision (obs_world o) (observe st o) d = ([], Raise e)).
  { unfold _execute_decision. rewrite Hp. unfold execute_parsed.
    rewrite Ha, Hs, !bindM_lift_ret.
    rewrite (prepare_args_unsliceable _ _ _ e Ht Hsl). reflexivity. }
  split; [exact E|].
  unfold iteration. rewrite Hu, Hc, Hb, Hcomp, Hd, E. reflexivity.
Qed.

(** The pass that is told to wait 2000. *)
Lemma unsliceable_value_witness :
  _execute_decision (obs_world Fixtures.number_pass)
    (observe Fixtures.first_task_start Fixtures.number_pass) Fixtures.wait_text
  = ([], Raise (TypeError "'int' object is not subscriptable"))
  /\ iteration Fixtures.first_task_start Fixtures.number_pass
     = (observe Fixtures.first_task_start Fixtures.number_pass, None, [EvSleep 1000]).
Proof.
  apply (unsliceable_value_is_never_executed Fixtures.first_task_start Fixtures.number_pass
           "https://shop.example/" Fixtures.wait_text "" "wait" "" Fixtures.wait_two_seconds
           (TypeError "'int' object is not subscriptable")).
  - repeat split.
  - reflexivity.
  - reflexivity.
  - reflexivity.
  - reflexivity.
  - reflexivity.
Defined.

End BrowserAgent_decision.

Section BrowserAgent_gate.
Import Py BrowserAgent.

Lemma bindM_events {A B} (m : M A) (k : A -> M B) (x : event) :
  In x (fst (bindM m k)) -> In x (fst m) \/ exists a, snd m = Ret a /\ In x (fst (k a)).
Proof.
  unfold bindM. destruct m as [t [a|e]]; cbn [fst snd].
  - destruct (k a) as [t' r] eqn:Hk. cbn [fst]. intro H. apply in_app_or in H.
    destruct H as [H|H]; [left; exact H | right; exists a; rewrite Hk; auto].
  - auto.
Qed.

Lemma catch_events {A} (m : M A) (h : exn -> A) : fst (catch m h) = fst m.
Proof. unfold catch. destruct m as [t [a|e]]; reflexivity. Qed.

Ltac no_confirm H :=
  repeat first
    [ contradiction
    | apply bindM_events in H; destruct H as [H|(? & _ & H)]
    | rewrite catch_events in H
    | progress cbn [fst emit ret lift raise In] in H
    | destruct H as [H|H]; [discriminate H|]
    | match type of H with
      | context [if ?c then _ else _] => destruct c
      | context [match ?x with _ => _ end] => destruct x
      end ].

Lemma run_action_never_asks (w : world) (action strategy : string)
    (args value reason : Py.value) :
  ~ In EvConfirm (fst (run_action w action strategy args value reason)).
Proof.
  intro H. unfold run_action in H. rewrite catch_events in H.
  apply bindM_events in H. destruct H as [H|(d & _ & H)].
  - unfold dispatch, call_click, call_fill, read_disambiguation in H.
    no_confirm H.
  - unfold conclude in H. no_confirm H.
Qed.

(** X23.  When the operator is asked to confirm a decision and declines,
    the prompt is all that happens: no action is executed and the result is
    the cancellation error. *)
Theorem declined_confirmation_executes_nothing (w : world) (st : agent) (parsed : dict) :
  confirm w = Ret false ->
  In EvConfirm (fst (execute_parsed w st parsed)) ->
  execute_parsed w st parsed
  = ([EvConfirm], Ret (ResError "Действие отменено пользователем (безопасность)")).
Proof.
  intros Hc. unfold execute_parsed.
  destruct (lower_strip (or_else (get parsed "action" VNone) (VStr ""))) as [action|e1];
    [rewrite bindM_lift_ret | intros []].
  destruct (lower_strip (or_else (get parsed "strategy" VNone) (VStr ""))) as [strategy|e1];
    [rewrite bindM_lift_ret | intros []].
  rewrite bind_silent_inv by apply prepare_args_silent.
  destruct (snd (prepare_args _ _ _)) as [args|e1]; [|intros []].
  destruct (repeats_last st action strategy args); [intros []|].
  destruct (fix_marker "[aria-label]" "aria-label" (strategy, args)) as [sa|e1];
    [rewrite bindM_lift_ret | intros []].
  destruct (fix_marker "[id]" "id" sa) as [sa'|e1];
    [rewrite bindM_lift_ret | intros []].
  unfold security_gate.
  destruct (is_risky (current_task st) && mem action ["submit"; "click"; "confirm_complete"]).
  - destruct (any_risky (fst sa') (get parsed "reason" (VStr "")) risk_keywords)
      as [[|]|e1].
    + rewrite bindM_lift_ret, Hc. intros _. reflexivity.
    + rewrite bindM_lift_ret, bindM_ret. intro H.
      exfalso. exact (run_action_never_asks _ _ _ _ _ _ H).
    + intros [].
  - rewrite bindM_ret. intro H. exfalso. exact (run_action_never_asks _ _ _ _ _ _ H).
Qed.

(** A click whose reason mentions paying, in a risky task, declined. *)
Lemma declined_confirmation_witness :
  execute_parsed Fixtures.declining_world Fixtures.paying Fixtures.click_pay
  = ([EvConfirm], Ret (ResError "Действие отменено пользователем (безопасность)")).
Proof.
  apply (declined_confirmation_executes_nothing Fixtures.declining_world Fixtures.paying
           Fixtures.click_pay).
  - reflexivity.
  - vm_compute. left. reflexivity.
Defined.

End BrowserAgent_gate.

Section BrowserAgent_loop.
Import Py BrowserAgent.

Lemma push_error_length (h : list string) (e : string) :
  length h <= max_error_history -> length (push_error h e) <= max_error_history.
Proof.
  unfold push_error, max_error_history. intro H.
  destruct (5 <? length (h ++ [e])) eqn:Hl.
  - destruct (h ++ [e])%list eqn:E; [simpl; lia|].
    assert (L : length (h ++ [e]) = S (length l)) by (rewrite E; reflexivity).
    rewrite length_app in L. simpl in *. lia.
  - apply Nat.ltb_ge in Hl. exact Hl.
Qed.

(** What [after_action] leaves of the state. *)
Lemma after_action_keeps (st : agent) (rec : option attempt) (r : action_result)
    (url : string) :
  let st' := fst (after_action st rec r url) in
  iteration_count st' = iteration_count st
  /\ max_iterations st' = max_iterations st
  /\ (length (error_history st) <= max_error_history ->
      length (error_history st') <= max_error_history)
  /\ exists more, failed_actions st' = (failed_actions st ++ more)%list /\ length more <= 2.
Proof.
  assert (Hrec : forall s a, iteration_count (add_attempt_opt s a) = iteration_count s
                             /\ max_iterations (add_attempt_opt s a) = max_iterations s
                             /\ exists more, failed_actions (add_attempt_opt s a)
                                             = (failed_actions s ++ more)%list
                                             /\ length more <= 1).
  { intros s [a|]; cbn [add_attempt_opt add_attempt iteration_count max_iterations
                        failed_actions].
    - repeat split. exists [a]. split; [reflexivity | simpl; lia].
    - repeat split. exists []. rewrite app_nil_r. split; [reflexivity | simpl; lia]. }
  destruct (Hrec st rec) as (Hi & Hm & more & Hf & Hl).
  assert (Hplain : forall st1 : agent,
             iteration_count st1 = iteration_count (add_attempt_opt st rec) ->
             max_iterations st1 = max_iterations (add_attempt_opt st rec) ->
             (length (error_history st) <= max_error_history ->
              length (error_history st1) <= max_error_history) ->
             (exists more', failed_actions st1
                            = (failed_actions (add_attempt_opt st rec) ++ more')%list
                            /\ length more' <= 1) ->
             iteration_count st1 = iteration_count st
             /\ max_iterations st1 = max_iterations st
             /\ (length (error_history st) <= max_error_history ->
                 length (error_history st1) <= max_error_history)
             /\ exists more, failed_actions st1 = (failed_actions st ++ more)%list
                             /\ length more <= 2).
  { intros st1 H1 H2 H3 (more' & H4 & H5). repeat split; try congruence; auto.
    exists (more ++ more')%list. rewrite H4, Hf, app_assoc. split; [reflexivity|].
    rewrite length_app. lia. }
  assert (Hnone : exists more', failed_actions (add_attempt_opt st rec)
                                = (failed_actions (add_attempt_opt st rec) ++ more')%list
                                /\ length more' <= 1).
  { exists []. rewrite app_nil_r. split; [reflexivity | simpl; lia]. }
  assert (Herr : forall msg,
             let st1 := add_attempt_opt (add_attempt_opt st rec) (blocked_attempt r msg) in
             forall st2 f,
               (if max_unchanged_threshold <=? page_state_unchanged_count st1
                then (st1, Some (Stuck (iteration_count st1)
                                   "Страница не изменяется после действий"
                                   "Агент застрял: страница не реагирует на действия"))
                else
                  let st3 := set_error_history st1 (push_error (error_history st1) msg) in
                  if consecutive_error_threshold
                       <=? consecutive_same_errors (error_history st3) msg
                  then (st3, Some (Stuck (iteration_count st3) msg
                                     "Агент застрял: одна и та же ошибка повторяется"))
                  else (st3, None)) = (st2, f) ->
               iteration_count st2 = iteration_count st
               /\ max_iterations st2 = max_iterations st
               /\ (length (error_history st) <= max_error_history ->
                   length (error_history st2) <= max_error_history)
               /\ exists more, failed_actions st2 = (failed_actions st ++ more)%list
                               /\ length more <= 2).
  { intros msg st1 st2 f.
    destruct (Hrec (add_attempt_opt st rec) (blocked_attempt r msg))
      as (Hi1 & Hm1 & more1 & Hf1 & Hl1). fold st1 in Hi1, Hm1, Hf1.
    assert (He1 : error_history st1 = error_history st).
    { unfold st1. rewrite !add_attempt_opt_error_history. reflexivity. }
    destruct (max_unchanged_threshold <=? page_state_unchanged_count st1).
    - intro E. injection E as <- _. apply Hplain; auto.
      + rewrite He1. auto.
      + exists more1. auto.
    - cbv zeta.
      destruct (consecutive_error_threshold <=? _); intro E; injection E as <- _;
        (apply Hplain; [exact Hi1 | exact Hm1 | | exists more1; auto]);
        intro Hb; cbn [set_error_history set_errors error_history];
        apply push_error_length; rewrite He1; exact Hb. }
  unfold after_action.
  destruct r as [e | dd a s ar | | [|c ans] | summary]; cbv zeta.
  - (* error *)
    unfold has_error. cbn [get_error].
    destruct (nonempty e).
    + destruct (if max_unchanged_threshold <=? _ then _ else _) as [st2 f] eqn:E.
      cbn [fst]. exact (Herr e st2 f E).
    + cbn [fst]. apply Hplain; auto.
      intros _. cbn [set_error_history set_errors error_history]. simpl. unfold max_error_history. lia.
  - unfold has_error. cbn [get_error nonempty].
    destruct (if max_unchanged_threshold <=? _ then _ else _) as [st2 f] eqn:E.
    cbn [fst]. exact (Herr "BLOCKED_REPEATED_ACTION" st2 f E).
  - cbn [has_error get_error fst]. apply Hplain; auto.
    intros _. simpl. unfold max_error_history. lia.
  - cbn [has_error get_error fst]. apply Hplain; auto.
    intros _. simpl. unfold max_error_history. lia.
  - cbn [fst]. apply Hplain; auto.
    cbn [set_task error_history]. rewrite add_attempt_opt_error_history. auto.
  - cbn [fst]. apply Hplain; auto.
    rewrite add_attempt_opt_error_history. auto.
Qed.

Lemma observe_keeps (st : agent) (o : observation) :
  iteration_count (observe st o) = S (iteration_count st)
  /\ max_iterations (observe st o) = max_iterations st
  /\ error_history (observe st o) = error_history st
  /\ failed_actions (observe st o) = failed_actions st.
Proof.
  unfold observe, _has_page_changed. cbn [set_iteration_count previous_page_state].
  destruct (previous_page_state st); [destruct (negb _)|]; repeat split.
Qed.

(** What one pass leaves of the state. *)
Lemma iteration_keeps (st : agent) (o : observation) :
  let st' := fst (fst (iteration st o)) in
  iteration_count st' = S (iteration_count st)
  /\ max_iterations st' = max_iterations st
  /\ (length (error_history st) <= max_error_history ->
      length (error_history st') <= max_error_history)
  /\ exists more, failed_actions st' = (failed_actions st ++ more)%list /\ length more <= 2.
Proof.
  destruct (observe_keeps st o) as (Oi & Om & Oe & Of).
  assert (Hobs : forall st1 : agent,
             iteration_count st1 = iteration_count (observe st o) ->
             max_iterations st1 = max_iterations (observe st o) ->
             (length (error_history (observe st o)) <= max_error_history ->
              length (error_history st1) <= max_error_history) ->
             (exists more, failed_actions st1 = (failed_actions (observe st o) ++ more)%list
                           /\ length more <= 2) ->
             iteration_count st1 = S (iteration_count st)
             /\ max_iterations st1 = max_iterations st
             /\ (length (error_history st) <= max_error_history ->
                 length (error_history st1) <= max_error_history)
             /\ exists more, failed_actions st1 = (failed_actions st ++ more)%list
                             /\ length more <= 2).
  { intros st1 H1 H2 H3 H4. rewrite Oe in H3. rewrite Of in H4.
    repeat split; try congruence; auto. }
  assert (Hsame : iteration_count (observe st o) = S (iteration_count st)
             /\ max_iterations (observe st o) = max_iterations st
             /\ (length (error_history st) <= max_error_history ->
                 length (error_history (observe st o)) <= max_error_history)
             /\ exists more, failed_actions (observe st o) = (failed_actions st ++ more)%list
                             /\ length more <= 2).
  { apply Hobs; auto. exists []. rewrite app_nil_r. split; [reflexivity | simpl; lia]. }
  unfold iteration.
  destruct (analysis_url o) as [url|].
  2:{ cbn [fst set_iteration_count iteration_count max_iterations error_history
           failed_actions].
      repeat split; auto. exists []. rewrite app_nil_r. split; [reflexivity | simpl; lia]. }
  destruct (has_captcha o).
  { cbn [fst]. apply Hobs; auto.
    exists []. rewrite app_nil_r. split; [reflexivity | simpl; lia]. }
  destruct (negb (context_builds (observe st o))); [exact Hsame|].
  destruct (completion o); [exact Hsame|].
  destruct (decision o) as [d|e]; [|exact Hsame].
  destruct (_execute_decision (obs_world o) (observe st o) d) as [events [r|e]];
    [|exact Hsame].
  pose proof (after_action_keeps (observe st o)
                (record_attempt (lib (obs_world o)) d r) r url) as K.
  destruct (after_action (observe st o) (record_attempt (lib (obs_world o)) d r) r url)
    as [st1 f].
  cbn [fst] in K. destruct K as (K1 & K2 & K3 & K4).
  assert (G : iteration_count st1 = S (iteration_count st)
              /\ max_iterations st1 = max_iterations st
              /\ (length (error_history st) <= max_error_history ->
                  length (error_history st1) <= max_error_history)
              /\ exists more, failed_actions st1 = (failed_actions st ++ more)%list
                              /\ length more <= 2) by (apply Hobs; auto).
  destruct f as [f|]; [exact G|].
  destruct r as [e | dd a s ar | | [|c ans] | summary]; exact G.
Qed.

Lemma after_action_not_max (st : agent) (rec : option attempt) (r : action_result)
    (url : string) (n : nat) :
  snd (after_action st rec r url) <> Some (MaxIterations n).
Proof.
  unfold after_action.
  destruct r as [e | dd a s ar | | [|c ans] | summary]; cbv zeta;
    try (destruct (has_error _);
         [destruct (max_unchanged_threshold <=? _);
          [|destruct (consecutive_error_threshold <=? _)]|]);
    cbn [snd]; discriminate.
Qed.

Lemma iteration_not_max (st : agent) (o : observation) (n : nat) :
  snd (fst (iteration st o)) <> Some (MaxIterations n).
Proof.
  unfold iteration.
  destruct (analysis_url o) as [url|]; [|discriminate].
  destruct (has_captcha o); [discriminate|].
  destruct (negb (context_builds (observe st o))); [discriminate|].
  destruct (completion o); [discriminate|].
  destruct (decision o) as [d|e]; [|discriminate].
  destruct (_execute_decision (obs_world o) (observe st o) d) as [events [r|e]];
    [|discriminate].
  pose proof (after_action_not_max (observe st o)
                (record_attempt (lib (obs_world o)) d r) r url n) as K.
  destruct (after_action (observe st o) (record_attempt (lib (obs_world o)) d r) r url)
    as [st1 f].
  cbn [snd] in K. destruct f as [f|]; [exact K|].
  destruct r as [e | dd a s ar | | [|c ans] | summary]; discriminate.
Qed.

Lemma loop_stops (st : agent) (observations : list observation) :
  max_iterations st <= iteration_count st ->
  loop st observations = (st, Some (MaxIterations (iteration_count st)), []).
Proof.
  intro H. apply Nat.ltb_ge in H. destruct observations; cbn [loop]; rewrite H; reflexivity.
Qed.

Lemma loop_keeps (observations : list observation) : forall st,
  let st' := fst (fst (loop st observations)) in
  iteration_count st <= iteration_count st'
  /\ iteration_count st' <= iteration_count st + length observations
  /\ (iteration_count st <= max_iterations st -> iteration_count st' <= max_iterations st)
  /\ max_iterations st' = max_iterations st
  /\ (length (error_history st) <= max_error_history ->
      length (error_history st') <= max_error_history)
  /\ (exists more, failed_actions st' = (failed_actions st ++ more)%list
                   /\ length more <= 2 * (iteration_count st' - iteration_count st))
  /\ (forall n, snd (fst (loop st observations)) = Some (MaxIterations n) ->
                n = iteration_count st' /\ max_iterations st <= n).
Proof.
  assert (Hstop : forall st obs,
             max_iterations st <= iteration_count st ->
             let st' := fst (fst (loop st obs)) in
             iteration_count st <= iteration_count st'
             /\ iteration_count st' <= iteration_count st + length obs
             /\ (iteration_count st <= max_iterations st ->
                 iteration_count st' <= max_iterations st)
             /\ max_iterations st' = max_iterations st
             /\ (length (error_history st) <= max_error_history ->
                 length (error_history st') <= max_error_history)
             /\ (exists more, failed_actions st' = (failed_actions st ++ more)%list
                              /\ length more <= 2 * (iteration_count st' - iteration_count st))
             /\ (forall n, snd (fst (loop st obs)) = Some (MaxIterations n) ->
                           n = iteration_count st' /\ max_iterations st <= n)).
  { intros st obs H. rewrite (loop_stops st obs H). cbn [fst snd].
    split; [lia|]. split; [lia|]. split; [auto|]. split; [reflexivity|]. split; [auto|].
    split.
    - exists []. rewrite app_nil_r. split; [reflexivity | simpl; lia].
    - intros n E. injection E as <-. split; [reflexivity | exact H]. }
  induction observations as [|o rest IH]; intro st.
  - destruct (Nat.ltb_spec (iteration_count st) (max_iterations st)) as [Hlt|Hge];
      [|apply Hstop; exact Hge].
    apply Nat.ltb_lt in Hlt. cbn [loop]. rewrite Hlt. cbn [fst snd length].
    split; [lia|]. split; [lia|]. split; [auto|]. split; [reflexivity|]. split; [auto|].
    split.
    + exists []. rewrite app_nil_r. split; [reflexivity | simpl; lia].
    + intros n E. discriminate E.
  - destruct (Nat.ltb_spec (iteration_count st) (max_iterations st)) as [Hlt|Hge];
      [|apply Hstop; exact Hge].
    pose proof Hlt as Hlt'. apply Nat.ltb_lt in Hlt'. cbn [loop]. rewrite Hlt'.
    pose proof (iteration_keeps st o) as K.
    pose proof (iteration_not_max st o) as N.
    destruct (iteration st o) as [[st1 f] events]. cbn [fst snd] in K, N.
    destruct K as (K1 & K2 & K3 & more1 & K4 & K5).
    destruct f as [f|].
    + cbn [fst snd length].
      split; [lia|]. split; [lia|]. split; [lia|]. split; [exact K2|]. split; [exact K3|].
      split.
      * exists more1. split; [exact K4 | lia].
      * intros n E. exfalso. exact (N n E).
    + specialize (IH st1). cbv zeta in IH.
      destruct (loop st1 rest) as [[st2 f2] events2]. cbn [fst snd length] in *.
      destruct IH as (I1 & I2 & I3 & I4 & I5 & (more2 & I6 & I7) & I8).
      split; [lia|]. split; [lia|]. split; [intros _; assert (iteration_count st2 <= max_iterations st1) by (apply I3; lia); lia|].
      split; [congruence|]. split; [auto|]. split.
      * exists (more1 ++ more2)%list. rewrite I6, K4, app_assoc. split; [reflexivity|].
        rewrite length_app. lia.
      * intros n E. destruct (I8 n E) as [-> Hle]. split; [reflexivity|].
        rewrite <- K2. exact Hle.
Qed.

(** X24.  The error history never holds more than five entries during a
    task, whatever the passes find. *)
Theorem error_history_stays_bounded (st : agent) (observations : list observation) :
  length (error_history (fst (fst (_execute_iteratively st observations))))
  <= max_error_history.
Proof.
  unfold _execute_iteratively.
  destruct (loop_keeps observations (set_errors st [] None)) as (_ & _ & _ & _ & H & _).
  apply H. cbn [set_errors error_history length]. unfold max_error_history. lia.
Qed.

(** X25.  When the configuration names no iteration limit (the limit is
    then 50) or names a JSON integer that is not negative, a task makes at
    most that many passes, one per observation; and when it reports that the
    maximum was reached, the counter it reports is exactly the limit.  The
    configuration is not validated: with a negative integer, a fraction or
    another value the stored limit is no natural number, and this says
    nothing about the loop. *)
Theorem task_stops_within_the_iteration_budget (agent_config : dict) (limit : nat)
    (st : agent) (task : Task) (observations : list observation) :
  configured_max_iterations agent_config = Some limit ->
  max_iterations st = limit ->
  let r := _execute_iteratively (enter_task st task) observations in
  iteration_count (fst (fst r)) <= limit
  /\ iteration_count (fst (fst r)) <= length observations
  /\ forall n, snd (fst r) = Some (MaxIterations n) ->
                n = limit /\ n = iteration_count (fst (fst r)).
Proof.
  intros _ <-. cbv zeta. unfold _execute_iteratively.
  destruct (loop_keeps observations (set_errors (enter_task st task) [] None))
    as (_ & H2 & H3 & _ & _ & _ & H7).
  cbn [set_errors enter_task set_iteration_count set_task iteration_count max_iterations]
    in H2, H3, H7.
  specialize (H3 (Nat.le_0_l _)).
  split; [exact H3|]. split; [exact H2|].
  intros n E. destruct (H7 n E) as [-> Hle]. split; [lia | reflexivity].
Qed.

(** A limit of two passes, and three passes to make: the task stops after
    the second and reports two. *)
Lemma two_passes_witness :
  configured_max_iterations [("max_iterations", VInt 2)] = Some 2
  /\ (let r := _execute_iteratively
                 (enter_task (init (configured_max_iterations [("max_iterations", VInt 2)]))
                    Fixtures.gift_task)
                 [Fixtures.pass "fp1"; Fixtures.pass "fp2"; Fixtures.pass "fp3"] in
      iteration_count (fst (fst r)) <= 2
      /\ iteration_count (fst (fst r)) <= 3
      /\ forall n, snd (fst r) = Some (MaxIterations n) ->
                    n = 2 /\ n = iteration_count (fst (fst r))).
Proof.
  split; [reflexivity|].
  apply (task_stops_within_the_iteration_budget [("max_iterations", VInt 2)] 2
           (init (configured_max_iterations [("max_iterations", VInt 2)]))
           Fixtures.gift_task
           [Fixtures.pass "fp1"; Fixtures.pass "fp2"; Fixtures.pass "fp3"]).
  - reflexivity.
  - reflexivity.
Defined.

(** X26.  [execute_task] never drops an attempted action: the list at the
    end of a task is the list the task found, from whatever task it came,
    followed by what this task recorded. *)
Theorem attempted_actions_survive_the_next_task (st : agent) (pre : prelude)
    (observations : list observation) :
  exists more,
    failed_actions (fst (fst (execute_task st pre observations)))
    = (failed_actions st ++ more)%list.
Proof.
  unfold execute_task.
  destruct (analysed pre) as [task|]; [|exists []; rewrite app_nil_r; reflexivity].
  destruct (navigation pre) as [s|]; [exists []; rewrite app_nil_r; reflexivity|].
  unfold _execute_iteratively.
  destruct (loop_keeps observations (set_errors (enter_task st task) [] None))
    as (_ & _ & _ & _ & _ & (more & H & _) & _).
  exists more. exact H.
Qed.

End BrowserAgent_loop.

Section BrowserAgent_navigation.
Import Py BrowserAgent.

Lemma second_attempt (nav : navigator) (fuel : nat) (url : string) :
  let r := open_page nav (S fuel) 1 url in
  (fst r = PageLoaded url \/ exists e, fst r = EarlyReturn (Some e))
  /\ snd r = [NavGoto url].
Proof.
  cbn [open_page]. change (MAX_RETRIES <? 1) with false. cbv iota.
  destruct (nav_goto nav 1 url) as [e|]; [|split; [left|]; reflexivity].
  destruct (is_network_error e).
  - change (2 <=? MAX_RETRIES) with false. cbv iota.
    split; [right; eexists|]; reflexivity.
  - split; [right; eexists|]; reflexivity.
Qed.

(** X27.  The retry loop with which [execute_task] opens the start page
    calls [page.goto] at most twice and the model at most once, and always
    ends by itself (page loaded, or an early return).  When it has loaded a
    page, that page is the start URL at the first attempt, or else a Google
    search for the non-empty query the model gave, spaces replaced by plus
    signs, after the start URL failed to resolve. *)
Theorem start_page_opened_in_two_attempts (nav : navigator) (start_url : string) :
  let r := open_start_page nav start_url in
  length (gotos (snd r)) <= 2
  /\ llm_calls (snd r) <= 1
  /\ (forall u, fst r <> LoopEnded u)
  /\ (forall u, fst r = PageLoaded u ->
        (u = start_url /\ snd r = [NavGoto start_url])
        \/ exists search_query,
             nonempty search_query = true
             /\ u = google_search search_query
             /\ snd r = [NavGoto start_url; NavLlm; NavGoto u]).
Proof.
  cbv zeta. unfold open_start_page.
  remember (S MAX_RETRIES) as fuel eqn:Hfuel. cbn [open_page].
  change (MAX_RETRIES <? 0) with false. cbv iota.
  destruct (nav_goto nav 0 start_url) as [e|].
  2:{ cbn [fst snd gotos llm_calls flat_map filter app length].
      repeat split; try lia; try discriminate.
      intros u H. injection H as <-. left. split; reflexivity. }
  destruct (is_network_error e).
  2:{ cbn [fst snd gotos llm_calls flat_map filter app length].
      repeat split; try lia; discriminate. }
  change (1 <=? MAX_RETRIES) with true. cbv iota.
  assert (Hstop : forall r0 : opened,
             (forall u, r0 <> LoopEnded u) -> (forall u, r0 <> PageLoaded u) ->
             length (gotos (snd (r0, [NavGoto start_url; NavLlm]))) <= 2
             /\ llm_calls (snd (r0, [NavGoto start_url; NavLlm])) <= 1
             /\ (forall u, fst (r0, [NavGoto start_url; NavLlm]) <> LoopEnded u)
             /\ (forall u, fst (r0, [NavGoto start_url; NavLlm]) = PageLoaded u ->
                   (u = start_url /\ snd (r0, [NavGoto start_url; NavLlm]) = [NavGoto start_url])
                   \/ exists search_query,
                        nonempty search_query = true
                        /\ u = google_search search_query
                        /\ snd (r0, [NavGoto start_url; NavLlm])
                           = [NavGoto start_url; NavLlm; NavGoto u])).
  { intros r0 H1 H2. cbn [fst snd gotos llm_calls flat_map filter app length].
    repeat split; try lia; auto. intros u H. exfalso. exact (H2 u H). }
  destruct (nav_llm nav) as [[[|c response]|]|e'];
    try (apply Hstop; intros u; discriminate).
  destruct (nav_json nav (strip (String c response))) as [search_json|m|m];
    try (apply Hstop; intros u; discriminate).
  destruct (search_query_of search_json) as [search_query|e'];
    [|apply Hstop; intros u; discriminate].
  destruct (nonempty search_query) eqn:Hq; [|apply Hstop; intros u; discriminate].
  pose proof (second_attempt nav MAX_RETRIES (google_search search_query)) as S2.
  cbv zeta in S2. rewrite <- Hfuel in S2.
  destruct (open_page nav fuel 1 (google_search search_query)) as [r2 ev2].
  cbn [fst snd] in *. destruct S2 as [Hr ->].
  cbv beta iota. cbn [fst snd gotos llm_calls flat_map filter app length].
  split; [lia|]. split; [lia|]. split.
  - intros u H. destruct Hr as [Hr|[x Hr]]; rewrite Hr in H; discriminate H.
  - intros u H. right. exists search_query.
    destruct Hr as [Hr|[x Hr]]; rewrite Hr in H; [|discriminate H].
    injection H as <-. repeat split; auto.
Qed.

End BrowserAgent_navigation.

(* ================================================================== *)
(** * Properties of the command loop and of the configuration *)
(* ================================================================== *)

Section Main_facts.
Import Py Main.

Lemma tasks_app (a b : list event) : tasks (a ++ b) = (tasks a ++ tasks b)%list.
Proof. apply flat_map_app. Qed.

Lemma report_says (result : value) :
  tasks (fst (report result)) = [] /\ ~ In Shutdown (fst (report result)).
Proof.
  unfold report. destruct result; try (split; [reflexivity | intros []]).
  cbn [fst]. split.
  - cbn [tasks flat_map app]. rewrite !flat_map_app.
    repeat match goal with |- context [if ?c then _ else _] => destruct c end; reflexivity.
  - intros [H|H]; [discriminate H|].
    repeat (apply in_app_or in H; destruct H as [H|H]);
      repeat match type of H with context [if ?c then _ else _] => destruct c end;
      repeat (destruct H as [H|H]; [discriminate H|]); exact H.
Qed.

Lemma main_loop_tasks (run : nat -> string -> outcome) (inputs : list string) : forall n,
  (exists k, tasks (main_loop run n inputs)
             = firstn k (filter nonempty (map strip (before_exit inputs))))
  /\ ((forall i d, run i d <> Interrupted) ->
      tasks (main_loop run n inputs) = filter nonempty (map strip (before_exit inputs)))
  /\ ~ In Shutdown (main_loop run n inputs).
Proof.
  induction inputs as [|line rest IH]; intro n; cbn [main_loop before_exit].
  - split; [exists 0; reflexivity|]. split; [reflexivity|]. intros [H|[]]. discriminate H.
  - destruct (mem (lower (strip line)) exit_words).
    + split; [exists 0; reflexivity|]. split; [reflexivity|]. intros [H|[]]. discriminate H.
    + cbn [map filter]. destruct (nonempty (strip line)) eqn:Hn; cbn [negb].
      * destruct (run n (strip line)) as [result|e|] eqn:Hrun.
        -- destruct (report_says result) as [Rt Rs].
           destruct (IH (S n)) as ((k & Hk) & Hall & Hs).
           destruct (report result) as [said [e|]]; cbn [fst] in Rt, Rs;
             cbn [tasks flat_map app];
             change (flat_map _ ?l) with (tasks l); rewrite tasks_app, Rt; cbn [app tasks flat_map];
             change (flat_map _ ?l) with (tasks l).
           ++ split; [exists (S k); cbn [firstn]; rewrite Hk; reflexivity|].
              split; [intro H; rewrite (Hall H); reflexivity|].
              intros [H|H]; [discriminate H|]. apply in_app_or in H.
              destruct H as [H|[H|H]]; [exact (Rs H) | discriminate H | exact (Hs H)].
           ++ split; [exists (S k); cbn [firstn]; rewrite Hk; reflexivity|].
              split; [intro H; rewrite (Hall H); reflexivity|].
              intros [H|H]; [discriminate H|]. apply in_app_or in H.
              destruct H as [H|H]; [exact (Rs H) | exact (Hs H)].
        -- destruct (IH (S n)) as ((k & Hk) & Hall & Hs).
           cbn [tasks flat_map app]. change (flat_map _ ?l) with (tasks l).
           split; [exists (S k); cbn [firstn]; rewrite Hk; reflexivity|].
           split; [intro H; rewrite (Hall H); reflexivity|].
           intros [H|[H|H]]; [discriminate H | discriminate H | exact (Hs H)].
        -- split; [exists 1; reflexivity|].
           split; [intro H; exfalso; exact (H n (strip line) Hrun)|].
           intros [H|[H|[]]]; discriminate H.
      * destruct (IH n) as ((k & Hk) & Hall & Hs).
        cbn [tasks flat_map app]. change (flat_map _ ?l) with (tasks l).
        split; [exists k; exact Hk|]. split; [exact Hall|].
        intros [H|H]; [discriminate H | exact (Hs H)].
Qed.

(** X28.  [main] hands to the agent only lines typed before the first exit
    word (exit, quit, q, выход, вых, in any case), stripped, and never a blank
    one: the tasks it runs are a prefix of those lines, and all of them when
    the agent starts and no task is interrupted.  When the statements ahead
    of the [try] go through, the agent is shut down exactly once, at the end,
    whatever happens after them.  When one of them raises, as the constructor
    of the agent does without an API key, the exception leaves [main]:
    nothing is run and nothing is shut down.  (The lines are texts of ASCII
    characters and Russian letters.) *)
Theorem main_runs_the_tasks_typed_before_exit (getenv : ConfigLoader.environment)
    (config : value) (task_analyzer : res unit) (initialize : outcome)
    (run : nat -> string -> outcome) (inputs : list string) :
  forallb plain_text inputs = true ->
  let r := main getenv config task_analyzer initialize run inputs in
  let typed := filter nonempty (map strip (before_exit inputs)) in
  (exists k, tasks (fst r) = firstn k typed)
  /\ (before_try getenv config task_analyzer = Ret tt ->
      (exists v, initialize = Returned v) ->
      (forall i d, run i d <> Interrupted) -> tasks (fst r) = typed)
  /\ match before_try getenv config task_analyzer with
     | Ret _ =>
         snd r = None
         /\ exists pre, fst r = (pre ++ [Shutdown; Said Success "✅ Агент остановлен"])%list
                        /\ ~ In Shutdown pre
     | Raise e => r = ([], Some e)
     end
  /\ (forall d e, config = VDict d -> lookup d "logging" = None ->
                  ConfigLoader.get_nvidia_api_config getenv config = Raise e ->
                  r = ([], Some e)).
Proof.
  intros _. cbv zeta. unfold main.
  split; [|split; [|split]].
  - destruct (before_try getenv config task_analyzer) as [[]|e]; cbn [fst];
      [|exists 0; reflexivity].
    unfold main_try.
    destruct (main_loop_tasks run inputs 0) as ((k & Hk) & _ & _).
    destruct initialize as [v|e|]; rewrite tasks_app.
    + change (tasks [Shutdown; Said Success "✅ Агент остановлен"]) with (@nil string).
      rewrite app_nil_r. exists k. exact Hk.
    + exists 0. reflexivity.
    + exists 0. reflexivity.
  - intros -> [v ->] Hrun. cbn [fst]. unfold main_try.
    destruct (main_loop_tasks run inputs 0) as (_ & Hall & _).
    rewrite tasks_app.
    change (tasks [Shutdown; Said Success "✅ Агент остановлен"]) with (@nil string).
    rewrite app_nil_r. exact (Hall Hrun).
  - destruct (before_try getenv config task_analyzer) as [[]|e]; [|reflexivity].
    cbn [fst snd]. split; [reflexivity|]. unfold main_try.
    destruct (main_loop_tasks run inputs 0) as (_ & _ & Hs).
    destruct initialize as [v|e|].
    + exists (main_loop run 0 inputs). split; [reflexivity | exact Hs].
    + exists [Said Error ("Критическая ошибка: " ++ message e)].
      split; [reflexivity|]. intros [H|[]]. discriminate H.
    + exists [Said Warning "Инициализация прервана пользователем (Ctrl+C)"].
      split; [reflexivity|]. intros [H|[]]. discriminate H.
  - intros d e -> Hl Hk. unfold before_try. cbn [get_of bind]. unfold get at 1. rewrite Hl.
    cbn [get_of bind get lookup String.eqb Ascii.eqb Bool.eqb]. rewrite Hk. reflexivity.
Qed.

(** Four lines are typed, the second blank and the third an exit word: the
    first is the one task. *)
Lemma main_one_task_witness :
  forallb plain_text ["open the shop"; " "; "Выход"; "open the bank"] = true
  /\ tasks (fst (main Fixtures.key_in_environment Fixtures.bare_config (Ret tt)
                  (Returned VNone) (fun _ _ => Returned (VDict []))
                  ["open the shop"; " "; "Выход"; "open the bank"]))
     = ["open the shop"].
Proof.
  split; [reflexivity|].
  apply (proj1 (proj2 (main_runs_the_tasks_typed_before_exit Fixtures.key_in_environment
                         Fixtures.bare_config (Ret tt) (Returned VNone)
                         (fun _ _ => Returned (VDict []))
                         ["open the shop"; " "; "Выход"; "open the bank"] eq_refl))).
  - reflexivity.
  - exists VNone. reflexivity.
  - intros i d H. discriminate H.
Defined.

(** X29.  When the host of the start page does not resolve and the model
    answers the request for a search query with nothing, the retry loop of
    [execute_task] makes one [goto] and one model call and the task returns
    None; [main] cannot display that result and logs the AttributeError of
    [None.get] as the error of the task, then asks for the next task. *)
Theorem silent_search_reply_breaks_the_report (nav : BrowserAgent.navigator)
    (start_url e line : string) (rest : list string) (run : nat -> string -> outcome)
    (n : nat) :
  BrowserAgent.nav_goto nav 0 start_url = Some e ->
  BrowserAgent.is_network_error e = true ->
  BrowserAgent.nav_llm nav = Ret None \/ BrowserAgent.nav_llm nav = Ret (Some "") ->
  mem (lower (strip line)) exit_words = false ->
  nonempty (strip line) = true ->
  start_page_result (fst (BrowserAgent.open_start_page nav start_url))
  = Some VNone
  /\ snd (BrowserAgent.open_start_page nav start_url)
     = [BrowserAgent.NavGoto start_url; BrowserAgent.NavLlm]
  /\ (run n (strip line) = Returned VNone ->
      main_loop run n (line :: rest)
      = Executed (strip line)
        :: Said Error "Ошибка выполнения задачи: 'NoneType' object has no attribute 'get'"
        :: main_loop run (S n) rest).
Proof.
  intros Hg Hn Hl Hm Hne.
  assert (E : BrowserAgent.open_start_page nav start_url
              = (BrowserAgent.EarlyReturn None,
                 [BrowserAgent.NavGoto start_url; BrowserAgent.NavLlm])).
  { unfold BrowserAgent.open_start_page.
    remember (S BrowserAgent.MAX_RETRIES) as fuel. cbn [BrowserAgent.open_page].
    change (BrowserAgent.MAX_RETRIES <? 0) with false. cbv iota.
    rewrite Hg, Hn. change (1 <=? BrowserAgent.MAX_RETRIES) with true. cbv iota.
    destruct Hl as [-> | ->]; reflexivity. }
  rewrite E. split; [reflexivity|]. split; [reflexivity|].
  intro Hrun. cbn [main_loop]. rewrite Hm, Hne, Hrun. reflexivity.
Qed.

(** The task "open the shop" on a host that is not found. *)
Lemma silent_search_reply_witness :
  start_page_result (fst (BrowserAgent.open_start_page Fixtures.lost_host
                            "https://shop.example/"))
  = Some VNone
  /\ snd (BrowserAgent.open_start_page Fixtures.lost_host "https://shop.example/")
     = [BrowserAgent.NavGoto "https://shop.example/"; BrowserAgent.NavLlm]
  /\ ((fun _ _ => Returned VNone) 0 (strip "open the shop") = Returned VNone ->
      main_loop (fun _ _ => Returned VNone) 0 ["open the shop"; "exit"]
      = Executed (strip "open the shop")
        :: Said Error "Ошибка выполнения задачи: 'NoneType' object has no attribute 'get'"
        :: main_loop (fun _ _ => Returned VNone) 1 ["exit"]).
Proof.
  apply (silent_search_reply_breaks_the_report Fixtures.lost_host "https://shop.example/"
           "net::ERR_NAME_NOT_RESOLVED at https://shop.example/" "open the shop" ["exit"]
           (fun _ _ => Returned VNone) 0).
  - reflexivity.
  - reflexivity.
  - left. reflexivity.
  - reflexivity.
  - reflexivity.
Defined.

End Main_facts.

Section ConfigLoader_facts.
Import Py ConfigLoader.

(** X30.  A configuration [get_nvidia_api_config] returns always carries a
    usable key: the six entries are there, the key is truthy, and it is
    either the non-empty value of the environment variable the
    configuration names (NVIDIA_API_KEY by default, as is the source "env"),
    or the "value" of a "direct" source, which does not start with YOUR_.
    Any other source raises. *)
Theorem returned_config_carries_a_key (getenv : environment) (config : value) (out : dict) :
  get_nvidia_api_config getenv config = Ret out ->
  map fst out = ["endpoint"; "model"; "api_key"; "generation_params"; "stream";
                 "enable_reasoning"]
  /\ truthy (get out "api_key" VNone) = true
  /\ exists api_config api_key_config source,
       get_of config "nvidia_api" (VDict []) = Ret api_config
       /\ get_of api_config "api_key" (VDict []) = Ret api_key_config
       /\ get_of api_key_config "source" (VStr "env") = Ret (VStr source)
       /\ ((source = "env"
            /\ exists name, get_of api_key_config "env_var" (VStr "NVIDIA_API_KEY")
                            = Ret (VStr name)
                            /\ Some (get out "api_key" VNone) = option_map VStr (getenv name))
           \/ (source = "direct"
               /\ get_of api_key_config "value" VNone = Ret (get out "api_key" VNone)
               /\ startswith (str (get out "api_key" VNone)) "YOUR_" = false)).
Proof.
  unfold get_nvidia_api_config.
  destruct (get_of config "nvidia_api" (VDict [])) as [api_config|e] eqn:H1; cbn [bind];
    [|discriminate].
  destruct (get_of api_config "api_key" (VDict [])) as [api_key_config|e] eqn:H2; cbn [bind];
    [|discriminate].
  destruct (api_key_of getenv api_key_config) as [api_key|e] eqn:Hk; cbn [bind];
    [|discriminate].
  destruct (get_of api_config "endpoint" VNone) as [endpoint|e]; cbn [bind]; [|discriminate].
  destruct (get_of api_config "model" VNone) as [model|e]; cbn [bind]; [|discriminate].
  destruct (get_of api_config "generation_params" (VDict [])) as [gp|e]; cbn [bind];
    [|discriminate].
  destruct (get_of api_config "stream" (VBool false)) as [stream|e]; cbn [bind];
    [|discriminate].
  destruct (get_of api_config "enable_reasoning" (VBool false)) as [er|e]; cbn [bind];
    [|discriminate].
  intro H. injection H as <-.
  split; [reflexivity|].
  change (get _ "api_key" VNone) with api_key.
  unfold api_key_of in Hk.
  destruct (get_of api_key_config "source" (VStr "env")) as [source|e] eqn:H3;
    cbn [bind] in Hk;
    [|discriminate].
  destruct (is_str source "env") eqn:Henv.
  - destruct source as [| | | |s| |]; try discriminate. cbn [is_str] in Henv.
    apply String.eqb_eq in Henv. subst s.
    destruct (get_of api_key_config "env_var" (VStr "NVIDIA_API_KEY")) as [env_var|e] eqn:H4;
      cbn [bind] in Hk; [|discriminate].
    destruct env_var as [| | | |name| |]; try discriminate.
    destruct (getenv name) as [k|] eqn:Hg; [|discriminate].
    destruct (nonempty k) eqn:Hn; [|discriminate].
    injection Hk as <-. split; [exact Hn|].
    exists api_config, api_key_config, "env".
    split; [reflexivity|]. split; [exact H2|]. split; [exact H3|].
    left. split; [reflexivity|]. exists name. rewrite Hg. split; [exact H4 | reflexivity].
  - destruct (is_str source "direct") eqn:Hd; [|discriminate].
    destruct source as [| | | |s| |]; try discriminate. cbn [is_str] in Hd.
    apply String.eqb_eq in Hd. subst s.
    destruct (get_of api_key_config "value" VNone) as [v|e] eqn:H4; cbn [bind] in Hk;
      [|discriminate].
    destruct (truthy v) eqn:Ht; cbn [negb orb] in Hk; [|discriminate].
    destruct (startswith (str v) "YOUR_") eqn:Hy; [discriminate|].
    injection Hk as <-. split; [exact Ht|].
    exists api_config, api_key_config, "direct".
    split; [reflexivity|]. split; [exact H2|]. split; [exact H3|].
    right. split; [reflexivity|]. split; [exact H4 | exact Hy].
Qed.

(** The bare configuration takes the key from NVIDIA_API_KEY. *)
Lemma returned_config_witness :
  exists out,
    get_nvidia_api_config Fixtures.key_in_environment Fixtures.bare_config = Ret out
    /\ get out "api_key" VNone = VStr "nvapi-123"
    /\ truthy (get out "api_key" VNone) = true.
Proof.
  eexists. split; [reflexivity|]. split; [reflexivity|].
  exact (proj1 (proj2 (returned_config_carries_a_key Fixtures.key_in_environment
                         Fixtures.bare_config _ eq_refl))).
Defined.

End ConfigLoader_facts.
